(** * AI Fashion Studio: a shallow embedding of the virtual try-on front end

    The repository holds several near-identical React single-file
    applications.  This development embeds the state-carrying logic of
    two of them,

    - [src/index.tsx]         (three-angle body scan, no selfie), module [Studio];
    - [src/unnamed/part_000]  (three-angle body scan plus optional selfie),
                              module [Twin];

    together with the guided capture component [BodyScanCapture] and the
    [ImageUploader], whose code is the same in both files.  The two
    older versions kept in [src/unnamed/part_001] (a list of up to
    three photos, and a single full-body photo) are not embedded; the
    record with [photos] that the first of them writes is the legacy
    shape that [Studio.migrate] reads.

    React state is modelled by explicit state passing: a component is a
    record of its [useState]/[useRef] cells and every handler is a
    function from the record to the next record, paired with the list of
    callbacks it fired where it fires any.  An [await] splits a handler
    into the part before the call and the part after it; the awaited
    service is an argument.  Strings are byte strings. *)

From Stdlib Require Import String Ascii List ZArith Bool Lia.
From Stdlib Require Import DecimalString DecimalN DecimalPos Permutation.
Import ListNotations.
Open Scope string_scope.
Open Scope list_scope.

(* ===================================================================== *)
(** ** JavaScript values and string primitives used by the handlers *)
(* ===================================================================== *)

Module Js.

(** [!s] is true exactly for the empty string. *)
Definition truthy (s : string) : bool := negb (String.eqb s EmptyString).

(** [x || d] where [x] is a string or [undefined]/[null]. *)
Definition or_else (x : option string) (d : string) : string :=
  match x with
  | Some s => if truthy s then s else d
  | None => d
  end.

(** Interpolation [`${x}`] of a value that may be [undefined]. *)
Definition show (x : option string) : string :=
  match x with
  | Some s => s
  | None => "undefined"
  end.

(** White space removed by [String.prototype.trim], restricted to the
    one-byte code points: TAB, LF, VT, FF, CR and SPACE. *)
Definition is_space (c : ascii) : bool :=
  let n := nat_of_ascii c in
  (Nat.leb 9 n && Nat.leb n 13) || Nat.eqb n 32.

Fixpoint trimStart (s : string) : string :=
  match s with
  | EmptyString => EmptyString
  | String c r => if is_space c then trimStart r else s
  end.

Fixpoint trimEnd (s : string) : string :=
  match s with
  | EmptyString => EmptyString
  | String c r =>
      match trimEnd r with
      | EmptyString => if is_space c then EmptyString else String c EmptyString
      | r' => String c r'
      end
  end.

Definition trim (s : string) : string := trimEnd (trimStart s).

(** The text before the first occurrence of [sep] (all of it when
    there is none). *)
Fixpoint before (sep : ascii) (s : string) : string :=
  match s with
  | EmptyString => EmptyString
  | String c r => if Ascii.eqb c sep then EmptyString else String c (before sep r)
  end.

(** The text after the first occurrence of [sep], if there is one. *)
Fixpoint after (sep : ascii) (s : string) : option string :=
  match s with
  | EmptyString => None
  | String c r => if Ascii.eqb c sep then Some r else after sep r
  end.

(** [s.split(sep)[1]]: the second field, [undefined] when [s] has no
    separator. *)
Definition split_1 (sep : ascii) (s : string) : option string :=
  option_map (before sep) (after sep s).

(** [s.startsWith(p)]. *)
Definition startsWith (s p : string) : bool := String.prefix p s.

(** [s.includes(p)]. *)
Fixpoint includes (s p : string) : bool :=
  String.prefix p s ||
  match s with
  | EmptyString => false
  | String _ r => includes r p
  end.

(** Decimal rendering of a non-negative integer, as in [`${Date.now()}`]. *)
Definition of_number (n : N) : string :=
  NilZero.string_of_uint (N.to_uint n).

Definition comma : ascii := ","%char.
Definition quote : string := String (ascii_of_nat 34) EmptyString.
Definition nl : string := String (ascii_of_nat 10) EmptyString.

End Js.

(* ===================================================================== *)
(** ** Data model (the [type] declarations at the head of both files) *)
(* ===================================================================== *)

Module Page.
Inductive t : Type := home | creator | result | loading | profile.

Definition eqb (a b : t) : bool :=
  match a, b with
  | home, home | creator, creator | result, result
  | loading, loading | profile, profile => true
  | _, _ => false
  end.
End Page.

Module ImageFile.
(** [b64] is produced by [dataUrl.split(',')[1]], hence possibly
    [undefined]. *)
Record t : Type := mk { b64 : option string; mimeType : string }.
End ImageFile.

Inductive Pose : Type :=
  | StandingStraight | SlightTurn | HandsOnHips | WalkingMotion.

Definition Pose_text (p : Pose) : string :=
  match p with
  | StandingStraight => "Standing Straight"
  | SlightTurn => "Slight 3/4 Turn"
  | HandsOnHips => "Hands on Hips"
  | WalkingMotion => "Walking Motion"
  end.

Inductive BodyType : Type :=
  | Rectangle | Triangle | InvertedTriangle | Hourglass | Round.

Definition BodyType_text (b : BodyType) : string :=
  match b with
  | Rectangle => "Rectangle"
  | Triangle => "Triangle"
  | InvertedTriangle => "Inverted Triangle"
  | Hourglass => "Hourglass"
  | Round => "Round"
  end.

Module BodyScan.
Record t : Type := mk {
  front : option ImageFile.t;
  side : option ImageFile.t;
  back : option ImageFile.t
}.
(** The literal [{ front: null, side: null, back: null }]. *)
Definition empty : t := mk None None None.
End BodyScan.

Module SavedOutfit.
Record t : Type := mk { id : string; name : string; image : string }.
End SavedOutfit.

Module BodyScanStep.
Inductive t : Type := front | side | back.
End BodyScanStep.

(* ===================================================================== *)
(** ** The generative-image service (types of [@google/genai] the code reads) *)
(* ===================================================================== *)

Module GenAI.

Record Blob : Type := mkBlob { data : option string; mimeType : option string }.

(** A part of a request or of a response: inline data, text, or both. *)
Record Part : Type := mkPart { inlineData : option Blob; text : option string }.

Record Content : Type := mkContent { parts : option (list Part) }.
Record Candidate : Type := mkCandidate { content : option Content }.

(** [response.text] is a getter of the library; it is kept as a field. *)
Record Response : Type := mkResponse {
  candidates : option (list Candidate);
  response_text : option string
}.

(** What [await ai.models.generateContent(...)] does: it yields a
    response or throws an error [e] with [e.message]. *)
Inductive Outcome : Type :=
  | Resolved (r : Response)
  | Rejected (message : option string).

Record Request : Type := mkRequest {
  model : string;
  contents : list Part;
  responseModalities : list string
}.

Definition image_part (img : ImageFile.t) : Part :=
  mkPart (Some (mkBlob (ImageFile.b64 img) (Some (ImageFile.mimeType img)))) None.

Definition text_part (s : string) : Part := mkPart None (Some s).

Definition is_text (p : Part) : bool :=
  match inlineData p, text p with
  | None, Some _ => true
  | _, _ => false
  end.

End GenAI.


(* ===================================================================== *)
(** ** [BodyScanCapture]: the guided three-angle capture component
       ([src/index.tsx] 41-139, [src/unnamed/part_000] 61-159) *)
(* ===================================================================== *)

Module BodyScanCapture.

(** The callbacks of the props, and the two actions on the camera that
    a caller can observe. *)
Inductive Emit : Type :=
  | onComplete (scans : BodyScan.t)
  | onClose
  | setError (msg : string)
  | drawImage (dataUrl : string)
  | stopTracks.

(** A live [window.setInterval] timer together with the variable
    [count] its callback closes over. *)
Record Interval : Type := mkInterval { handle : positive; count : Z }.

Record State : Type := mkState {
  step : BodyScanStep.t;
  images : BodyScan.t;
  preview : option string;
  countdown : option Z;
  countdownIntervalRef : option positive;
  streamRef : bool;
  intervals : list Interval;
  nextHandle : positive
}.

(** The component as mounted: the initial values of its hooks. *)
Definition init : State :=
  mkState BodyScanStep.front BodyScan.empty None None None false [] 1%positive.

(** What the callback of the timer finds when it fires:
    [videoRef.current], [canvas.getContext('2d')] and the result of
    [canvas.toDataURL('image/jpeg')]. *)
Record Camera : Type := mkCamera {
  videoRef : bool;
  context : bool;
  dataUrl : string
}.

Definition setStep (v : BodyScanStep.t) (s : State) : State :=
  mkState v (images s) (preview s) (countdown s) (countdownIntervalRef s)
          (streamRef s) (intervals s) (nextHandle s).

Definition setImages (v : BodyScan.t) (s : State) : State :=
  mkState (step s) v (preview s) (countdown s) (countdownIntervalRef s)
          (streamRef s) (intervals s) (nextHandle s).

Definition setPreview (v : option string) (s : State) : State :=
  mkState (step s) (images s) v (countdown s) (countdownIntervalRef s)
          (streamRef s) (intervals s) (nextHandle s).

Definition setCountdown (v : option Z) (s : State) : State :=
  mkState (step s) (images s) (preview s) v (countdownIntervalRef s)
          (streamRef s) (intervals s) (nextHandle s).

Definition setStreamRef (v : bool) (s : State) : State :=
  mkState (step s) (images s) (preview s) (countdown s) (countdownIntervalRef s)
          v (intervals s) (nextHandle s).

(** [window.setInterval(cb, 1000)] where [cb] closes over [count = c];
    the handle is stored in [countdownIntervalRef.current]. *)
Definition setInterval (c : Z) (s : State) : State :=
  mkState (step s) (images s) (preview s) (countdown s) (Some (nextHandle s))
          (streamRef s) (intervals s ++ [mkInterval (nextHandle s) c])
          (Pos.succ (nextHandle s)).

Definition clearInterval (h : positive) (s : State) : State :=
  mkState (step s) (images s) (preview s) (countdown s) (countdownIntervalRef s)
          (streamRef s)
          (filter (fun i => negb (Pos.eqb (handle i) h)) (intervals s))
          (nextHandle s).

(** [count -= 1] in the closure of timer [h]. *)
Definition decrement (h : positive) (s : State) : State :=
  mkState (step s) (images s) (preview s) (countdown s) (countdownIntervalRef s)
          (streamRef s)
          (map (fun i => if Pos.eqb (handle i) h
                         then mkInterval h (count i - 1) else i) (intervals s))
          (nextHandle s).

Definition find_interval (h : positive) (s : State) : option Interval :=
  find (fun i => Pos.eqb (handle i) h) (intervals s).

(** [handleCapture] *)
Definition handleCapture (s : State) : State :=
  match countdown s with
  | Some _ => s
  | None => setInterval 3 (setCountdown (Some 3%Z) s)
  end.

(** One firing of the callback passed to [setInterval] by
    [handleCapture], for the timer with handle [h]. *)
Definition tick (cam : Camera) (h : positive) (s : State) : State * list Emit :=
  match find_interval h s with
  | None => (s, [])
  | Some i =>
      let c := (count i - 1)%Z in
      let s := decrement h s in
      let s := setCountdown (if (c >? 0)%Z then Some c else None) s in
      if (c =? 0)%Z then
        let s := match countdownIntervalRef s with
                 | Some r => clearInterval r s
                 | None => s
                 end in
        if negb (videoRef cam) then (s, [])
        else if context cam
             then (setPreview (Some (dataUrl cam)) s, [drawImage (dataUrl cam)])
             else (s, [])
      else (s, [])
  end.

(** [handleRetake] *)
Definition handleRetake (s : State) : State := setPreview None s.

(** [{ ...images, [step]: img }] *)
Definition with_slot (st : BodyScanStep.t) (img : ImageFile.t) (b : BodyScan.t)
  : BodyScan.t :=
  match st with
  | BodyScanStep.front => BodyScan.mk (Some img) (BodyScan.side b) (BodyScan.back b)
  | BodyScanStep.side => BodyScan.mk (BodyScan.front b) (Some img) (BodyScan.back b)
  | BodyScanStep.back => BodyScan.mk (BodyScan.front b) (BodyScan.side b) (Some img)
  end.

(** [handleConfirm] *)
Definition handleConfirm (s : State) : State * list Emit :=
  match preview s with
  | None => (s, [])
  | Some p =>
      if negb (Js.truthy p) then (s, [])
      else
        let base64 := Js.split_1 Js.comma p in
        let newImages :=
          with_slot (step s) (ImageFile.mk base64 "image/jpeg") (images s) in
        let s := setPreview None (setImages newImages s) in
        match step s with
        | BodyScanStep.front => (setStep BodyScanStep.side s, [])
        | BodyScanStep.side => (setStep BodyScanStep.back s, [])
        | BodyScanStep.back => (s, [onComplete newImages; onClose])
        end
  end.

(** The effect of [useEffect]: [startCamera] after its [await], for a
    granted and for a refused permission, and the clean-up function. *)
Definition startCamera_granted (video_mounted : bool) (s : State) : State :=
  if video_mounted then setStreamRef true s else s.

Definition startCamera_denied (s : State) : State * list Emit :=
  (s, [setError "Camera access was denied. Please enable camera permissions in your browser settings.";
       onClose]).

Definition cleanup (s : State) : State * list Emit :=
  let out := if streamRef s then [stopTracks] else [] in
  match countdownIntervalRef s with
  | Some r => (clearInterval r s, out)
  | None => (s, out)
  end.

(** The events of a mounted session and their interpretation: the
    three buttons, a firing of a timer, and the effect.  The effect
    depends on [onClose] (line 78), which the profile page creates anew
    at each of its renders (line 367): its clean-up and [startCamera]
    can therefore run again while the session is mounted. *)
Inductive Event : Type :=
  | Capture
  | Tick (cam : Camera) (h : positive)
  | Retake
  | Confirm
  | Cleanup
  | Granted (video_mounted : bool)
  | Denied.

Definition step_event (e : Event) (s : State) : State * list Emit :=
  match e with
  | Capture => (handleCapture s, [])
  | Tick cam h => tick cam h s
  | Retake => (handleRetake s, [])
  | Confirm => handleConfirm s
  | Cleanup => cleanup s
  | Granted video_mounted => (startCamera_granted video_mounted s, [])
  | Denied => startCamera_denied s
  end.

Fixpoint run (es : list Event) (s : State) : State * list Emit :=
  match es with
  | [] => (s, [])
  | e :: es' =>
      let (s1, out1) := step_event e s in
      let (s2, out2) := run es' s1 in
      (s2, out1 ++ out2)
  end.

(** The values of [countdown] seen after each event of a run. *)
Fixpoint observe (es : list Event) (s : State) : list (option Z) :=
  match es with
  | [] => []
  | e :: es' =>
      let s1 := fst (step_event e s) in
      countdown s1 :: observe es' s1
  end.

(** The confirm actions of a run that found a pending still, in order:
    the step at which each was made and the still it confirmed. *)
Fixpoint confirmed (es : list Event) (s : State)
  : list (BodyScanStep.t * string) :=
  match es with
  | [] => []
  | e :: es' =>
      let rest := confirmed es' (fst (step_event e s)) in
      match e, preview s with
      | Confirm, Some p => if Js.truthy p then (step s, p) :: rest else rest
      | _, _ => rest
      end
  end.

Definition is_drawImage (e : Emit) : bool :=
  match e with drawImage _ => true | _ => false end.

Definition is_onComplete (e : Emit) : bool :=
  match e with onComplete _ => true | _ => false end.

End BodyScanCapture.


(* ===================================================================== *)
(** ** [src/index.tsx]: the application with a three-angle body scan *)
(* ===================================================================== *)

Module Studio.

Record Profile : Type := mkProfile {
  name : string;
  bodyScans : BodyScan.t;
  height : string;
  weight : string;
  bodyType : option BodyType;
  chest : option string;
  waist : option string;
  hips : option string;
  savedOutfits : list SavedOutfit.t
}.

(** The object that [JSON.parse] returns for the item ['userProfile'] of
    [localStorage].  It may have been written by an earlier version of
    the application: with a list [photos] in place of [bodyScans], or
    without [savedOutfits].  [None] is an absent (or [null]) field. *)
Module Stored.
Record t : Type := mk {
  name : string;
  photos : option (list ImageFile.t);
  bodyScans : option BodyScan.t;
  height : string;
  weight : string;
  bodyType : option BodyType;
  chest : option string;
  waist : option string;
  hips : option string;
  savedOutfits : option (list SavedOutfit.t)
}.
End Stored.

(** [JSON.parse(JSON.stringify(p))] for a profile of the current shape. *)
Definition stringify (p : Profile) : Stored.t :=
  Stored.mk (name p) None (Some (bodyScans p)) (height p) (weight p)
            (bodyType p) (chest p) (waist p) (hips p) (Some (savedOutfits p)).

(** The three steps of the profile-loading effect (lines 435-448), each
    an update in place of the parsed object. *)
Definition migrate_photos (sp : Stored.t) : Stored.t :=
  match Stored.photos sp with
  | Some ph =>
      Stored.mk (Stored.name sp) None
        (Some (BodyScan.mk (nth_error ph 0) (nth_error ph 1) (nth_error ph 2)))
        (Stored.height sp) (Stored.weight sp) (Stored.bodyType sp)
        (Stored.chest sp) (Stored.waist sp) (Stored.hips sp)
        (Stored.savedOutfits sp)
  | None => sp
  end.

Definition migrate_bodyScans (sp : Stored.t) : Stored.t :=
  match Stored.bodyScans sp with
  | Some _ => sp
  | None =>
      Stored.mk (Stored.name sp) (Stored.photos sp) (Some BodyScan.empty)
        (Stored.height sp) (Stored.weight sp) (Stored.bodyType sp)
        (Stored.chest sp) (Stored.waist sp) (Stored.hips sp)
        (Stored.savedOutfits sp)
  end.

Definition migrate_savedOutfits (sp : Stored.t) : Stored.t :=
  match Stored.savedOutfits sp with
  | Some _ => sp
  | None =>
      Stored.mk (Stored.name sp) (Stored.photos sp) (Stored.bodyScans sp)
        (Stored.height sp) (Stored.weight sp) (Stored.bodyType sp)
        (Stored.chest sp) (Stored.waist sp) (Stored.hips sp)
        (Some [])
  end.

Definition migrate (sp : Stored.t) : Stored.t :=
  migrate_savedOutfits (migrate_bodyScans (migrate_photos sp)).

(** A record is of the current shape when it has no [photos] and has
    both [bodyScans] and [savedOutfits]. *)
Definition is_current (sp : Stored.t) : bool :=
  match Stored.photos sp, Stored.bodyScans sp, Stored.savedOutfits sp with
  | None, Some _, Some _ => true
  | _, _, _ => false
  end.

(** Reading an object of the current shape as a [Profile]. *)
Definition as_profile (sp : Stored.t) : option Profile :=
  match Stored.photos sp, Stored.bodyScans sp, Stored.savedOutfits sp with
  | None, Some b, Some l =>
      Some (mkProfile (Stored.name sp) b (Stored.height sp) (Stored.weight sp)
              (Stored.bodyType sp) (Stored.chest sp) (Stored.waist sp)
              (Stored.hips sp) l)
  | _, _, _ => None
  end.

(* --------------------------------------------------------------------- *)
(** *** [ProfilePage] (lines 225-260) *)

Module ProfilePage.

Inductive Emit : Type :=
  | onSave (p : Profile)
  | setPage (pg : Page.t).

Record State : Type := mkState {
  name : string;
  bodyScans : BodyScan.t;
  height : string;
  weight : string;
  bodyType : option BodyType;
  chest : string;
  waist : string;
  hips : string;
  savedOutfits : list SavedOutfit.t;
  localError : option string;
  isScanning : bool
}.

(** The initial values of the hooks, from the [profile] prop. *)
Definition mount (profile : option Profile) : State :=
  match profile with
  | Some p =>
      mkState (Studio.name p) (Studio.bodyScans p) (Studio.height p)
              (Studio.weight p) (Studio.bodyType p)
              (Js.or_else (Studio.chest p) EmptyString)
              (Js.or_else (Studio.waist p) EmptyString)
              (Js.or_else (Studio.hips p) EmptyString)
              (Studio.savedOutfits p) None false
  | None =>
      mkState EmptyString BodyScan.empty EmptyString EmptyString None
              EmptyString EmptyString EmptyString [] None false
  end.

Definition setBodyScans (v : BodyScan.t) (s : State) : State :=
  mkState (name s) v (height s) (weight s) (bodyType s) (chest s) (waist s)
          (hips s) (savedOutfits s) (localError s) (isScanning s).

Definition setSavedOutfits (v : list SavedOutfit.t) (s : State) : State :=
  mkState (name s) (bodyScans s) (height s) (weight s) (bodyType s) (chest s)
          (waist s) (hips s) v (localError s) (isScanning s).

Definition setLocalError (v : option string) (s : State) : State :=
  mkState (name s) (bodyScans s) (height s) (weight s) (bodyType s) (chest s)
          (waist s) (hips s) (savedOutfits s) v (isScanning s).

Definition setIsScanning (v : bool) (s : State) : State :=
  mkState (name s) (bodyScans s) (height s) (weight s) (bodyType s) (chest s)
          (waist s) (hips s) (savedOutfits s) (localError s) v.

(** The form fields: [setName], [setHeight], [setWeight], [setBodyType],
    [setChest], [setWaist], [setHips]. *)
Inductive Field : Type :=
  | Name (v : string) | Height (v : string) | Weight (v : string)
  | Shape (v : BodyType)
  | Chest (v : string) | Waist (v : string) | Hips (v : string).

Definition setField (f : Field) (s : State) : State :=
  match f with
  | Name v => mkState v (bodyScans s) (height s) (weight s) (bodyType s)
                (chest s) (waist s) (hips s) (savedOutfits s) (localError s)
                (isScanning s)
  | Height v => mkState (name s) (bodyScans s) v (weight s) (bodyType s)
                (chest s) (waist s) (hips s) (savedOutfits s) (localError s)
                (isScanning s)
  | Weight v => mkState (name s) (bodyScans s) (height s) v (bodyType s)
                (chest s) (waist s) (hips s) (savedOutfits s) (localError s)
                (isScanning s)
  | Shape v => mkState (name s) (bodyScans s) (height s) (weight s) (Some v)
                (chest s) (waist s) (hips s) (savedOutfits s) (localError s)
                (isScanning s)
  | Chest v => mkState (name s) (bodyScans s) (height s) (weight s) (bodyType s)
                v (waist s) (hips s) (savedOutfits s) (localError s)
                (isScanning s)
  | Waist v => mkState (name s) (bodyScans s) (height s) (weight s) (bodyType s)
                (chest s) v (hips s) (savedOutfits s) (localError s)
                (isScanning s)
  | Hips v => mkState (name s) (bodyScans s) (height s) (weight s) (bodyType s)
                (chest s) (waist s) v (savedOutfits s) (localError s)
                (isScanning s)
  end.

(** The object literal [{ name, bodyScans, height, weight, bodyType,
    chest, waist, hips, savedOutfits: l }]. *)
Definition profile_of (s : State) (l : list SavedOutfit.t) : Profile :=
  mkProfile (name s) (bodyScans s) (height s) (weight s) (bodyType s)
            (Some (chest s)) (Some (waist s)) (Some (hips s)) l.

Definition is_some {A : Type} (x : option A) : bool :=
  match x with Some _ => true | None => false end.

(** The guard of [handleSave]: [!name || !bodyScans.front ||
    !bodyScans.side || !bodyScans.back || !height || !weight]. *)
Definition incomplete (s : State) : bool :=
  negb (Js.truthy (name s))
  || negb (is_some (BodyScan.front (bodyScans s)))
  || negb (is_some (BodyScan.side (bodyScans s)))
  || negb (is_some (BodyScan.back (bodyScans s)))
  || negb (Js.truthy (height s))
  || negb (Js.truthy (weight s)).

(** [handleSave] *)
Definition handleSave (s : State) : State * list Emit :=
  if incomplete s then
    (setLocalError
       (Some "Please complete your name, measurements, and the 3-angle body scan.") s,
     [])
  else (s, [onSave (profile_of s (savedOutfits s)); setPage Page.creator]).

(** [handleScanComplete] *)
Definition handleScanComplete (scans : BodyScan.t) (s : State) : State :=
  setIsScanning false (setBodyScans scans s).

(** [handleDeleteOutfit] *)
Definition handleDeleteOutfit (idToDelete : string) (s : State)
  : State * list Emit :=
  let updatedOutfits :=
    filter (fun outfit => negb (String.eqb (SavedOutfit.id outfit) idToDelete))
           (savedOutfits s) in
  (setSavedOutfits updatedOutfits s, [onSave (profile_of s updatedOutfits)]).

(** The props handed to [BodyScanCapture] (line 367): what each of its
    callbacks does to the page. *)
Definition from_capture (e : BodyScanCapture.Emit) (s : State) : State :=
  match e with
  | BodyScanCapture.onComplete scans => handleScanComplete scans s
  | BodyScanCapture.onClose => setIsScanning false s
  | BodyScanCapture.setError msg => setLocalError (Some msg) s
  | BodyScanCapture.drawImage _ => s
  | BodyScanCapture.stopTracks => s
  end.

End ProfilePage.

(* --------------------------------------------------------------------- *)
(** *** [App] (lines 391-584) *)

Record State : Type := mkState {
  page : Page.t;
  pageKey : N;
  profile : option Profile;
  clothingImage : option ImageFile.t;
  selectedPose : Pose;
  resultImage : option string;
  error : option string;
  isSavingOutfit : bool;
  newOutfitName : string;
  isOutfitSaved : bool;
  (** the item ['userProfile'] of [localStorage] *)
  localStorage : option Stored.t
}.

(** The initial values of the hooks; [now] is the value of [Date.now()]
    and [ls] the content of the browser's storage. *)
Definition init (now : N) (ls : option Stored.t) : State :=
  mkState Page.loading now None None StandingStraight None None false
          EmptyString false ls.

Definition setPage (v : Page.t) (s : State) : State :=
  mkState v (pageKey s) (profile s) (clothingImage s) (selectedPose s)
          (resultImage s) (error s) (isSavingOutfit s) (newOutfitName s)
          (isOutfitSaved s) (localStorage s).

Definition setPageKey (v : N) (s : State) : State :=
  mkState (page s) v (profile s) (clothingImage s) (selectedPose s)
          (resultImage s) (error s) (isSavingOutfit s) (newOutfitName s)
          (isOutfitSaved s) (localStorage s).

Definition setProfile (v : option Profile) (s : State) : State :=
  mkState (page s) (pageKey s) v (clothingImage s) (selectedPose s)
          (resultImage s) (error s) (isSavingOutfit s) (newOutfitName s)
          (isOutfitSaved s) (localStorage s).

Definition setClothingImage (v : option ImageFile.t) (s : State) : State :=
  mkState (page s) (pageKey s) (profile s) v (selectedPose s)
          (resultImage s) (error s) (isSavingOutfit s) (newOutfitName s)
          (isOutfitSaved s) (localStorage s).

Definition setSelectedPose (v : Pose) (s : State) : State :=
  mkState (page s) (pageKey s) (profile s) (clothingImage s) v
          (resultImage s) (error s) (isSavingOutfit s) (newOutfitName s)
          (isOutfitSaved s) (localStorage s).

Definition setResultImage (v : option string) (s : State) : State :=
  mkState (page s) (pageKey s) (profile s) (clothingImage s) (selectedPose s)
          v (error s) (isSavingOutfit s) (newOutfitName s)
          (isOutfitSaved s) (localStorage s).

Definition setError (v : option string) (s : State) : State :=
  mkState (page s) (pageKey s) (profile s) (clothingImage s) (selectedPose s)
          (resultImage s) v (isSavingOutfit s) (newOutfitName s)
          (isOutfitSaved s) (localStorage s).

Definition setIsSavingOutfit (v : bool) (s : State) : State :=
  mkState (page s) (pageKey s) (profile s) (clothingImage s) (selectedPose s)
          (resultImage s) (error s) v (newOutfitName s)
          (isOutfitSaved s) (localStorage s).

Definition setNewOutfitName (v : string) (s : State) : State :=
  mkState (page s) (pageKey s) (profile s) (clothingImage s) (selectedPose s)
          (resultImage s) (error s) (isSavingOutfit s) v
          (isOutfitSaved s) (localStorage s).

Definition setIsOutfitSaved (v : bool) (s : State) : State :=
  mkState (page s) (pageKey s) (profile s) (clothingImage s) (selectedPose s)
          (resultImage s) (error s) (isSavingOutfit s) (newOutfitName s)
          v (localStorage s).

(** [localStorage.setItem('userProfile', JSON.stringify(p))] when the
    call returns.  The call can also throw (storage full); the handlers
    that make it take a flag [writable] and stop at the call when it is
    [false]. *)
Definition setItem (p : Profile) (s : State) : State :=
  mkState (page s) (pageKey s) (profile s) (clothingImage s) (selectedPose s)
          (resultImage s) (error s) (isSavingOutfit s) (newOutfitName s)
          (isOutfitSaved s) (Some (stringify p)).

(** [changePage] *)
Definition changePage (now : N) (newPage : Page.t) (s : State) : State :=
  setPage newPage (setPageKey now s).

(** The effect that loads the profile when the application starts
    (lines 431-454). *)
Definition load (now : N) (s : State) : State :=
  match localStorage s with
  | Some savedProfile =>
      changePage now Page.home (setProfile (as_profile (migrate savedProfile)) s)
  | None => changePage now Page.profile s
  end.

(** [handleSaveProfile] (lines 456-459).  [writable] tells whether
    [localStorage.setItem] stores the text; when the storage is full it
    throws, and nothing here catches it: the handler, and the handler
    that called it, end at that point, after [setProfile]. *)
Definition handleSaveProfile (writable : bool) (newProfile : Profile)
  (s : State) : State :=
  let s := setProfile (Some newProfile) s in
  if writable then setItem newProfile s else s.

(** The text block [userProvidedProfile] (lines 486-493). *)
Definition optional_line (label : string) (v : option string) (unit : string)
  : string :=
  match v with
  | Some x => if Js.truthy x then (label ++ x ++ unit)%string else EmptyString
  | None => EmptyString
  end.

Definition userProvidedProfile (p : Profile) : string :=
  Js.trim
    (String.concat Js.nl
       [EmptyString;
        ("- Height: " ++ height p ++ " feet")%string;
        ("- Weight: " ++ weight p ++ " kilograms")%string;
        match bodyType p with
        | Some b => ("- Body Type: " ++ BodyType_text b)%string
        | None => EmptyString
        end;
        optional_line "- Chest: " (chest p) " inches";
        optional_line "- Waist: " (waist p) " inches";
        optional_line "- Hips: " (hips p) " inches";
        "        "]).

(** The template literal of [textPart] (lines 496-523). *)
Definition prompt (p : Profile) (selectedPose : Pose) : string :=
  String.concat Js.nl
   [EmptyString;
    "**Primary Goal:** Create a hyper-realistic virtual try-on image by acting as a master digital artist and clothing simulation expert. Follow this strict, multi-step process with absolute precision.";
    EmptyString;
    "**Step 1 (Highest Priority): Deep Biometric Analysis & 3D Body Profile Creation.**";
    ("Your first and most critical task is to perform a deep analysis of the three provided reference photos of " ++ name p ++ " (front, side, and back views). Cross-reference them with the user-provided body profile below to construct a complete 3D understanding of their physique.")%string;
    "- **User-Provided Body Profile (Primary Truth):**";
    userProvidedProfile p;
    "- **Photo Analysis:** Analyze their unique body structure from the three distinct angles: shoulder-to-hip ratio, torso length, limb thickness (arms and legs), posture, body curvature, and overall body fat distribution. The three views are essential to create an accurate 3D model.";
    EmptyString;
    "**Step 2: Accurate Body Reconstruction.**";
    ("Using the detailed biometric profile from Step 1, reconstruct a photorealistic, full-body model of " ++ name p ++ ".")%string;
    "- The model's physique **must** be a direct and accurate representation of the user-provided profile and the 3-angle photo scan.";
    "- Do not use a generic or idealized body shape. The generated body's proportions and build must perfectly match the analysis from Step 1.";
    EmptyString;
    "**Step 3: Seamless Facial Integration.**";
    ("Once the accurate body has been reconstructed, integrate the face of " ++ name p ++ " from the reference photos.")%string;
    "- **Identity Preservation:** Recreate the face with 100% fidelity. Do not alter facial structure or features.";
    "- **Realistic Blending:** Analyze and replicate the lighting, shadows, and skin texture from the reference photos. The face must blend perfectly with the neck, and the lighting on the face must match the lighting of the overall scene.";
    EmptyString;
    "**Step 4: Realistic Clothing Simulation.**";
    "Finally, simulate how the provided clothing would realistically fit on the body you reconstructed in Step 2.";
    "- Analyze the clothing's material, cut, and texture from its photo.";
    "- Realistically render how it drapes, folds, stretches, and creases on the unique body shape.";
    ("- **Crucially, do not create an idealized or " ++ Js.quote ++ "perfect" ++ Js.quote ++ " fit.** If the item would be tight, loose, or unflattering in certain areas on this specific body, you must render it that way.")%string;
    EmptyString;
    "**Final Output:**";
    ("Combine the results into a single, cohesive, photorealistic image. The person should be in the requested **" ++ Pose_text selectedPose ++ "** pose against a clean, minimalist, light gray studio background. The final image should be indistinguishable from a real photograph.")%string;
    EmptyString].

(** The array [parts] (lines 479-526) for a complete scan. *)
Definition parts_of (clothingImage : ImageFile.t) (p : Profile)
  (front side back : ImageFile.t) (selectedPose : Pose) : list GenAI.Part :=
  let clothingPart := GenAI.image_part clothingImage in
  let personParts :=
    [GenAI.image_part front; GenAI.image_part side; GenAI.image_part back] in
  let textPart := GenAI.text_part (prompt p selectedPose) in
  [clothingPart] ++ personParts ++ [textPart].

Definition request_of (parts : list GenAI.Part) : GenAI.Request :=
  GenAI.mkRequest "gemini-2.5-flash-image-preview" parts ["IMAGE"; "TEXT"].

(** [handleGenerate] up to its [await]: the state it leaves and the
    request it sends, if it sends one (lines 461-535). *)
Definition handleGenerate_begin (now : N) (s : State)
  : State * option GenAI.Request :=
  match clothingImage s, profile s with
  | Some clothing, Some p =>
      match BodyScan.front (bodyScans p), BodyScan.side (bodyScans p),
            BodyScan.back (bodyScans p) with
      | Some f, Some sd, Some b =>
          let s := changePage now Page.loading s in
          let s := setError None s in
          let s := setResultImage None s in
          (s, Some (request_of (parts_of clothing p f sd b (selectedPose s))))
      | _, _, _ =>
          let s := setError
            (Some "Please complete the 3-angle body scan in your profile for best results.") s in
          (changePage now Page.profile s, None)
      end
  | _, _ =>
      (setError
         (Some "Please upload a clothing item and ensure your profile is complete.") s,
       None)
  end.

(** [response.candidates?.[0]?.content?.parts?.find(part => part.inlineData)] *)
Definition find_imagePart (response : GenAI.Response) : option GenAI.Part :=
  match GenAI.candidates response with
  | Some (c :: _) =>
      match GenAI.content c with
      | Some ct =>
          match GenAI.parts ct with
          | Some ps =>
              find (fun part => match GenAI.inlineData part with
                                | Some _ => true
                                | None => false
                                end) ps
          | None => None
          end
      | None => None
      end
  | _ => None
  end.

Definition no_image_text : string :=
  "No image was generated. The model may have refused the request due to safety policies. Please try a different set of images.".

(** [`data:${blob.mimeType};base64,${blob.data}`] *)
Definition data_url (blob : GenAI.Blob) : string :=
  ("data:" ++ Js.show (GenAI.mimeType blob) ++ ";base64,"
   ++ Js.show (GenAI.data blob))%string.

(** [handleGenerate] from the point where the [await] returns or throws
    (lines 537-550). *)
Definition handleGenerate_end (now : N) (o : GenAI.Outcome) (s : State) : State :=
  match o with
  | GenAI.Resolved response =>
      match find_imagePart response with
      | Some {| GenAI.inlineData := Some blob |} =>
          changePage now Page.result (setResultImage (Some (data_url blob)) s)
      | _ =>
          let textResponse :=
            Js.or_else (GenAI.response_text response) no_image_text in
          changePage now Page.creator
            (setError
               (Some ("Failed to generate image. Response: " ++ textResponse)%string) s)
      end
  | GenAI.Rejected message =>
      changePage now Page.creator
        (setError (Some (Js.or_else message "An unexpected error occurred.")) s)
  end.

(** One whole invocation of [handleGenerate] against a service [ai]: the
    final state and the requests that reached the service.  [now] and
    [later] are the two readings of the clock. *)
Definition handleGenerate (ai : GenAI.Request -> GenAI.Outcome)
  (now later : N) (s : State) : State * list GenAI.Request :=
  match handleGenerate_begin now s with
  | (s1, Some req) => (handleGenerate_end later (ai req) s1, [req])
  | (s1, None) => (s1, [])
  end.

(** [handleReset] *)
Definition handleReset (now : N) (s : State) : State :=
  let s := setClothingImage None s in
  let s := setSelectedPose StandingStraight s in
  let s := setResultImage None s in
  let s := setError None s in
  let s := setIsSavingOutfit false s in
  let s := setNewOutfitName EmptyString s in
  let s := setIsOutfitSaved false s in
  changePage now Page.creator s.

(** The object literals of [handleSaveOutfit] (lines 567-576). *)
Definition newOutfit (now : N) (outfitName image : string) : SavedOutfit.t :=
  SavedOutfit.mk ("outfit_" ++ Js.of_number now)%string outfitName image.

Definition updatedProfile (p : Profile) (o : SavedOutfit.t) : Profile :=
  mkProfile (name p) (bodyScans p) (height p) (weight p) (bodyType p)
            (chest p) (waist p) (hips p) (savedOutfits p ++ [o]).

(** [handleSaveOutfit] (lines 564-582).  When [localStorage.setItem]
    throws, the two calls after it are not made. *)
Definition handleSaveOutfit (writable : bool) (now : N) (s : State) : State :=
  match resultImage s, profile s with
  | Some img, Some p =>
      if negb (Js.truthy (Js.trim (newOutfitName s))) || negb (Js.truthy img)
      then s
      else
        let up := updatedProfile p (newOutfit now (newOutfitName s) img) in
        let s := setProfile (Some up) s in
        if writable then
          let s := setItem up s in
          let s := setIsOutfitSaved true s in
          setIsSavingOutfit false s
        else s
  | _, _ => s
  end.

(** [isScanComplete] (line 584): the value of the [&&] chain, which is
    the back image when all three are there and [null]/[undefined]
    otherwise. *)
Definition isScanComplete (s : State) : option ImageFile.t :=
  match profile s with
  | Some p =>
      match BodyScan.front (bodyScans p) with
      | Some _ =>
          match BodyScan.side (bodyScans p) with
          | Some _ => BodyScan.back (bodyScans p)
          | None => None
          end
      | None => None
      end
  | None => None
  end.

End Studio.


(* ===================================================================== *)
(** ** [src/unnamed/part_000]: the application with a selfie and a body scan *)
(* ===================================================================== *)

Module Twin.

Record Profile : Type := mkProfile {
  name : string;
  faceImage : option ImageFile.t;
  bodyScans : BodyScan.t;
  height : string;
  weight : string;
  bodyType : option BodyType;
  chest : option string;
  waist : option string;
  hips : option string;
  savedOutfits : list SavedOutfit.t
}.

(** The item ['ai-fashion-profile'] of [localStorage]: a text that
    [JSON.parse] reads as a profile, or one on which it throws. *)
Inductive Item : Type :=
  | Json (p : Profile)
  | Malformed.

Record State : Type := mkState {
  page : Page.t;
  pageKey : N;
  profile : option Profile;
  clothingImage : option ImageFile.t;
  selectedPose : Pose;
  resultImage : option string;
  error : option string;
  isSavingOutfit : bool;
  newOutfitName : string;
  isOutfitSaved : bool;
  localStorage : option Item
}.

Definition init (now : N) (ls : option Item) : State :=
  mkState Page.loading now None None StandingStraight None None false
          EmptyString false ls.

Definition setPage (v : Page.t) (s : State) : State :=
  mkState v (pageKey s) (profile s) (clothingImage s) (selectedPose s)
          (resultImage s) (error s) (isSavingOutfit s) (newOutfitName s)
          (isOutfitSaved s) (localStorage s).

Definition setPageKey (v : N) (s : State) : State :=
  mkState (page s) v (profile s) (clothingImage s) (selectedPose s)
          (resultImage s) (error s) (isSavingOutfit s) (newOutfitName s)
          (isOutfitSaved s) (localStorage s).

Definition setProfile (v : option Profile) (s : State) : State :=
  mkState (page s) (pageKey s) v (clothingImage s) (selectedPose s)
          (resultImage s) (error s) (isSavingOutfit s) (newOutfitName s)
          (isOutfitSaved s) (localStorage s).

Definition setClothingImage (v : option ImageFile.t) (s : State) : State :=
  mkState (page s) (pageKey s) (profile s) v (selectedPose s)
          (resultImage s) (error s) (isSavingOutfit s) (newOutfitName s)
          (isOutfitSaved s) (localStorage s).

Definition setSelectedPose (v : Pose) (s : State) : State :=
  mkState (page s) (pageKey s) (profile s) (clothingImage s) v
          (resultImage s) (error s) (isSavingOutfit s) (newOutfitName s)
          (isOutfitSaved s) (localStorage s).

Definition setResultImage (v : option string) (s : State) : State :=
  mkState (page s) (pageKey s) (profile s) (clothingImage s) (selectedPose s)
          v (error s) (isSavingOutfit s) (newOutfitName s)
          (isOutfitSaved s) (localStorage s).

Definition setError (v : option string) (s : State) : State :=
  mkState (page s) (pageKey s) (profile s) (clothingImage s) (selectedPose s)
          (resultImage s) v (isSavingOutfit s) (newOutfitName s)
          (isOutfitSaved s) (localStorage s).

Definition setIsSavingOutfit (v : bool) (s : State) : State :=
  mkState (page s) (pageKey s) (profile s) (clothingImage s) (selectedPose s)
          (resultImage s) (error s) v (newOutfitName s)
          (isOutfitSaved s) (localStorage s).

Definition setNewOutfitName (v : string) (s : State) : State :=
  mkState (page s) (pageKey s) (profile s) (clothingImage s) (selectedPose s)
          (resultImage s) (error s) (isSavingOutfit s) v
          (isOutfitSaved s) (localStorage s).

Definition setIsOutfitSaved (v : bool) (s : State) : State :=
  mkState (page s) (pageKey s) (profile s) (clothingImage s) (selectedPose s)
          (resultImage s) (error s) (isSavingOutfit s) (newOutfitName s)
          v (localStorage s).

Definition setItem (p : Profile) (s : State) : State :=
  mkState (page s) (pageKey s) (profile s) (clothingImage s) (selectedPose s)
          (resultImage s) (error s) (isSavingOutfit s) (newOutfitName s)
          (isOutfitSaved s) (Some (Json p)).

(** The effect that loads the profile (lines 568-581). *)
Definition load (s : State) : State :=
  match localStorage s with
  | Some (Json p) => setPage Page.creator (setProfile (Some p) s)
  | Some Malformed => setPage Page.home s
  | None => setPage Page.home s
  end.

(** [handleSaveProfile] (lines 583-592).  [writable] tells whether
    [localStorage.setItem] succeeds; when the storage is full it throws. *)
Definition handleSaveProfile (writable : bool) (newProfile : Profile)
  (s : State) : State :=
  if writable then
    setError None (setProfile (Some newProfile) (setItem newProfile s))
  else
    setError
      (Some "Could not save your profile. Your browser storage might be full.") s.

Definition bodyType_or_unspecified (p : Profile) : string :=
  match bodyType p with
  | Some b => BodyType_text b
  | None => "not specified"
  end.

Definition facial_reference (p : Profile) : string :=
  match faceImage p with
  | Some _ =>
      "You are also provided with a selfie. Use this to understand the user's facial features, skin tone, and hairstyle."
  | None =>
      "No selfie provided; generate a face that matches the general features of the person in the body scans."
  end.

(** The template literal of [textPart] (lines 611-633). *)
Definition prompt (p : Profile) (selectedPose : Pose) : string :=
  String.concat Js.nl
   [EmptyString;
    "You are an expert AI fashion stylist and virtual try-on specialist. Your task is to generate a photorealistic image of a person wearing a specific piece of clothing based on reference photos.";
    EmptyString;
    "**1. Analyze the User's Features (From Reference Images):**";
    "- **Body Structure Reference:** You are provided with three body scan images (front, side, back). These images are **for reference only**.";
    "- From these scans, meticulously analyze and understand the user's:";
    ("    - **Body Shape:** Is it " ++ bodyType_or_unspecified p ++ "?")%string;
    "    - **Proportions:** Limb length, torso-to-leg ratio, etc.";
    "    - **Posture:** How they naturally stand.";
    "    - **Build:** How fat or slim they are.";
    ("- **Facial Features Reference:** " ++ facial_reference p)%string;
    EmptyString;
    "**2. Analyze the Garment:**";
    "- From the clothing image, identify the item's style, cut, color, and fabric type (e.g., denim, silk, cotton, wool).";
    EmptyString;
    "**3. Core Task: Generate a NEW Photorealistic Image**";
    "- **DO NOT EDIT OR MODIFY the input reference images.** Your primary task is to **generate a completely new image from scratch.**";
    ("- Create a photorealistic " ++ Js.quote ++ "digital twin" ++ Js.quote ++ " of the user based on your analysis from step 1. This new person must have the same body structure, posture, and facial features as the user in the reference photos.")%string;
    ("- Place this newly generated person in a **'" ++ Pose_text selectedPose ++ "'** pose.")%string;
    "- Realistically simulate and drape the analyzed garment onto this digital twin. Pay close attention to how the fabric would hang, fold, and stretch on their specific body shape.";
    "- The final output must be a single, full-body, high-resolution image against a clean, neutral studio background. The image must not contain any text, logos, or watermarks.";
    "- **Crucial Constraint:** The final generated image's pose and background **must be different** from the input body scan photos, proving it is a new creation.";
    EmptyString].

(** The array [parts] of the request (lines 639-646). *)
Definition parts_of (clothingImage : ImageFile.t) (p : Profile)
  (front side back : ImageFile.t) (selectedPose : Pose) : list GenAI.Part :=
  let clothingImagePart := GenAI.image_part clothingImage in
  let textPart := GenAI.text_part (prompt p selectedPose) in
  (match faceImage p with
   | Some face => [GenAI.image_part face]
   | None => []
   end)
  ++ [GenAI.image_part front; GenAI.image_part side; GenAI.image_part back;
      clothingImagePart; textPart].

Definition request_of (parts : list GenAI.Part) : GenAI.Request :=
  GenAI.mkRequest "gemini-2.5-flash-image-preview" parts ["IMAGE"; "TEXT"].

(** [handleGenerate] up to its [await] (lines 594-651). *)
Definition handleGenerate_begin (s : State) : State * option GenAI.Request :=
  match profile s, clothingImage s with
  | Some p, Some clothing =>
      match BodyScan.front (bodyScans p), BodyScan.side (bodyScans p),
            BodyScan.back (bodyScans p) with
      | Some f, Some sd, Some b =>
          let s := setPage Page.loading s in
          let s := setResultImage None s in
          let s := setError None s in
          (s, Some (request_of (parts_of clothing p f sd b (selectedPose s))))
      | _, _, _ =>
          (setError
             (Some "Please complete your profile, including the 3-angle body scan, and upload a clothing image first.") s,
           None)
      end
  | _, _ =>
      (setError
         (Some "Please complete your profile, including the 3-angle body scan, and upload a clothing image first.") s,
       None)
  end.

(** The result of the loop over the parts of the response (lines
    653-659): an image, none, or a [TypeError] raised by the run time
    on the way. *)
Inductive Scan : Type :=
  | Found (generatedImage : ImageFile.t)
  | NotFound
  | Throws.

Fixpoint scan_parts (ps : list GenAI.Part) : Scan :=
  match ps with
  | [] => NotFound
  | part :: rest =>
      match GenAI.inlineData part with
      | Some blob =>
          match GenAI.mimeType blob with
          | Some m =>
              if Js.startsWith m "image/"
              then Found (ImageFile.mk (GenAI.data blob) m)
              else scan_parts rest
          | None => Throws
          end
      | None => scan_parts rest
      end
  end.

(** [response.candidates[0].content.parts], read without optional
    chaining: a missing link throws. *)
Definition scan_response (response : GenAI.Response) : Scan :=
  match GenAI.candidates response with
  | Some (c :: _) =>
      match GenAI.content c with
      | Some ct =>
          match GenAI.parts ct with
          | Some ps => scan_parts ps
          | None => Throws
          end
      | None => Throws
      end
  | _ => Throws
  end.

Definition no_image_message : string :=
  "The AI did not return an image. It might have responded with text instead. Please check your prompt or try a different image.".

(** The [catch] clause (lines 670-674) for an error with message [m]. *)
Definition catch_error (m : option string) (s : State) : State :=
  setPage Page.creator
    (setError
       (Some ("Sorry, we couldn't generate the image. "
              ++ Js.or_else m "Please try again.")%string) s).

(** [handleGenerate] from the point where the [await] returns or throws
    (lines 653-674).  [typeError] is the message the run time gives to
    a [TypeError]. *)
Definition handleGenerate_end (typeError : string) (o : GenAI.Outcome)
  (s : State) : State :=
  match o with
  | GenAI.Resolved response =>
      match scan_response response with
      | Found generatedImage =>
          let s := setResultImage
            (Some ("data:" ++ ImageFile.mimeType generatedImage ++ ";base64,"
                   ++ Js.show (ImageFile.b64 generatedImage))%string) s in
          let s := setPage Page.result s in
          let s := setIsOutfitSaved false s in
          setNewOutfitName EmptyString s
      | NotFound => catch_error (Some no_image_message) s
      | Throws => catch_error (Some typeError) s
      end
  | GenAI.Rejected message => catch_error message s
  end.

Definition handleGenerate (ai : GenAI.Request -> GenAI.Outcome)
  (typeError : string) (s : State) : State * list GenAI.Request :=
  match handleGenerate_begin s with
  | (s1, Some req) => (handleGenerate_end typeError (ai req) s1, [req])
  | (s1, None) => (s1, [])
  end.

(** The object literals of [handleSaveOutfit] (lines 680-689). *)
Definition newOutfit (now : N) (outfitName image : string) : SavedOutfit.t :=
  SavedOutfit.mk ("outfit-" ++ Js.of_number now)%string (Js.trim outfitName) image.

Definition updatedProfile (p : Profile) (o : SavedOutfit.t) : Profile :=
  mkProfile (name p) (faceImage p) (bodyScans p) (height p) (weight p)
            (bodyType p) (chest p) (waist p) (hips p) (o :: savedOutfits p).

(** [handleSaveOutfit] (lines 677-694) *)
Definition handleSaveOutfit (writable : bool) (now : N) (s : State) : State :=
  match resultImage s, profile s with
  | Some img, Some p =>
      if negb (Js.truthy img) || negb (Js.truthy (Js.trim (newOutfitName s)))
      then s
      else
        let up := updatedProfile p (newOutfit now (newOutfitName s) img) in
        let s := handleSaveProfile writable up s in
        let s := setIsSavingOutfit false s in
        setIsOutfitSaved true s
  | _, _ => s
  end.

(** [handleRetry] (lines 696-700) *)
Definition handleRetry (now : N) (s : State) : State :=
  setPageKey now (setPage Page.creator (setResultImage None s)).

End Twin.


(* ===================================================================== *)
(** ** [ImageUploader] and [fileToBase64] ([src/index.tsx] 171-223) *)
(* ===================================================================== *)

Module ImageUploader.

(** A picked or dropped file: [file.type] and the data URL that
    [FileReader.readAsDataURL] produces for it. *)
Record File : Type := mkFile { file_type : string; reader_result : string }.

Inductive Emit : Type :=
  | setError (v : option string)
  | onImageUpload (data : ImageFile.t).

(** [fileToBase64] *)
Definition fileToBase64 (file : File) : option string :=
  Js.split_1 Js.comma (reader_result file).

(** [onFileChange]: the calls it makes on its props, in order. *)
Definition onFileChange (title : string) (files : list File) : list Emit :=
  setError None ::
  match files with
  | file :: _ =>
      if negb (Js.startsWith (file_type file) "image/")
      then [setError
              (Some ("Invalid file type for " ++ title
                     ++ ". Please upload an image.")%string)]
      else [onImageUpload (ImageFile.mk (fileToBase64 file) (file_type file))]
  | [] => []
  end.

End ImageUploader.

(* ===================================================================== *)
(** ** The controls that [renderPage] and [Header] of [src/index.tsx] put
       on the screen (lines 376-388 and 586-695) *)
(* ===================================================================== *)

Module StudioUI.

(** The application together with the requests it has sent to the
    service and that have not settled yet. *)
Record World : Type := mkWorld {
  app : Studio.State;
  pending : list GenAI.Request
}.

Inductive Action : Type :=
  (* Header *)
  | Header_logo
  | Header_profile
  (* case 'home' *)
  | Home_create
  | Home_lookbook
  (* case 'creator' *)
  | Creator_files (files : list ImageUploader.File)
  | Creator_pose (pose : Pose)
  | Creator_generate
  (* case 'result' *)
  | Result_createNew
  | Result_addToLookbook
  | Result_name (v : string)
  | Result_cancel
  | Result_confirmSave (writable : bool)
  (* case 'profile': the two handlers of ProfilePage that call back,
     run on the form as it stands *)
  | Profile_save (writable : bool) (form : Studio.ProfilePage.State)
  | Profile_deleteOutfit (writable : bool) (idToDelete : string)
                         (form : Studio.ProfilePage.State)
  (* the awaited call of handleGenerate returns or throws *)
  | Service_settles (o : GenAI.Outcome).

(** Whether the control is on the screen and not [disabled]. *)
Definition enabled (w : World) (a : Action) : bool :=
  let s := app w in
  match a with
  | Header_logo | Header_profile => negb (Page.eqb (Studio.page s) Page.loading)
  | Home_create | Home_lookbook => Page.eqb (Studio.page s) Page.home
  | Creator_files _ | Creator_pose _ => Page.eqb (Studio.page s) Page.creator
  | Creator_generate =>
      Page.eqb (Studio.page s) Page.creator
      && match Studio.clothingImage s, Studio.profile s with
         | Some _, Some _ => true
         | _, _ => false
         end
  | Result_createNew =>
      Page.eqb (Studio.page s) Page.result && negb (Studio.isSavingOutfit s)
  | Result_addToLookbook =>
      Page.eqb (Studio.page s) Page.result && negb (Studio.isSavingOutfit s)
      && negb (Studio.isOutfitSaved s)
  | Result_name _ | Result_cancel =>
      Page.eqb (Studio.page s) Page.result && Studio.isSavingOutfit s
  | Result_confirmSave _ =>
      Page.eqb (Studio.page s) Page.result && Studio.isSavingOutfit s
      && Js.truthy (Js.trim (Studio.newOutfitName s))
  | Profile_save _ _ | Profile_deleteOutfit _ _ _ =>
      Page.eqb (Studio.page s) Page.profile
  | Service_settles _ =>
      match pending w with [] => false | _ :: _ => true end
  end.

(** The props of the uploader on the creator page (line 622). *)
Definition from_uploader (e : ImageUploader.Emit) (s : Studio.State)
  : Studio.State :=
  match e with
  | ImageUploader.setError v => Studio.setError v s
  | ImageUploader.onImageUpload data => Studio.setClothingImage (Some data) s
  end.

(** The props of the profile page (line 601), applied to the calls that
    a handler of the page makes, in order.  When [onSave] throws, the
    handler of the page ends there and its later calls are not made. *)
Fixpoint from_profilePage (writable : bool) (now : N)
  (l : list Studio.ProfilePage.Emit) (s : Studio.State) : Studio.State :=
  match l with
  | [] => s
  | Studio.ProfilePage.onSave p :: rest =>
      if writable
      then from_profilePage writable now rest (Studio.handleSaveProfile true p s)
      else Studio.handleSaveProfile false p s
  | Studio.ProfilePage.setPage pg :: rest =>
      from_profilePage writable now rest (Studio.changePage now pg s)
  end.

Definition with_app (s : Studio.State) (w : World) : World :=
  mkWorld s (pending w).

(** The handler bound to each control; [now] is the clock. *)
Definition handler (now : N) (a : Action) (w : World) : World :=
  let s := app w in
  match a with
  | Header_logo => with_app (Studio.changePage now Page.home s) w
  | Header_profile => with_app (Studio.changePage now Page.profile s) w
  | Home_create => with_app (Studio.changePage now Page.creator s) w
  | Home_lookbook => with_app (Studio.changePage now Page.profile s) w
  | Creator_files files =>
      with_app
        (fold_left (fun s e => from_uploader e s)
                   (ImageUploader.onFileChange "Clothing Item" files) s) w
  | Creator_pose pose => with_app (Studio.setSelectedPose pose s) w
  | Creator_generate =>
      match Studio.handleGenerate_begin now s with
      | (s1, Some req) => mkWorld s1 (pending w ++ [req])
      | (s1, None) => mkWorld s1 (pending w)
      end
  | Result_createNew => with_app (Studio.handleReset now s) w
  | Result_addToLookbook => with_app (Studio.setIsSavingOutfit true s) w
  | Result_name v => with_app (Studio.setNewOutfitName v s) w
  | Result_cancel => with_app (Studio.setIsSavingOutfit false s) w
  | Result_confirmSave writable =>
      with_app (Studio.handleSaveOutfit writable now s) w
  | Profile_save writable form =>
      with_app
        (from_profilePage writable now
           (snd (Studio.ProfilePage.handleSave form)) s) w
  | Profile_deleteOutfit writable idToDelete form =>
      with_app
        (from_profilePage writable now
           (snd (Studio.ProfilePage.handleDeleteOutfit idToDelete form)) s) w
  | Service_settles o =>
      mkWorld (Studio.handleGenerate_end now o s) (tl (pending w))
  end.

(** An action has an effect only through a control that is enabled. *)
Definition act (now : N) (a : Action) (w : World) : World :=
  if enabled w a then handler now a w else w.

Fixpoint acts (l : list (N * Action)) (w : World) : World :=
  match l with
  | [] => w
  | (now, a) :: l' => acts l' (act now a w)
  end.

(** The actions that replace the result on show or write the profile
    from the profile page. *)
Definition resets_or_edits (a : Action) : bool :=
  match a with
  | Result_createNew | Profile_save _ _ | Profile_deleteOutfit _ _ _ => true
  | _ => false
  end.

(** The actions in which [localStorage.setItem] throws. *)
Definition write_throws (a : Action) : bool :=
  match a with
  | Result_confirmSave false | Profile_save false _
  | Profile_deleteOutfit false _ _ => true
  | _ => false
  end.

(** The save-outfit action of the result page: open the form, type a
    name, confirm. *)
Definition save_outfit (writable : bool) (t : N) (outfitName : string)
  : list (N * Action) :=
  [(t, Result_addToLookbook); (t, Result_name outfitName);
   (t, Result_confirmSave writable)].

(** The application once its loading effect has run. *)
Definition start (now : N) (ls : option Studio.Stored.t) : World :=
  mkWorld (Studio.load now (Studio.init now ls)) [].

End StudioUI.

(* ===================================================================== *)
(** ** Objects and arrays by reference: the allocations made by
       [handleSaveOutfit] (lines 573-576) and [handleDeleteOutfit]
       (lines 257-259) of [src/index.tsx] *)
(* ===================================================================== *)

Module Heap.

Inductive Cell : Type :=
  | Array (items : list SavedOutfit.t)
  | Object (name : string) (bodyScans : BodyScan.t) (height weight : string)
           (bodyType : option BodyType) (chest waist hips : option string)
           (savedOutfits : nat).

(** The store: cell [i] lives at address [i]; allocation appends. *)
Definition t : Type := list Cell.

Definition alloc (c : Cell) (h : t) : t * nat := (h ++ [c], length h).

(** The profile value held by the object at address [l]. *)
Definition read (h : t) (l : nat) : option Studio.Profile :=
  match nth_error h l with
  | Some (Object n b ht wt ty c w hp a) =>
      match nth_error h a with
      | Some (Array items) => Some (Studio.mkProfile n b ht wt ty c w hp items)
      | _ => None
      end
  | _ => None
  end.

(** [{ ...profile, savedOutfits: [...(profile.savedOutfits || []), o] }] *)
Definition spread_append (o : SavedOutfit.t) (l : nat) (h : t) : option (t * nat) :=
  match nth_error h l with
  | Some (Object n b ht wt ty c w hp a) =>
      match nth_error h a with
      | Some (Array items) =>
          let (h1, a1) := alloc (Array (items ++ [o])) h in
          Some (alloc (Object n b ht wt ty c w hp a1) h1)
      | _ => None
      end
  | _ => None
  end.

(** [handleDeleteOutfit]: [savedOutfits.filter(...)] on the array at
    address [arr] (the state variable [savedOutfits], which is the very
    array of the profile the page was opened with), then the object
    literal built from the fields of the form. *)
Definition filter_rebuild (idToDelete : string)
  (form : Studio.ProfilePage.State) (arr : nat) (h : t) : option (t * nat) :=
  match nth_error h arr with
  | Some (Array items) =>
      let (h1, a1) :=
        alloc (Array (filter (fun outfit =>
                                negb (String.eqb (SavedOutfit.id outfit) idToDelete))
                             items)) h in
      Some (alloc (Object (Studio.ProfilePage.name form)
                          (Studio.ProfilePage.bodyScans form)
                          (Studio.ProfilePage.height form)
                          (Studio.ProfilePage.weight form)
                          (Studio.ProfilePage.bodyType form)
                          (Some (Studio.ProfilePage.chest form))
                          (Some (Studio.ProfilePage.waist form))
                          (Some (Studio.ProfilePage.hips form)) a1) h1)
  | _ => None
  end.

End Heap.


(* ===================================================================== *)
(** ** Sample data *)
(* ===================================================================== *)

Module Sample.

Definition image (payload : string) : ImageFile.t :=
  ImageFile.mk (Some payload) "image/jpeg".

Definition scan : BodyScan.t :=
  BodyScan.mk (Some (image "FRONT")) (Some (image "SIDE")) (Some (image "BACK")).

(** A record as the multi-photo version of the application wrote it. *)
Definition legacy : Studio.Stored.t :=
  Studio.Stored.mk "Alex" (Some [image "AAAA"]) None "5.8" "70"
                   None None None None None.

Definition profile : Studio.Profile :=
  Studio.mkProfile "Alex" scan "5.8" "70" (Some Hourglass) None None None
    [SavedOutfit.mk "outfit_1600000000000" "Office" "data:image/png;base64,OLDER"].

Definition outfit : SavedOutfit.t :=
  SavedOutfit.mk "outfit_1700000000000" "Summer Casual" "data:image/png;base64,RESULT".

End Sample.

(* --------------------------------------------------------------------- *)
(** Addresses held by a profile object and the heap of a profile value. *)

Module HeapOps.

(** The address in the field [savedOutfits] of the object at [l]. *)
Definition savedOutfits_ref (h : Heap.t) (l : nat) : option nat :=
  match nth_error h l with
  | Some (Heap.Object _ _ _ _ _ _ _ _ a) => Some a
  | _ => None
  end.

(** A heap holding just the profile [p]: its array at 0, the object at 1. *)
Definition of_profile (p : Studio.Profile) : Heap.t :=
  [Heap.Array (Studio.savedOutfits p);
   Heap.Object (Studio.name p) (Studio.bodyScans p) (Studio.height p)
               (Studio.weight p) (Studio.bodyType p) (Studio.chest p)
               (Studio.waist p) (Studio.hips p) 0].

End HeapOps.

(* ===================================================================== *)
(** ** The notions of the specification that the claims are stated with *)
(* ===================================================================== *)

Module Spec.

(** A body scan is complete iff all three slots are non-null. *)
Definition complete (b : BodyScan.t) : bool :=
  match BodyScan.front b, BodyScan.side b, BodyScan.back b with
  | Some _, Some _, Some _ => true
  | _, _, _ => false
  end.

(** A profile is generation-ready iff its name is non-empty, its body
    reference is complete and its height and weight are non-empty. *)
Definition generation_ready (name : string) (b : BodyScan.t)
  (height weight : string) : bool :=
  Js.truthy name && complete b && Js.truthy height && Js.truthy weight.

Definition studio_ready (p : option Studio.Profile) : bool :=
  match p with
  | Some p => generation_ready (Studio.name p) (Studio.bodyScans p)
                               (Studio.height p) (Studio.weight p)
  | None => false
  end.

Definition twin_ready (p : option Twin.Profile) : bool :=
  match p with
  | Some p => generation_ready (Twin.name p) (Twin.bodyScans p)
                               (Twin.height p) (Twin.weight p)
  | None => false
  end.

(** The order of the parts of a request as the specification gives it:
    face (if any), front, side, back, clothing, text. *)
Definition request_parts (face : option ImageFile.t)
  (front side back clothing : ImageFile.t) (text : string) : list GenAI.Part :=
  (match face with Some f => [GenAI.image_part f] | None => [] end)
  ++ [GenAI.image_part front; GenAI.image_part side; GenAI.image_part back;
      GenAI.image_part clothing; GenAI.text_part text].

End Spec.

Module SampleState.

Definition clothing : ImageFile.t := ImageFile.mk (Some "SHIRT") "image/png".

(** A profile whose scan lacks the back view. *)
Definition partial_profile : Studio.Profile :=
  Studio.mkProfile "Alex"
    (BodyScan.mk (Some (Sample.image "FRONT")) (Some (Sample.image "SIDE")) None)
    "5.8" "70" None None None None [].

(** A profile with a complete scan and no name, height or weight. *)
Definition anonymous_profile : Studio.Profile :=
  Studio.mkProfile EmptyString Sample.scan EmptyString EmptyString
                   None None None None [].

Definition studio (p : option Studio.Profile) (c : option ImageFile.t)
  : Studio.State :=
  Studio.mkState Page.creator 1 p c StandingStraight None None false
                 EmptyString false (option_map Studio.stringify p).

Definition twin_profile (face : option ImageFile.t) : Twin.Profile :=
  Twin.mkProfile "Alex" face Sample.scan "5.8" "70" (Some Hourglass)
                 None None None [].

Definition twin (p : option Twin.Profile) (c : option ImageFile.t)
  : Twin.State :=
  Twin.mkState Page.creator 1 p c StandingStraight None None false
               EmptyString false (option_map Twin.Json p).

(** A response without any image, with an explanation in its text. *)
Definition refusal : GenAI.Response :=
  GenAI.mkResponse
    (Some [GenAI.mkCandidate
             (Some (GenAI.mkContent (Some [GenAI.text_part "safety policy"])))])
    (Some "safety policy").

(** A service that answers every request with [refusal]. *)
Definition refusing (_ : GenAI.Request) : GenAI.Outcome :=
  GenAI.Resolved refusal.

End SampleState.

(* --------------------------------------------------------------------- *)
(** Descriptions of the parts of a response, used to state what the two
    scans find. *)

Module Parts.

(** A part without inline data. *)
Definition plain (x : GenAI.Part) : Prop := GenAI.inlineData x = None.

(** A part that the loop of [src/unnamed/part_000] passes over: without
    inline data, or with inline data whose media type does not start
    with [image/]. *)
Definition skipped (x : GenAI.Part) : Prop :=
  GenAI.inlineData x = None
  \/ exists blob m,
       GenAI.inlineData x = Some blob /\ GenAI.mimeType blob = Some m
       /\ Js.startsWith m "image/" = false.

(** The parts of the first candidate are [ps]. *)
Definition first_candidate_parts (r : GenAI.Response) (ps : list GenAI.Part)
  : Prop :=
  exists c cs ct,
    GenAI.candidates r = Some (c :: cs) /\ GenAI.content c = Some ct
    /\ GenAI.parts ct = Some ps.

(** A part whose inline data has a media type starting with [image/]. *)
Definition image (x : GenAI.Part) (blob : GenAI.Blob) (m : string) : Prop :=
  GenAI.inlineData x = Some blob /\ GenAI.mimeType blob = Some m
  /\ Js.startsWith m "image/" = true.

(** A part whose inline data has no media type: on it the test
    [part.inlineData.mimeType.startsWith] of [src/unnamed/part_000]
    raises a [TypeError]. *)
Definition untyped (x : GenAI.Part) : Prop :=
  exists blob, GenAI.inlineData x = Some blob /\ GenAI.mimeType blob = None.

End Parts.

Module SampleResponse.

Definition picture : GenAI.Part :=
  GenAI.mkPart (Some (GenAI.mkBlob (Some "PIXELS") (Some "image/png"))) None.

Definition caption : GenAI.Part := GenAI.text_part "Here is your look.".

Definition second_picture : GenAI.Part :=
  GenAI.mkPart (Some (GenAI.mkBlob (Some "OTHER") (Some "image/png"))) None.

(** A response whose first candidate holds a text part, then an image,
    then a second image. *)
Definition pictured : GenAI.Response :=
  GenAI.mkResponse
    (Some [GenAI.mkCandidate
             (Some (GenAI.mkContent
                      (Some ([caption] ++ picture :: [second_picture]))))])
    (Some "Here is your look.").

(** A response without candidates. *)
Definition blocked : GenAI.Response :=
  GenAI.mkResponse None (Some "blocked").

(** Inline data without a media type. *)
Definition odd : GenAI.Part :=
  GenAI.mkPart (Some (GenAI.mkBlob (Some "RAW") None)) None.

(** A response whose first candidate holds inline data without a media
    type and then an image. *)
Definition odd_first : GenAI.Response :=
  GenAI.mkResponse
    (Some [GenAI.mkCandidate
             (Some (GenAI.mkContent (Some ([] ++ odd :: [picture]))))])
    None.

End SampleResponse.

(* --------------------------------------------------------------------- *)
(** The two conditions a capture session is in as far as its timer is
    concerned. *)

Module Countdown.

(** No countdown is shown and no timer is live. *)
Definition idle (s : BodyScanCapture.State) : Prop :=
  BodyScanCapture.countdown s = None /\ BodyScanCapture.intervals s = [].

(** The countdown shows [n]; the one live timer is the one whose handle
    is kept in [countdownIntervalRef], and its [count] is [n]. *)
Definition counting (n : Z) (s : BodyScanCapture.State) : Prop :=
  BodyScanCapture.countdown s = Some n
  /\ (1 <= n <= 3)%Z
  /\ exists h,
       BodyScanCapture.countdownIntervalRef s = Some h
       /\ BodyScanCapture.intervals s = [BodyScanCapture.mkInterval h n].

(** Either no timer is live, or the session is counting. *)
Definition consistent (s : BodyScanCapture.State) : Prop :=
  BodyScanCapture.intervals s = [] \/ exists n, counting n s.

(** The image that [handleConfirm] stores for the still [p]. *)
Definition shot (p : string) : ImageFile.t :=
  ImageFile.mk (Js.split_1 Js.comma p) "image/jpeg".

(** A camera that delivers the frame [url]. *)
Definition delivering (url : string) : BodyScanCapture.Camera :=
  BodyScanCapture.mkCamera true true url.

(** Pressing the capture button and letting the timer [h] fire three
    times, the camera delivering [url]. *)
Definition take (h : positive) (url : string) : list BodyScanCapture.Event :=
  [BodyScanCapture.Capture;
   BodyScanCapture.Tick (delivering url) h;
   BodyScanCapture.Tick (delivering url) h;
   BodyScanCapture.Tick (delivering url) h].

End Countdown.

Module SampleWorld.

(** The result page just after a generation, nothing saved yet. *)
Definition fresh_result : StudioUI.World :=
  StudioUI.mkWorld
    (Studio.mkState Page.result 5 (Some Sample.profile)
       (Some SampleState.clothing) StandingStraight
       (Some "data:image/png;base64,PIXELS") None false EmptyString false
       (Some (Studio.stringify Sample.profile)))
    [].

(** From the start to a saved result: create, upload, generate, save. *)
Definition journey : list (N * StudioUI.Action) :=
  [(4%N, StudioUI.Home_create);
   (5%N, StudioUI.Creator_files
           [ImageUploader.mkFile "image/png" "data:image/png;base64,SHIRT"]);
   (6%N, StudioUI.Creator_generate);
   (7%N, StudioUI.Service_settles (GenAI.Resolved SampleResponse.pictured))]
  ++ StudioUI.save_outfit true 8 "Summer Casual".

Definition after_save : StudioUI.World :=
  StudioUI.acts journey
    (StudioUI.start 3 (Some (Studio.stringify Sample.profile))).

End SampleWorld.

(* ===================================================================== *)
(** ** [ProfilePage] of [src/unnamed/part_000] (lines 262-375) *)
(* ===================================================================== *)

Module TwinProfilePage.

Inductive Emit : Type :=
  | onSave (p : Twin.Profile)
  | setPage (pg : Page.t).

Record State : Type := mkState {
  name : string;
  faceImage : option ImageFile.t;
  bodyScans : BodyScan.t;
  height : string;
  weight : string;
  bodyType : option BodyType;
  chest : string;
  waist : string;
  hips : string;
  savedOutfits : list SavedOutfit.t;
  localError : option string;
  isScanning : bool;
  isAnalyzing : bool
}.

Definition mount (profile : option Twin.Profile) : State :=
  match profile with
  | Some p =>
      mkState (Twin.name p) (Twin.faceImage p) (Twin.bodyScans p)
              (Twin.height p) (Twin.weight p) (Twin.bodyType p)
              (Js.or_else (Twin.chest p) EmptyString)
              (Js.or_else (Twin.waist p) EmptyString)
              (Js.or_else (Twin.hips p) EmptyString)
              (Twin.savedOutfits p) None false false
  | None =>
      mkState EmptyString None BodyScan.empty EmptyString EmptyString None
              EmptyString EmptyString EmptyString [] None false false
  end.

Definition setBodyScans (v : BodyScan.t) (s : State) : State :=
  mkState (name s) (faceImage s) v (height s) (weight s) (bodyType s)
          (chest s) (waist s) (hips s) (savedOutfits s) (localError s)
          (isScanning s) (isAnalyzing s).

Definition setBodyType (v : option BodyType) (s : State) : State :=
  mkState (name s) (faceImage s) (bodyScans s) (height s) (weight s) v
          (chest s) (waist s) (hips s) (savedOutfits s) (localError s)
          (isScanning s) (isAnalyzing s).

Definition setSavedOutfits (v : list SavedOutfit.t) (s : State) : State :=
  mkState (name s) (faceImage s) (bodyScans s) (height s) (weight s)
          (bodyType s) (chest s) (waist s) (hips s) v (localError s)
          (isScanning s) (isAnalyzing s).

Definition setLocalError (v : option string) (s : State) : State :=
  mkState (name s) (faceImage s) (bodyScans s) (height s) (weight s)
          (bodyType s) (chest s) (waist s) (hips s) (savedOutfits s) v
          (isScanning s) (isAnalyzing s).

Definition setIsScanning (v : bool) (s : State) : State :=
  mkState (name s) (faceImage s) (bodyScans s) (height s) (weight s)
          (bodyType s) (chest s) (waist s) (hips s) (savedOutfits s)
          (localError s) v (isAnalyzing s).

Definition setIsAnalyzing (v : bool) (s : State) : State :=
  mkState (name s) (faceImage s) (bodyScans s) (height s) (weight s)
          (bodyType s) (chest s) (waist s) (hips s) (savedOutfits s)
          (localError s) (isScanning s) v.

Definition profile_of (s : State) (l : list SavedOutfit.t) : Twin.Profile :=
  Twin.mkProfile (name s) (faceImage s) (bodyScans s) (height s) (weight s)
                 (bodyType s) (Some (chest s)) (Some (waist s)) (Some (hips s)) l.

(** The guard of [handleSave] (line 282). *)
Definition incomplete (s : State) : bool :=
  negb (Js.truthy (name s))
  || negb (Studio.ProfilePage.is_some (BodyScan.front (bodyScans s)))
  || negb (Studio.ProfilePage.is_some (BodyScan.side (bodyScans s)))
  || negb (Studio.ProfilePage.is_some (BodyScan.back (bodyScans s)))
  || negb (Js.truthy (height s))
  || negb (Js.truthy (weight s)).

(** [handleSave] *)
Definition handleSave (s : State) : State * list Emit :=
  if incomplete s then
    (setLocalError
       (Some "Please complete your name, measurements, and the 3-angle body scan.") s,
     [])
  else (s, [onSave (profile_of s (savedOutfits s)); setPage Page.creator]).

(** [handleScanComplete] *)
Definition handleScanComplete (scans : BodyScan.t) (s : State) : State :=
  setIsScanning false (setBodyScans scans s).

(** [handleDeleteOutfit] *)
Definition handleDeleteOutfit (idToDelete : string) (s : State)
  : State * list Emit :=
  let updatedOutfits :=
    filter (fun outfit => negb (String.eqb (SavedOutfit.id outfit) idToDelete))
           (savedOutfits s) in
  (setSavedOutfits updatedOutfits s, [onSave (profile_of s updatedOutfits)]).

(** The array [bodyTypes.map(b => b.name)] (lines 301-307). *)
Definition bodyTypes : list BodyType :=
  [Rectangle; Triangle; InvertedTriangle; Hourglass; Round].

(** The body type with the given name, if the list has it: the test
    [bodyTypes.map(b => b.name).includes(suggestedType)] and the value
    then stored. *)
Definition named (suggestedType : string) : option BodyType :=
  find (fun b => String.eqb (BodyType_text b) suggestedType) bodyTypes.

Definition optional_line (label v unit : string) : string :=
  if Js.truthy v then (label ++ v ++ unit)%string else EmptyString.

(** The template literal of [textPart] (lines 321-332). *)
Definition analysis_prompt (s : State) : string :=
  String.concat Js.nl
   [EmptyString;
    "Analyze the three provided body scan images (front, side, back) and the user's measurements to determine their body type. The measurements are:";
    ("- Height: " ++ height s ++ " feet")%string;
    ("- Weight: " ++ weight s ++ " kilograms")%string;
    optional_line "- Chest: " (chest s) " inches";
    optional_line "- Waist: " (waist s) " inches";
    optional_line "- Hips: " (hips s) " inches";
    EmptyString;
    "Based on this data, classify the body shape into one of the following categories: 'Rectangle', 'Triangle', 'Inverted Triangle', 'Hourglass', 'Round'.";
    EmptyString;
    ("Return the answer in a JSON object with a single key " ++ Js.quote ++ "bodyType" ++ Js.quote ++ ".")%string;
    EmptyString].

(** [handleAnalyzeBodyType] up to its [await] (lines 309-358). *)
Definition handleAnalyzeBodyType_begin (s : State)
  : State * option GenAI.Request :=
  match BodyScan.front (bodyScans s), BodyScan.side (bodyScans s),
        BodyScan.back (bodyScans s) with
  | Some f, Some sd, Some b =>
      if negb (Js.truthy (height s)) || negb (Js.truthy (weight s)) then
        (setLocalError
           (Some "Please complete the body scan and provide height and weight before analyzing.") s,
         None)
      else
        let s1 := setLocalError None (setIsAnalyzing true s) in
        (s1,
         Some (GenAI.mkRequest "gemini-2.5-flash"
                 [GenAI.image_part f; GenAI.image_part sd; GenAI.image_part b;
                  GenAI.text_part (analysis_prompt s)]
                 []))
  | _, _, _ =>
      (setLocalError
         (Some "Please complete the body scan and provide height and weight before analyzing.") s,
       None)
  end.

(** What the awaited call and [JSON.parse(response.text)] give: an
    object whose [bodyType] is a string or is missing, or an exception
    (from the service, from the parser, or from reading a field of
    [null]). *)
Inductive Analysis : Type :=
  | Parsed (bodyType : option string)
  | Thrown.

(** [handleAnalyzeBodyType] after its [await] (lines 360-374). *)
Definition handleAnalyzeBodyType_end (a : Analysis) (s : State) : State :=
  let s1 :=
    match a with
    | Parsed (Some suggestedType) =>
        if Js.truthy suggestedType then
          match named suggestedType with
          | Some b => setBodyType (Some b) s
          | None =>
              setLocalError
                (Some "The AI could not determine a body type. Please select one manually.") s
          end
        else
          setLocalError
            (Some "The AI could not determine a body type. Please select one manually.") s
    | Parsed None =>
        setLocalError
          (Some "The AI could not determine a body type. Please select one manually.") s
    | Thrown =>
        setLocalError
          (Some "An error occurred during AI analysis. Please try again or select a type manually.") s
    end in
  setIsAnalyzing false s1.

End TwinProfilePage.

(* ===================================================================== *)
(** ** The loading tips of [src/index.tsx] (lines 403-424) *)
(* ===================================================================== *)

Module Tips.

Definition loadingTips : list string :=
  ["Analyzing fabric textures...";
   "Simulating realistic drape & flow...";
   "Matching lighting conditions...";
   "Constructing a 3D model from your scan...";
   "Applying clothing to your digital twin...";
   "Rendering the final, photorealistic image..."].

(** [array.indexOf(x)]: the first position of [x], or -1. *)
Fixpoint indexOf (l : list string) (x : string) : Z :=
  match l with
  | [] => (-1)%Z
  | y :: l' =>
      if String.eqb y x then 0%Z
      else match indexOf l' x with
           | Zneg _ => (-1)%Z
           | i => (i + 1)%Z
           end
  end.

(** The updater passed to [setTip]: the tip shown after [prevTip];
    [None] stands for [undefined]. *)
Definition next (prevTip : string) : option string :=
  let currentIndex := indexOf loadingTips prevTip in
  let nextIndex := Z.rem (currentIndex + 1) (Z.of_nat (length loadingTips)) in
  nth_error loadingTips (Z.to_nat nextIndex).

(** The tip shown after [n] rounds of the interval, starting from
    [tip]. *)
Fixpoint rounds (n : nat) (tip : string) : option string :=
  match n with
  | O => Some tip
  | S n' =>
      match next tip with
      | Some t => rounds n' t
      | None => None
      end
  end.

End Tips.

(* ===================================================================== *)
(** ** States that the components can be in *)
(* ===================================================================== *)

Module Reach.

(** The states of a capture session: those that events lead to from the
    mounted component.  The events are the presses of the three
    buttons, the firings of timers, and the runs of the effect inside
    the session: its clean-up and the outcome of [startCamera]. *)
Inductive capture : BodyScanCapture.State -> Prop :=
  | capture_init : capture BodyScanCapture.init
  | capture_step e s :
      capture s -> capture (fst (BodyScanCapture.step_event e s)).

(** The worlds of the application of [src/index.tsx]: those that the
    controls lead to from the start. *)
Inductive studio : StudioUI.World -> Prop :=
  | studio_start now ls : studio (StudioUI.start now ls)
  | studio_act now a w : studio w -> studio (StudioUI.act now a w).

(** The worlds reached without any write to the storage having
    thrown. *)
Inductive studio_written : StudioUI.World -> Prop :=
  | written_start now ls : studio_written (StudioUI.start now ls)
  | written_act now a w :
      studio_written w -> StudioUI.write_throws a = false ->
      studio_written (StudioUI.act now a w).

(** What the stored record is read as when the application starts. *)
Definition stored_profile (ls : option Studio.Stored.t) : option Studio.Profile :=
  match ls with
  | Some sp => Studio.as_profile (Studio.migrate sp)
  | None => None
  end.

(** The profile in memory is what the stored record reads as. *)
Definition agrees (s : Studio.State) : Prop :=
  Studio.profile s = stored_profile (Studio.localStorage s).

(** Either one request is pending and the loading page is shown, or
    none is pending and another page is shown. *)
Definition one_in_flight (w : StudioUI.World) : Prop :=
  match StudioUI.pending w with
  | [] => Studio.page (StudioUI.app w) <> Page.loading
  | [_] => Studio.page (StudioUI.app w) = Page.loading
  | _ :: _ :: _ => False
  end.

End Reach.

(* --------------------------------------------------------------------- *)
(** The views already stored when a capture session is at a given step. *)

Module Progress.

Definition stored_before (s : BodyScanCapture.State) : Prop :=
  match BodyScanCapture.step s with
  | BodyScanStep.front => True
  | BodyScanStep.side =>
      BodyScan.front (BodyScanCapture.images s) <> None
  | BodyScanStep.back =>
      BodyScan.front (BodyScanCapture.images s) <> None
      /\ BodyScan.side (BodyScanCapture.images s) <> None
  end.

(** What a list of confirmed stills, each with its step, makes of the
    stored views [im]: the views at the end, and the calls of
    [onComplete], one for each confirm at the back step. *)
Fixpoint replay (cs : list (BodyScanStep.t * string)) (im : BodyScan.t)
  : BodyScan.t * list BodyScanCapture.Emit :=
  match cs with
  | [] => (im, [])
  | (st, p) :: cs' =>
      let im1 := BodyScanCapture.with_slot st (Countdown.shot p) im in
      let (im2, out) := replay cs' im1 in
      (im2,
       match st with
       | BodyScanStep.back => BodyScanCapture.onComplete im1 :: out
       | _ => out
       end)
  end.

(** The step after a confirm. *)
Definition advance (st : BodyScanStep.t) : BodyScanStep.t :=
  match st with
  | BodyScanStep.front => BodyScanStep.side
  | BodyScanStep.side => BodyScanStep.back
  | BodyScanStep.back => BodyScanStep.back
  end.

(** The steps of [n] confirms in a row, starting at [st]. *)
Fixpoint steps_from (st : BodyScanStep.t) (n : nat) : list BodyScanStep.t :=
  match n with
  | O => []
  | S n' => st :: steps_from (advance st) n'
  end.

(** Every scan passed to [onComplete] in the list is complete. *)
Definition completions_complete (out : list BodyScanCapture.Emit) : Prop :=
  forall scans, In (BodyScanCapture.onComplete scans) out ->
                Spec.complete scans = true.

End Progress.

(* ===================================================================== *)
(** * Properties *)
(* ===================================================================== *)

(** ** Strings *)

Lemma truthy_false_iff (s : string) : Js.truthy s = false <-> s = EmptyString.
Proof.
  unfold Js.truthy. destruct s; simpl; split; intro H; congruence.
Qed.

Lemma truthy_true_iff (s : string) : Js.truthy s = true <-> s <> EmptyString.
Proof.
  unfold Js.truthy. destruct s; simpl; split; intro H; congruence.
Qed.

Lemma or_else_truthy (x : option string) (d : string) :
  Js.truthy d = true -> Js.truthy (Js.or_else x d) = true.
Proof.
  intro Hd. unfold Js.or_else. destruct x as [s|]; [|exact Hd].
  destruct (Js.truthy s) eqn:E; [exact E | exact Hd].
Qed.

(** ** The completeness of a body scan *)

(** C7. For each of the eight ways of filling the three slots, the value
    of [isScanComplete] is truthy exactly when [front], [side] and [back]
    are all non-null, and falsy exactly when one of them is null. *)
Theorem C7_isScanComplete_iff_all_slots :
  forall (s : Studio.State) (p : Studio.Profile),
    let v := Studio.isScanComplete (Studio.setProfile (Some p) s) in
    (v <> None <->
       BodyScan.front (Studio.bodyScans p) <> None
       /\ BodyScan.side (Studio.bodyScans p) <> None
       /\ BodyScan.back (Studio.bodyScans p) <> None)
    /\ (v = None <->
       BodyScan.front (Studio.bodyScans p) = None
       \/ BodyScan.side (Studio.bodyScans p) = None
       \/ BodyScan.back (Studio.bodyScans p) = None).
Proof.
  intros s p. unfold Studio.isScanComplete. simpl.
  destruct (BodyScan.front (Studio.bodyScans p)) as [f|];
  destruct (BodyScan.side (Studio.bodyScans p)) as [sd|];
  destruct (BodyScan.back (Studio.bodyScans p)) as [b|];
  (split; split; intro H;
   try solve [ congruence
             | repeat split; congruence
             | destruct H as (H1 & H2 & H3); congruence
             | destruct H as [H|[H|H]]; congruence
             | left; reflexivity
             | right; left; reflexivity
             | right; right; reflexivity ]).
Qed.

(** ** Migration of the persisted profile *)

Lemma migrate_is_current (sp : Studio.Stored.t) :
  Studio.is_current (Studio.migrate sp) = true.
Proof.
  destruct sp as [n ph b h w ty c wa hp so].
  destruct ph, b, so; reflexivity.
Qed.

Lemma migrate_current_id (sp : Studio.Stored.t) :
  Studio.is_current sp = true -> Studio.migrate sp = sp.
Proof.
  destruct sp as [n ph b h w ty c wa hp so].
  destruct ph, b, so; simpl; intro H; try discriminate; reflexivity.
Qed.

(** C3. Loading a stored record that has a list [photos] gives it the
    body scan [{front: photos[0], side: photos[1], back: photos[2]}],
    a missing position being null, and removes [photos]; a record
    without [savedOutfits] gets the empty list; a record of the current
    shape is returned as it is, and migrating twice is migrating once. *)
Theorem C3_migrate :
  (forall sp ph,
      Studio.Stored.photos sp = Some ph ->
      Studio.Stored.bodyScans (Studio.migrate sp)
        = Some (BodyScan.mk (nth_error ph 0) (nth_error ph 1) (nth_error ph 2))
      /\ Studio.Stored.photos (Studio.migrate sp) = None)
  /\ (forall sp a b c,
      Studio.Stored.photos sp = Some [a; b; c] ->
      Studio.Stored.bodyScans (Studio.migrate sp)
        = Some (BodyScan.mk (Some a) (Some b) (Some c)))
  /\ (forall sp a,
      Studio.Stored.photos sp = Some [a] ->
      Studio.Stored.bodyScans (Studio.migrate sp)
        = Some (BodyScan.mk (Some a) None None))
  /\ (forall sp,
      Studio.Stored.savedOutfits sp = None ->
      Studio.Stored.savedOutfits (Studio.migrate sp) = Some [])
  /\ (forall sp,
      Studio.is_current sp = true -> Studio.migrate sp = sp)
  /\ (forall sp, Studio.migrate (Studio.migrate sp) = Studio.migrate sp).
Proof.
  assert (P : forall sp ph,
      Studio.Stored.photos sp = Some ph ->
      Studio.Stored.bodyScans (Studio.migrate sp)
        = Some (BodyScan.mk (nth_error ph 0) (nth_error ph 1) (nth_error ph 2))
      /\ Studio.Stored.photos (Studio.migrate sp) = None).
  { intros sp ph H. destruct sp as [n ph' b h w ty c wa hp so]; simpl in *.
    subst ph'. destruct so; split; reflexivity. }
  split; [exact P|].
  split; [intros sp a b c H; exact (proj1 (P sp _ H))|].
  split; [intros sp a H; exact (proj1 (P sp _ H))|].
  split.
  { intros sp H. destruct sp as [n ph' b' h w ty c' wa hp so]; simpl in *.
    subst so. destruct ph', b'; reflexivity. }
  split; [apply migrate_current_id|].
  intro sp. apply migrate_current_id, migrate_is_current.
Qed.

Lemma C3_migrate_witness :
  Studio.Stored.bodyScans (Studio.migrate Sample.legacy)
    = Some (BodyScan.mk (Some (Sample.image "AAAA")) None None)
  /\ Studio.Stored.savedOutfits (Studio.migrate Sample.legacy) = Some []
  /\ Studio.migrate (Studio.migrate Sample.legacy) = Studio.migrate Sample.legacy.
Proof.
  destruct C3_migrate as (_ & _ & H1 & H2 & H3 & _).
  split; [|split].
  - apply (H1 Sample.legacy (Sample.image "AAAA")). reflexivity.
  - apply (H2 Sample.legacy). reflexivity.
  - apply (H3 (Studio.migrate Sample.legacy)). reflexivity.
Defined.

(** ** Adding and removing a saved outfit *)

Lemma filter_out_appended (o : SavedOutfit.t) (l : list SavedOutfit.t) :
  ~ In (SavedOutfit.id o) (map SavedOutfit.id l) ->
  filter (fun outfit => negb (String.eqb (SavedOutfit.id outfit) (SavedOutfit.id o)))
         (l ++ [o]) = l.
Proof.
  induction l as [|x l IH]; simpl; intro H.
  - rewrite String.eqb_refl. reflexivity.
  - destruct (String.eqb (SavedOutfit.id x) (SavedOutfit.id o)) eqn:E.
    + apply String.eqb_eq in E. exfalso. apply H. left. exact E.
    + simpl. f_equal. apply IH. intro K. apply H. right. exact K.
Qed.

Lemma filter_out_prepended (o : SavedOutfit.t) (l : list SavedOutfit.t) :
  ~ In (SavedOutfit.id o) (map SavedOutfit.id l) ->
  filter (fun outfit => negb (String.eqb (SavedOutfit.id outfit) (SavedOutfit.id o)))
         (o :: l) = l.
Proof.
  intro H. simpl. rewrite String.eqb_refl. simpl.
  induction l as [|x l IH]; simpl; [reflexivity|].
  destruct (String.eqb (SavedOutfit.id x) (SavedOutfit.id o)) eqn:E.
  - apply String.eqb_eq in E. exfalso. apply H. left. exact E.
  - simpl. f_equal. apply IH. intro K. apply H. right. exact K.
Qed.

Lemma nth_error_alloc_old (c : Heap.Cell) (h : Heap.t) (k : nat) :
  k < length h -> nth_error (fst (Heap.alloc c h)) k = nth_error h k.
Proof.
  intro H. simpl. apply nth_error_app1. exact H.
Qed.

Lemma nth_error_alloc_new (c : Heap.Cell) (h : Heap.t) :
  nth_error (fst (Heap.alloc c h)) (snd (Heap.alloc c h)) = Some c.
Proof.
  simpl. rewrite nth_error_app2 by lia. rewrite Nat.sub_diag. reflexivity.
Qed.

(** Two allocations in a row leave every earlier cell as it was. *)
Lemma nth_error_alloc2_old (c1 c2 : Heap.Cell) (h : Heap.t) (k : nat) :
  k < length h -> nth_error ((h ++ [c1]) ++ [c2]) k = nth_error h k.
Proof.
  intro H. rewrite nth_error_app1 by (rewrite length_app; simpl; lia).
  apply nth_error_app1. exact H.
Qed.

Lemma read_alloc2_old (c1 c2 : Heap.Cell) (h : Heap.t) (l : nat) (p : Studio.Profile) :
  Heap.read h l = Some p -> Heap.read ((h ++ [c1]) ++ [c2]) l = Some p.
Proof.
  unfold Heap.read. intro H.
  destruct (nth_error h l) as [c|] eqn:E; [|discriminate].
  assert (Hl : l < length h) by (apply nth_error_Some; congruence).
  rewrite nth_error_alloc2_old by exact Hl. rewrite E.
  destruct c as [|n b ht wt ty ch w hp a]; [discriminate|].
  destruct (nth_error h a) as [c|] eqn:Ea; [|discriminate].
  assert (Ha : a < length h) by (apply nth_error_Some; congruence).
  rewrite nth_error_alloc2_old by exact Ha. rewrite Ea. exact H.
Qed.

Lemma read_alloc2_new (items : list SavedOutfit.t) (h : Heap.t)
  n b ht wt ty ch w hp :
  Heap.read ((h ++ [Heap.Array items])
             ++ [Heap.Object n b ht wt ty ch w hp (length h)])
            (length (h ++ [Heap.Array items]))
  = Some (Studio.mkProfile n b ht wt ty ch w hp items).
Proof.
  unfold Heap.read.
  rewrite nth_error_app2 by lia. rewrite Nat.sub_diag. simpl.
  rewrite nth_error_app1 by (rewrite length_app; simpl; lia).
  rewrite nth_error_app2 by lia. rewrite Nat.sub_diag. reflexivity.
Qed.

(** C8. Let [o] be an outfit whose id is not among those of [p].  The
    profile built by [handleSaveOutfit] holds the outfits of [p]
    followed by [o]; opening the profile page on it and deleting
    [o.id] saves a profile whose outfits are those of [p] again, in
    the same order.  Both steps only allocate: every cell of the store
    that existed before is unchanged afterwards, so the object of [p]
    and the one of the intermediate profile still read as before. *)
Theorem C8_add_then_remove_outfit :
  forall (p : Studio.Profile) (o : SavedOutfit.t),
    ~ In (SavedOutfit.id o) (map SavedOutfit.id (Studio.savedOutfits p)) ->
    let p' := Studio.updatedProfile p o in
    let form := Studio.ProfilePage.mount (Some p') in
    let q := Studio.ProfilePage.profile_of form (Studio.savedOutfits p) in
    Studio.savedOutfits p' = Studio.savedOutfits p ++ [o]
    /\ snd (Studio.ProfilePage.handleDeleteOutfit (SavedOutfit.id o) form)
       = [Studio.ProfilePage.onSave q]
    /\ Studio.savedOutfits q = Studio.savedOutfits p
    /\ Permutation (Studio.savedOutfits q) (Studio.savedOutfits p)
    /\ forall (h : Heap.t) (l : nat),
         Heap.read h l = Some p ->
         exists h1 l1 a1 h2 l2,
           Heap.spread_append o l h = Some (h1, l1)
           /\ Heap.read h1 l1 = Some p'
           /\ HeapOps.savedOutfits_ref h1 l1 = Some a1
           /\ Heap.filter_rebuild (SavedOutfit.id o) form a1 h1 = Some (h2, l2)
           /\ Heap.read h2 l2 = Some q
           /\ (forall k, k < length h -> nth_error h1 k = nth_error h k)
           /\ (forall k, k < length h1 -> nth_error h2 k = nth_error h1 k)
           /\ Heap.read h1 l = Some p
           /\ Heap.read h2 l = Some p
           /\ Heap.read h2 l1 = Some p'.
Proof.
  intros p o Hfresh p' form q.
  assert (Hf := filter_out_appended o (Studio.savedOutfits p) Hfresh).
  split; [reflexivity|].
  split.
  { unfold Studio.ProfilePage.handleDeleteOutfit. simpl.
    unfold q. simpl. rewrite Hf. reflexivity. }
  split; [reflexivity|].
  split; [apply Permutation_refl|].
  intros h l Hr.
  pose proof Hr as Hr0.
  unfold Heap.read in Hr.
  destruct (nth_error h l) as [[|n b ht wt ty ch w hp a]|] eqn:El; try discriminate.
  destruct (nth_error h a) as [[items|]|] eqn:Ea; try discriminate.
  injection Hr as Hp.
  set (A1 := Heap.Array (items ++ [o])).
  set (O1 := Heap.Object n b ht wt ty ch w hp (length h)).
  set (h1 := (h ++ [A1]) ++ [O1]).
  set (A2 := Heap.Array
               (filter (fun outfit =>
                          negb (String.eqb (SavedOutfit.id outfit) (SavedOutfit.id o)))
                       (items ++ [o]))).
  set (O2 := Heap.Object (Studio.ProfilePage.name form)
                         (Studio.ProfilePage.bodyScans form)
                         (Studio.ProfilePage.height form)
                         (Studio.ProfilePage.weight form)
                         (Studio.ProfilePage.bodyType form)
                         (Some (Studio.ProfilePage.chest form))
                         (Some (Studio.ProfilePage.waist form))
                         (Some (Studio.ProfilePage.hips form)) (length h1)).
  assert (Hitems : items = Studio.savedOutfits p) by (rewrite <- Hp; reflexivity).
  assert (Hread1 : Heap.read h1 (length (h ++ [A1])) = Some p').
  { unfold h1, A1, O1. rewrite read_alloc2_new. unfold p', Studio.updatedProfile.
    rewrite <- Hp. reflexivity. }
  assert (Hcell1 : nth_error h1 (length (h ++ [A1])) = Some O1).
  { unfold h1. rewrite nth_error_app2 by lia. rewrite Nat.sub_diag. reflexivity. }
  assert (Harr1 : nth_error h1 (length h) = Some A1).
  { unfold h1. rewrite nth_error_app1 by (rewrite length_app; simpl; lia).
    rewrite nth_error_app2 by lia. rewrite Nat.sub_diag. reflexivity. }
  exists h1, (length (h ++ [A1])), (length h), ((h1 ++ [A2]) ++ [O2]),
         (length (h1 ++ [A2])).
  split.
  { unfold Heap.spread_append. rewrite El, Ea. reflexivity. }
  split; [exact Hread1|].
  split.
  { unfold HeapOps.savedOutfits_ref. rewrite Hcell1. reflexivity. }
  split.
  { unfold Heap.filter_rebuild. rewrite Harr1. reflexivity. }
  split.
  { unfold A2, O2. rewrite read_alloc2_new. unfold q, Studio.ProfilePage.profile_of.
    rewrite Hitems, Hf. reflexivity. }
  split.
  { intros k Hk. unfold h1. apply nth_error_alloc2_old. exact Hk. }
  split.
  { intros k Hk. apply nth_error_alloc2_old. exact Hk. }
  split.
  { unfold h1. apply read_alloc2_old. exact Hr0. }
  split.
  { apply read_alloc2_old. unfold h1. apply read_alloc2_old. exact Hr0. }
  apply read_alloc2_old. exact Hread1.
Qed.

Lemma C8_add_then_remove_outfit_witness :
  Studio.savedOutfits
    (Studio.ProfilePage.profile_of
       (Studio.ProfilePage.mount
          (Some (Studio.updatedProfile Sample.profile Sample.outfit)))
       (Studio.savedOutfits Sample.profile))
  = Studio.savedOutfits Sample.profile.
Proof.
  assert (H : ~ In (SavedOutfit.id Sample.outfit)
                   (map SavedOutfit.id (Studio.savedOutfits Sample.profile))).
  { simpl. intros [K|[]]. discriminate K. }
  exact (proj1 (proj2 (proj2 (C8_add_then_remove_outfit Sample.profile Sample.outfit H)))).
Defined.

(** ** The guards of [handleGenerate] *)

(** The claim C1 as it is written fails on [src/index.tsx]: with a
    clothing image and a profile whose scan lacks a view, the handler
    leaves the creator page for the profile page. *)
Lemma C1_counterexample :
  ~ (forall ai now later s,
       Studio.clothingImage s = None \/ Spec.studio_ready (Studio.profile s) = false ->
       Studio.page (fst (Studio.handleGenerate ai now later s)) = Studio.page s).
Proof.
  intro H.
  specialize (H SampleState.refusing 2%N 3%N
                (SampleState.studio (Some SampleState.partial_profile)
                                    (Some SampleState.clothing))).
  assert (K : Page.profile = Page.creator) by (apply H; right; reflexivity).
  discriminate K.
Qed.

Lemma complete_false_cases (b : BodyScan.t) :
  Spec.complete b = false ->
  BodyScan.front b = None \/ BodyScan.side b = None \/ BodyScan.back b = None.
Proof.
  unfold Spec.complete.
  destruct (BodyScan.front b); [|intros _; left; reflexivity].
  destruct (BodyScan.side b); [|intros _; right; left; reflexivity].
  destruct (BodyScan.back b); [discriminate|intros _; right; right; reflexivity].
Qed.

Lemma complete_true_cases (b : BodyScan.t) :
  Spec.complete b = true ->
  exists f sd bk,
    BodyScan.front b = Some f /\ BodyScan.side b = Some sd
    /\ BodyScan.back b = Some bk.
Proof.
  unfold Spec.complete.
  destruct (BodyScan.front b) as [f|]; [|discriminate].
  destruct (BodyScan.side b) as [sd|]; [|discriminate].
  destruct (BodyScan.back b) as [bk|]; [|discriminate].
  intros _. exists f, sd, bk. repeat split.
Qed.

(** C1, amended.  [handleGenerate] sends nothing to the service and
    sets an error message whenever the clothing image is absent, the
    profile is absent, or a slot of the body scan is null.  In
    [src/unnamed/part_000] every such call leaves the page as it is.  In
    [src/index.tsx] a missing clothing image or profile leaves the page
    as it is, while an incomplete scan (clothing image and profile
    present) sends the user to the profile page.  Nothing else is
    checked: with a clothing image and a profile with a complete scan,
    one request is sent, whatever the name, height and weight are. *)
Theorem C1_generate_guards :
  (forall ai now later s,
      Studio.clothingImage s = None \/ Studio.profile s = None ->
      Studio.handleGenerate ai now later s
      = (Studio.setError
           (Some "Please upload a clothing item and ensure your profile is complete.") s,
         []))
  /\ (forall ai now later s c p,
      Studio.clothingImage s = Some c ->
      Studio.profile s = Some p ->
      Spec.complete (Studio.bodyScans p) = false ->
      Studio.handleGenerate ai now later s
      = (Studio.changePage now Page.profile
           (Studio.setError
              (Some "Please complete the 3-angle body scan in your profile for best results.") s),
         []))
  /\ (forall ai typeError s,
      (Twin.clothingImage s = None \/ Twin.profile s = None
       \/ exists p, Twin.profile s = Some p
                    /\ Spec.complete (Twin.bodyScans p) = false) ->
      Twin.handleGenerate ai typeError s
      = (Twin.setError
           (Some "Please complete your profile, including the 3-angle body scan, and upload a clothing image first.") s,
         []))
  /\ (forall ai now later s c p,
      Studio.clothingImage s = Some c ->
      Studio.profile s = Some p ->
      Spec.complete (Studio.bodyScans p) = true ->
      length (snd (Studio.handleGenerate ai now later s)) = 1)
  /\ (forall ai typeError s c p,
      Twin.clothingImage s = Some c ->
      Twin.profile s = Some p ->
      Spec.complete (Twin.bodyScans p) = true ->
      length (snd (Twin.handleGenerate ai typeError s)) = 1).
Proof.
  split; [|split; [|split; [|split]]].
  - intros ai now later s [H|H];
      unfold Studio.handleGenerate, Studio.handleGenerate_begin; rewrite H.
    + reflexivity.
    + destruct (Studio.clothingImage s); reflexivity.
  - intros ai now later s c p Hc Hp Hb.
    unfold Studio.handleGenerate, Studio.handleGenerate_begin. rewrite Hc, Hp.
    unfold Spec.complete in Hb.
    destruct (BodyScan.front (Studio.bodyScans p)); [|reflexivity].
    destruct (BodyScan.side (Studio.bodyScans p)); [|reflexivity].
    destruct (BodyScan.back (Studio.bodyScans p)); [discriminate|reflexivity].
  - intros ai typeError s H.
    unfold Twin.handleGenerate, Twin.handleGenerate_begin.
    destruct H as [H|[H|(p & Hp & Hb)]].
    + rewrite H. destruct (Twin.profile s) as [p|]; [|reflexivity].
      destruct (BodyScan.front (Twin.bodyScans p)); [|reflexivity].
      reflexivity.
    + rewrite H. reflexivity.
    + rewrite Hp. unfold Spec.complete in Hb.
      destruct (Twin.clothingImage s); [|reflexivity].
      destruct (BodyScan.front (Twin.bodyScans p)); [|reflexivity].
      destruct (BodyScan.side (Twin.bodyScans p)); [|reflexivity].
      destruct (BodyScan.back (Twin.bodyScans p)); [discriminate|reflexivity].
  - intros ai now later s c p Hc Hp Hb.
    destruct (complete_true_cases _ Hb) as (f & sd & bk & Hf & Hs & Hk).
    unfold Studio.handleGenerate, Studio.handleGenerate_begin.
    rewrite Hc, Hp, Hf, Hs, Hk. reflexivity.
  - intros ai typeError s c p Hc Hp Hb.
    destruct (complete_true_cases _ Hb) as (f & sd & bk & Hf & Hs & Hk).
    unfold Twin.handleGenerate, Twin.handleGenerate_begin.
    rewrite Hc, Hp, Hf, Hs, Hk. reflexivity.
Qed.

Lemma C1_generate_guards_witness :
  snd (Studio.handleGenerate SampleState.refusing 2 3
         (SampleState.studio (Some Sample.profile) None)) = []
  /\ Studio.page (fst (Studio.handleGenerate SampleState.refusing 2 3
         (SampleState.studio (Some SampleState.partial_profile)
                             (Some SampleState.clothing)))) = Page.profile
  /\ Twin.page (fst (Twin.handleGenerate SampleState.refusing "TypeError"
         (SampleState.twin None (Some SampleState.clothing)))) = Page.creator
  /\ length (snd (Studio.handleGenerate SampleState.refusing 2 3
         (SampleState.studio (Some SampleState.anonymous_profile)
                             (Some SampleState.clothing)))) = 1
  /\ length (snd (Twin.handleGenerate SampleState.refusing "TypeError"
         (SampleState.twin (Some (SampleState.twin_profile None))
                           (Some SampleState.clothing)))) = 1.
Proof.
  destruct C1_generate_guards as (H1 & H2 & H3 & H4 & H5).
  split; [|split; [|split; [|split]]].
  - rewrite (H1 SampleState.refusing 2%N 3%N
               (SampleState.studio (Some Sample.profile) None)).
    + reflexivity.
    + left. reflexivity.
  - rewrite (H2 SampleState.refusing 2%N 3%N
               (SampleState.studio (Some SampleState.partial_profile)
                                   (Some SampleState.clothing))
               SampleState.clothing SampleState.partial_profile).
    + reflexivity.
    + reflexivity.
    + reflexivity.
    + reflexivity.
  - rewrite (H3 SampleState.refusing "TypeError"
               (SampleState.twin None (Some SampleState.clothing))).
    + reflexivity.
    + right. left. reflexivity.
  - apply (H4 SampleState.refusing 2%N 3%N _ SampleState.clothing
              SampleState.anonymous_profile); reflexivity.
  - apply (H5 SampleState.refusing "TypeError" _ SampleState.clothing
              (SampleState.twin_profile None)); reflexivity.
Defined.

(** ** The parts of the request *)

(** The claim C2 as it is written fails on [src/index.tsx], which puts
    the clothing image first, before the three views of the body. *)
Lemma C2_counterexample :
  ~ (forall now s c p f sd b,
       Studio.clothingImage s = Some c ->
       Studio.profile s = Some p ->
       BodyScan.front (Studio.bodyScans p) = Some f ->
       BodyScan.side (Studio.bodyScans p) = Some sd ->
       BodyScan.back (Studio.bodyScans p) = Some b ->
       option_map GenAI.contents (snd (Studio.handleGenerate_begin now s))
       = Some (Spec.request_parts None f sd b c
                 (Studio.prompt p (Studio.selectedPose s)))).
Proof.
  intro H.
  specialize (H 2%N (SampleState.studio (Some Sample.profile)
                                        (Some SampleState.clothing))
                SampleState.clothing Sample.profile
                (Sample.image "FRONT") (Sample.image "SIDE") (Sample.image "BACK")
                eq_refl eq_refl eq_refl eq_refl eq_refl).
  unfold Studio.handleGenerate_begin, Spec.request_parts in H. simpl in H.
  unfold Studio.parts_of in H. simpl in H.
  injection H as H0 _. discriminate H0.
Qed.

(** C2, amended.  The request that [handleGenerate] assembles has, in
    [src/unnamed/part_000], the parts: face image if the profile has
    one, front, side, back, clothing image, text; and in
    [src/index.tsx] the parts: clothing image, front, side, back, text.
    In both the three views come in the order front, side, back and the
    one text part is last; this request is the one the service
    receives. *)
Theorem C2_request_parts :
  (forall ai now later s c p f sd b,
      Studio.clothingImage s = Some c ->
      Studio.profile s = Some p ->
      BodyScan.front (Studio.bodyScans p) = Some f ->
      BodyScan.side (Studio.bodyScans p) = Some sd ->
      BodyScan.back (Studio.bodyScans p) = Some b ->
      map GenAI.contents (snd (Studio.handleGenerate ai now later s))
      = [[GenAI.image_part c; GenAI.image_part f; GenAI.image_part sd;
          GenAI.image_part b;
          GenAI.text_part (Studio.prompt p (Studio.selectedPose s))]])
  /\ (forall ai typeError s c p f sd b,
      Twin.clothingImage s = Some c ->
      Twin.profile s = Some p ->
      BodyScan.front (Twin.bodyScans p) = Some f ->
      BodyScan.side (Twin.bodyScans p) = Some sd ->
      BodyScan.back (Twin.bodyScans p) = Some b ->
      map GenAI.contents (snd (Twin.handleGenerate ai typeError s))
      = [Spec.request_parts (Twin.faceImage p) f sd b c
           (Twin.prompt p (Twin.selectedPose s))]).
Proof.
  split.
  - intros ai now later s c p f sd b Hc Hp Hf Hs Hb.
    unfold Studio.handleGenerate, Studio.handleGenerate_begin.
    rewrite Hc, Hp, Hf, Hs, Hb. reflexivity.
  - intros ai typeError s c p f sd b Hc Hp Hf Hs Hb.
    unfold Twin.handleGenerate, Twin.handleGenerate_begin.
    rewrite Hc, Hp, Hf, Hs, Hb. reflexivity.
Qed.

Lemma C2_request_parts_witness :
  map (fun r => length (GenAI.contents r))
      (snd (Studio.handleGenerate SampleState.refusing 2 3
              (SampleState.studio (Some Sample.profile) (Some SampleState.clothing))))
  = [5]
  /\ map (fun r => length (GenAI.contents r))
      (snd (Twin.handleGenerate SampleState.refusing "TypeError"
              (SampleState.twin (Some (SampleState.twin_profile
                                         (Some (Sample.image "FACE"))))
                                (Some SampleState.clothing))))
  = [6].
Proof.
  destruct C2_request_parts as (H1 & H2).
  split.
  - rewrite <- (map_map GenAI.contents (@length GenAI.Part)).
    rewrite (H1 SampleState.refusing 2%N 3%N
               (SampleState.studio (Some Sample.profile) (Some SampleState.clothing))
               SampleState.clothing Sample.profile
               (Sample.image "FRONT") (Sample.image "SIDE") (Sample.image "BACK")
               eq_refl eq_refl eq_refl eq_refl eq_refl).
    reflexivity.
  - rewrite <- (map_map GenAI.contents (@length GenAI.Part)).
    rewrite (H2 SampleState.refusing "TypeError"
               (SampleState.twin (Some (SampleState.twin_profile
                                          (Some (Sample.image "FACE"))))
                                 (Some SampleState.clothing))
               SampleState.clothing
               (SampleState.twin_profile (Some (Sample.image "FACE")))
               (Sample.image "FRONT") (Sample.image "SIDE") (Sample.image "BACK")
               eq_refl eq_refl eq_refl eq_refl eq_refl).
    reflexivity.
Defined.

(** ** Reading the response *)

Lemma find_first_inlineData (pre post : list GenAI.Part) (part : GenAI.Part)
  (blob : GenAI.Blob) :
  (forall x, In x pre -> Parts.plain x) ->
  GenAI.inlineData part = Some blob ->
  find (fun part => match GenAI.inlineData part with
                    | Some _ => true
                    | None => false
                    end) (pre ++ part :: post) = Some part.
Proof.
  intros Hpre Hpart. induction pre as [|x pre IH]; simpl.
  - rewrite Hpart. reflexivity.
  - rewrite (Hpre x (or_introl eq_refl)). apply IH.
    intros y Hy. apply Hpre. right. exact Hy.
Qed.

Lemma find_no_inlineData (ps : list GenAI.Part) :
  (forall x, In x ps -> Parts.plain x) ->
  find (fun part => match GenAI.inlineData part with
                    | Some _ => true
                    | None => false
                    end) ps = None.
Proof.
  intro H. induction ps as [|x ps IH]; simpl; [reflexivity|].
  rewrite (H x (or_introl eq_refl)). apply IH.
  intros y Hy. apply H. right. exact Hy.
Qed.

Lemma scan_parts_skip (pre rest : list GenAI.Part) :
  (forall x, In x pre -> Parts.skipped x) ->
  Twin.scan_parts (pre ++ rest) = Twin.scan_parts rest.
Proof.
  intro H. induction pre as [|x pre IH]; simpl; [reflexivity|].
  assert (IH' : Twin.scan_parts (pre ++ rest) = Twin.scan_parts rest).
  { apply IH. intros y Hy. apply H. right. exact Hy. }
  destruct (H x (or_introl eq_refl)) as [Hx|(blob & m & Hx & Hm & Hs)].
  - rewrite Hx. exact IH'.
  - rewrite Hx, Hm, Hs. exact IH'.
Qed.

Lemma scan_parts_none (ps : list GenAI.Part) :
  (forall x, In x ps -> Parts.skipped x) ->
  Twin.scan_parts ps = Twin.NotFound.
Proof.
  intro H. rewrite <- (app_nil_r ps). rewrite scan_parts_skip by exact H.
  reflexivity.
Qed.

(** The claim C4 as it is written fails on [src/unnamed/part_000]: when
    the response has no image, the text that came with it is dropped
    and the message shown is a fixed one. *)
Lemma C4_counterexample :
  ~ (forall typeError s r t,
       Twin.scan_response r = Twin.NotFound ->
       GenAI.response_text r = Some t ->
       Js.truthy t = true ->
       exists e,
         Twin.error (Twin.handleGenerate_end typeError (GenAI.Resolved r) s) = Some e
         /\ Js.includes e t = true).
Proof.
  intro H.
  destruct (H "TypeError"
              (SampleState.twin (Some (SampleState.twin_profile None))
                                (Some SampleState.clothing))
              SampleState.refusal "safety policy" eq_refl eq_refl eq_refl)
    as (e & He & Hin).
  simpl in He. injection He as <-.
  vm_compute in Hin. discriminate Hin.
Qed.

(** Every list of parts either has no inline data at all, or splits at
    its first part with inline data. *)
Lemma parts_plain_or_first (ps : list GenAI.Part) :
  (forall x, In x ps -> Parts.plain x)
  \/ exists pre part post blob,
       ps = pre ++ part :: post
       /\ (forall x, In x pre -> Parts.plain x)
       /\ GenAI.inlineData part = Some blob.
Proof.
  induction ps as [|x ps IH].
  - left. intros x [].
  - destruct (GenAI.inlineData x) as [blob|] eqn:Hx.
    + right. exists [], x, ps, blob. split; [reflexivity|].
      split; [intros y []|exact Hx].
    + destruct IH as [IH|(pre & part & post & blob & -> & Hpre & Hpart)].
      * left. intros y [<-|Hy]; [exact Hx|exact (IH y Hy)].
      * right. exists (x :: pre), part, post, blob. split; [reflexivity|].
        split; [|exact Hpart].
        intros y [<-|Hy]; [exact Hx|exact (Hpre y Hy)].
Qed.

(** Every list of parts is either passed over entirely by the loop of
    [src/unnamed/part_000], or splits at the first part that the loop
    does not pass over: an image, or inline data without a media
    type. *)
Lemma parts_skipped_or_first (ps : list GenAI.Part) :
  (forall x, In x ps -> Parts.skipped x)
  \/ exists pre part post,
       ps = pre ++ part :: post
       /\ (forall x, In x pre -> Parts.skipped x)
       /\ ((exists blob m, Parts.image part blob m) \/ Parts.untyped part).
Proof.
  induction ps as [|x ps IH].
  - left. intros x [].
  - assert (D : Parts.skipped x
                \/ (exists blob m, Parts.image x blob m) \/ Parts.untyped x).
    { unfold Parts.skipped, Parts.image, Parts.untyped.
      destruct (GenAI.inlineData x) as [blob|]; [|left; left; reflexivity].
      destruct (GenAI.mimeType blob) as [m|] eqn:Hm.
      - destruct (Js.startsWith m "image/") eqn:Hs.
        + right. left. exists blob, m. repeat split; assumption.
        + left. right. exists blob, m. repeat split; assumption.
      - right. right. exists blob. split; [reflexivity|exact Hm]. }
    destruct D as [Hx|Hx].
    + destruct IH as [IH|(pre & part & post & -> & Hpre & Hpart)].
      * left. intros y [<-|Hy]; [exact Hx|exact (IH y Hy)].
      * right. exists (x :: pre), part, post. split; [reflexivity|].
        split; [|exact Hpart].
        intros y [<-|Hy]; [exact Hx|exact (Hpre y Hy)].
    + right. exists [], x, ps. split; [reflexivity|].
      split; [intros y []|exact Hx].
Qed.

(** Whether the first candidate of a response has a list of parts. *)
Lemma first_candidate_parts_dec (r : GenAI.Response) :
  (exists ps, Parts.first_candidate_parts r ps)
  \/ (forall ps, ~ Parts.first_candidate_parts r ps).
Proof.
  unfold Parts.first_candidate_parts.
  destruct (GenAI.candidates r) as [[|c cs]|] eqn:Hc.
  - right. intros ps (c & cs & ct & H & _). discriminate H.
  - destruct (GenAI.content c) as [ct|] eqn:Hct.
    + destruct (GenAI.parts ct) as [ps|] eqn:Hps.
      * left. exists ps, c, cs, ct. repeat split; assumption.
      * right. intros ps (c' & cs' & ct' & H & Hct' & Hps').
        injection H as <- <-. rewrite Hct in Hct'. injection Hct' as <-.
        rewrite Hps in Hps'. discriminate Hps'.
    + right. intros ps (c' & cs' & ct' & H & Hct' & _).
      injection H as <- <-. rewrite Hct in Hct'. discriminate Hct'.
  - right. intros ps (c & cs & ct & H & _). discriminate H.
Qed.

(** C4, amended.  Both versions look only at the parts of the first
    candidate, in order, and the cases below cover every response.
    [src/index.tsx] takes the first part that has inline data and shows
    it as the result; when no part has inline data, also when the
    candidates, the content or the parts are missing, it returns to the
    creator page with an error that carries the text of the response,
    or a default explanation when that text is missing or empty.
    [src/unnamed/part_000] takes the first part whose inline data has a
    media type starting with [image/] and shows it as the result; when
    the parts hold neither such a part nor inline data without a media
    type, it returns to the creator page with a fixed explanation,
    whatever text the response carried; when the first candidate, its
    content or its parts are missing, or when inline data without a
    media type comes before any image, it returns to the creator page
    with the message of the [TypeError] that the run time raises, even
    if an image follows. *)
Theorem C4_response_handling :
  (forall now s r pre part post blob,
      Parts.first_candidate_parts r (pre ++ part :: post) ->
      (forall x, In x pre -> Parts.plain x) ->
      GenAI.inlineData part = Some blob ->
      Studio.handleGenerate_end now (GenAI.Resolved r) s
      = Studio.changePage now Page.result
          (Studio.setResultImage (Some (Studio.data_url blob)) s))
  /\ (forall now s r,
      (forall ps, Parts.first_candidate_parts r ps ->
                  forall x, In x ps -> Parts.plain x) ->
      Studio.handleGenerate_end now (GenAI.Resolved r) s
      = Studio.changePage now Page.creator
          (Studio.setError
             (Some ("Failed to generate image. Response: "
                    ++ Js.or_else (GenAI.response_text r) Studio.no_image_text)%string)
             s))
  /\ (forall typeError s r pre part post blob m,
      Parts.first_candidate_parts r (pre ++ part :: post) ->
      (forall x, In x pre -> Parts.skipped x) ->
      GenAI.inlineData part = Some blob ->
      GenAI.mimeType blob = Some m ->
      Js.startsWith m "image/" = true ->
      Twin.handleGenerate_end typeError (GenAI.Resolved r) s
      = Twin.setNewOutfitName EmptyString
          (Twin.setIsOutfitSaved false
             (Twin.setPage Page.result
                (Twin.setResultImage
                   (Some ("data:" ++ m ++ ";base64," ++ Js.show (GenAI.data blob))%string)
                   s))))
  /\ (forall typeError s r ps,
      Parts.first_candidate_parts r ps ->
      (forall x, In x ps -> Parts.skipped x) ->
      Twin.handleGenerate_end typeError (GenAI.Resolved r) s
      = Twin.setPage Page.creator
          (Twin.setError
             (Some ("Sorry, we couldn't generate the image. "
                    ++ Twin.no_image_message)%string) s))
  /\ (forall typeError s r,
      (forall ps, ~ Parts.first_candidate_parts r ps) ->
      Twin.handleGenerate_end typeError (GenAI.Resolved r) s
      = Twin.setPage Page.creator
          (Twin.setError
             (Some ("Sorry, we couldn't generate the image. "
                    ++ Js.or_else (Some typeError) "Please try again.")%string) s))
  /\ (forall typeError s r pre part post,
      Parts.first_candidate_parts r (pre ++ part :: post) ->
      (forall x, In x pre -> Parts.skipped x) ->
      Parts.untyped part ->
      Twin.handleGenerate_end typeError (GenAI.Resolved r) s
      = Twin.setPage Page.creator
          (Twin.setError
             (Some ("Sorry, we couldn't generate the image. "
                    ++ Js.or_else (Some typeError) "Please try again.")%string) s))
  /\ (forall r,
      (exists pre part post blob,
          Parts.first_candidate_parts r (pre ++ part :: post)
          /\ (forall x, In x pre -> Parts.plain x)
          /\ GenAI.inlineData part = Some blob)
      \/ (forall ps, Parts.first_candidate_parts r ps ->
                     forall x, In x ps -> Parts.plain x))
  /\ (forall r,
      (exists pre part post blob m,
          Parts.first_candidate_parts r (pre ++ part :: post)
          /\ (forall x, In x pre -> Parts.skipped x)
          /\ GenAI.inlineData part = Some blob
          /\ GenAI.mimeType blob = Some m
          /\ Js.startsWith m "image/" = true)
      \/ (exists ps, Parts.first_candidate_parts r ps
                     /\ forall x, In x ps -> Parts.skipped x)
      \/ (forall ps, ~ Parts.first_candidate_parts r ps)
      \/ (exists pre part post,
             Parts.first_candidate_parts r (pre ++ part :: post)
             /\ (forall x, In x pre -> Parts.skipped x)
             /\ Parts.untyped part)).
Proof.
  split; [|split; [|split; [|split; [|split; [|split; [|split]]]]]].
  - intros now s r pre part post blob (c & cs & ct & Hc & Hct & Hps) Hpre Hpart.
    unfold Studio.handleGenerate_end, Studio.find_imagePart.
    rewrite Hc, Hct, Hps.
    rewrite (find_first_inlineData pre post part blob Hpre Hpart).
    destruct part as [i t]. simpl in Hpart. rewrite Hpart. reflexivity.
  - intros now s r H.
    assert (E : Studio.find_imagePart r = None).
    { unfold Studio.find_imagePart.
      destruct (GenAI.candidates r) as [[|c cs]|] eqn:Hc; try reflexivity.
      destruct (GenAI.content c) as [ct|] eqn:Hct; try reflexivity.
      destruct (GenAI.parts ct) as [ps|] eqn:Hps; try reflexivity.
      apply find_no_inlineData. apply (H ps).
      exists c, cs, ct. repeat split; assumption. }
    unfold Studio.handleGenerate_end. rewrite E. reflexivity.
  - intros typeError s r pre part post blob m
           (c & cs & ct & Hc & Hct & Hps) Hpre Hpart Hm Hs.
    unfold Twin.handleGenerate_end, Twin.scan_response.
    rewrite Hc, Hct, Hps. rewrite scan_parts_skip by exact Hpre.
    simpl. rewrite Hpart, Hm, Hs. reflexivity.
  - intros typeError s r ps (c & cs & ct & Hc & Hct & Hps) Hall.
    unfold Twin.handleGenerate_end, Twin.scan_response.
    rewrite Hc, Hct, Hps. rewrite scan_parts_none by exact Hall.
    reflexivity.
  - intros typeError s r Hno.
    assert (E : Twin.scan_response r = Twin.Throws).
    { unfold Twin.scan_response.
      destruct (GenAI.candidates r) as [[|c cs]|] eqn:Hc; try reflexivity.
      destruct (GenAI.content c) as [ct|] eqn:Hct; try reflexivity.
      destruct (GenAI.parts ct) as [ps|] eqn:Hps; try reflexivity.
      exfalso. apply (Hno ps). exists c, cs, ct. repeat split; assumption. }
    unfold Twin.handleGenerate_end. rewrite E. reflexivity.
  - intros typeError s r pre part post (c & cs & ct & Hc & Hct & Hps) Hpre
           (blob & Hpart & Hm).
    unfold Twin.handleGenerate_end, Twin.scan_response.
    rewrite Hc, Hct, Hps. rewrite scan_parts_skip by exact Hpre.
    simpl. rewrite Hpart, Hm. reflexivity.
  - intro r. destruct (first_candidate_parts_dec r) as [(ps & Hps)|Hno].
    + destruct (parts_plain_or_first ps)
        as [Hall|(pre & part & post & blob & -> & Hpre & Hpart)].
      * right. intros ps' (c' & cs' & ct' & Hc' & Hct' & Hps') x Hx.
        destruct Hps as (c & cs & ct & Hc & Hct & Hps).
        rewrite Hc in Hc'. injection Hc' as <- <-.
        rewrite Hct in Hct'. injection Hct' as <-.
        rewrite Hps in Hps'. injection Hps' as <-. exact (Hall x Hx).
      * left. exists pre, part, post, blob. repeat split; assumption.
    + right. intros ps Hps. exfalso. exact (Hno ps Hps).
  - intro r. destruct (first_candidate_parts_dec r) as [(ps & Hps)|Hno].
    + destruct (parts_skipped_or_first ps)
        as [Hall|(pre & part & post & -> & Hpre & [(blob & m & Hi & Hm & Hs)|Hu])].
      * right. left. exists ps. split; assumption.
      * left. exists pre, part, post, blob, m. repeat split; assumption.
      * right. right. right. exists pre, part, post. repeat split; assumption.
    + right. right. left. exact Hno.
Qed.

Lemma caption_is_plain :
  forall x, In x [SampleResponse.caption] -> Parts.plain x.
Proof.
  intros x [<-|[]]. reflexivity.
Qed.

Lemma C4_response_handling_witness :
  Studio.resultImage
    (Studio.handleGenerate_end 3 (GenAI.Resolved SampleResponse.pictured)
       (SampleState.studio (Some Sample.profile) (Some SampleState.clothing)))
  = Some "data:image/png;base64,PIXELS"
  /\ Studio.error
    (Studio.handleGenerate_end 3 (GenAI.Resolved SampleState.refusal)
       (SampleState.studio (Some Sample.profile) (Some SampleState.clothing)))
  = Some "Failed to generate image. Response: safety policy"
  /\ Twin.resultImage
    (Twin.handleGenerate_end "TypeError" (GenAI.Resolved SampleResponse.pictured)
       (SampleState.twin (Some (SampleState.twin_profile None))
                         (Some SampleState.clothing)))
  = Some "data:image/png;base64,PIXELS"
  /\ Twin.page
    (Twin.handleGenerate_end "TypeError" (GenAI.Resolved SampleState.refusal)
       (SampleState.twin (Some (SampleState.twin_profile None))
                         (Some SampleState.clothing)))
  = Page.creator
  /\ Twin.error
    (Twin.handleGenerate_end "TypeError" (GenAI.Resolved SampleResponse.blocked)
       (SampleState.twin (Some (SampleState.twin_profile None))
                         (Some SampleState.clothing)))
  = Some "Sorry, we couldn't generate the image. TypeError"
  /\ Twin.error
    (Twin.handleGenerate_end "TypeError" (GenAI.Resolved SampleResponse.odd_first)
       (SampleState.twin (Some (SampleState.twin_profile None))
                         (Some SampleState.clothing)))
  = Some "Sorry, we couldn't generate the image. TypeError".
Proof.
  destruct C4_response_handling as (H1 & H2 & H3 & H4 & H5 & H6 & _).
  split; [|split; [|split; [|split; [|split]]]].
  - rewrite (H1 3%N (SampleState.studio (Some Sample.profile) (Some SampleState.clothing))
               SampleResponse.pictured [SampleResponse.caption]
               SampleResponse.picture [SampleResponse.second_picture]
               (GenAI.mkBlob (Some "PIXELS") (Some "image/png"))).
    + reflexivity.
    + eexists _, _, _. repeat split.
    + exact caption_is_plain.
    + reflexivity.
  - rewrite (H2 3%N (SampleState.studio (Some Sample.profile) (Some SampleState.clothing))
               SampleState.refusal).
    + reflexivity.
    + intros ps (c & cs & ct & Hc & Hct & Hps) x Hx.
      injection Hc as <- _. injection Hct as <-. injection Hps as <-.
      destruct Hx as [<-|[]]. reflexivity.
  - rewrite (H3 "TypeError"
               (SampleState.twin (Some (SampleState.twin_profile None))
                                 (Some SampleState.clothing))
               SampleResponse.pictured [SampleResponse.caption]
               SampleResponse.picture [SampleResponse.second_picture]
               (GenAI.mkBlob (Some "PIXELS") (Some "image/png")) "image/png").
    + reflexivity.
    + eexists _, _, _. repeat split.
    + intros x Hx. left. exact (caption_is_plain x Hx).
    + reflexivity.
    + reflexivity.
    + reflexivity.
  - rewrite (H4 "TypeError"
               (SampleState.twin (Some (SampleState.twin_profile None))
                                 (Some SampleState.clothing))
               SampleState.refusal [GenAI.text_part "safety policy"]).
    + reflexivity.
    + eexists _, _, _. repeat split.
    + intros x [<-|[]]. left. reflexivity.
  - rewrite (H5 "TypeError"
               (SampleState.twin (Some (SampleState.twin_profile None))
                                 (Some SampleState.clothing))
               SampleResponse.blocked).
    + reflexivity.
    + intros ps (c & cs & ct & Hc & _). discriminate Hc.
  - rewrite (H6 "TypeError"
               (SampleState.twin (Some (SampleState.twin_profile None))
                                 (Some SampleState.clothing))
               SampleResponse.odd_first [] SampleResponse.odd
               [SampleResponse.picture]).
    + reflexivity.
    + eexists _, _, _. repeat split.
    + intros x [].
    + exists (GenAI.mkBlob (Some "RAW") None). split; reflexivity.
Defined.

(** ** What [handleGenerate] leaves alone *)

Lemma studio_generate_begin_frame (now : N) (s : Studio.State) :
  let s1 := fst (Studio.handleGenerate_begin now s) in
  Studio.profile s1 = Studio.profile s
  /\ Studio.localStorage s1 = Studio.localStorage s
  /\ Studio.clothingImage s1 = Studio.clothingImage s
  /\ Studio.selectedPose s1 = Studio.selectedPose s
  /\ Studio.isSavingOutfit s1 = Studio.isSavingOutfit s
  /\ Studio.newOutfitName s1 = Studio.newOutfitName s
  /\ Studio.isOutfitSaved s1 = Studio.isOutfitSaved s.
Proof.
  unfold Studio.handleGenerate_begin.
  destruct (Studio.clothingImage s) as [c|] eqn:Hc;
  destruct (Studio.profile s) as [p|] eqn:Hp; simpl;
    try (repeat split; assumption || reflexivity).
  destruct (BodyScan.front (Studio.bodyScans p));
  destruct (BodyScan.side (Studio.bodyScans p));
  destruct (BodyScan.back (Studio.bodyScans p)); simpl;
    repeat split; assumption || reflexivity.
Qed.

Lemma studio_generate_end_frame (now : N) (o : GenAI.Outcome) (s : Studio.State) :
  let s1 := Studio.handleGenerate_end now o s in
  Studio.profile s1 = Studio.profile s
  /\ Studio.localStorage s1 = Studio.localStorage s
  /\ Studio.clothingImage s1 = Studio.clothingImage s
  /\ Studio.selectedPose s1 = Studio.selectedPose s
  /\ Studio.isSavingOutfit s1 = Studio.isSavingOutfit s
  /\ Studio.newOutfitName s1 = Studio.newOutfitName s
  /\ Studio.isOutfitSaved s1 = Studio.isOutfitSaved s.
Proof.
  unfold Studio.handleGenerate_end.
  destruct o as [r|m]; [|repeat split].
  destruct (Studio.find_imagePart r) as [[[blob|] t]|]; repeat split.
Qed.

Lemma twin_generate_begin_frame (s : Twin.State) :
  let s1 := fst (Twin.handleGenerate_begin s) in
  Twin.profile s1 = Twin.profile s
  /\ Twin.localStorage s1 = Twin.localStorage s
  /\ Twin.clothingImage s1 = Twin.clothingImage s
  /\ Twin.selectedPose s1 = Twin.selectedPose s
  /\ Twin.isSavingOutfit s1 = Twin.isSavingOutfit s.
Proof.
  unfold Twin.handleGenerate_begin.
  destruct (Twin.profile s) as [p|] eqn:Hp;
  destruct (Twin.clothingImage s) as [c|] eqn:Hc; simpl;
    try (repeat split; assumption || reflexivity).
  destruct (BodyScan.front (Twin.bodyScans p));
  destruct (BodyScan.side (Twin.bodyScans p));
  destruct (BodyScan.back (Twin.bodyScans p)); simpl;
    repeat split; assumption || reflexivity.
Qed.

Lemma twin_generate_end_frame (typeError : string) (o : GenAI.Outcome)
  (s : Twin.State) :
  let s1 := Twin.handleGenerate_end typeError o s in
  Twin.profile s1 = Twin.profile s
  /\ Twin.localStorage s1 = Twin.localStorage s
  /\ Twin.clothingImage s1 = Twin.clothingImage s
  /\ Twin.selectedPose s1 = Twin.selectedPose s
  /\ Twin.isSavingOutfit s1 = Twin.isSavingOutfit s.
Proof.
  unfold Twin.handleGenerate_end.
  destruct o as [r|m]; [|repeat split].
  destruct (Twin.scan_response r); repeat split.
Qed.

(** C10. Whatever the service answers, one invocation of
    [handleGenerate] leaves the profile and the stored record exactly as
    they were, as well as the clothing image and the selected pose, and
    sends at most one request.  The same holds for each half of the
    handler taken alone, before and after the awaited call.  Beyond the
    request, [src/index.tsx] writes only the page, its key, the result
    and the error; [src/unnamed/part_000] writes in addition the saved
    flag and the outfit name, which it clears for a new result. *)
Theorem C10_generate_frame :
  (forall ai now later s,
      let r := Studio.handleGenerate ai now later s in
      Studio.profile (fst r) = Studio.profile s
      /\ Studio.localStorage (fst r) = Studio.localStorage s
      /\ Studio.clothingImage (fst r) = Studio.clothingImage s
      /\ Studio.selectedPose (fst r) = Studio.selectedPose s
      /\ Studio.isSavingOutfit (fst r) = Studio.isSavingOutfit s
      /\ Studio.newOutfitName (fst r) = Studio.newOutfitName s
      /\ Studio.isOutfitSaved (fst r) = Studio.isOutfitSaved s
      /\ length (snd r) <= 1)
  /\ (forall now o s,
      Studio.profile (Studio.handleGenerate_end now o s) = Studio.profile s
      /\ Studio.localStorage (Studio.handleGenerate_end now o s)
         = Studio.localStorage s)
  /\ (forall ai typeError s,
      let r := Twin.handleGenerate ai typeError s in
      Twin.profile (fst r) = Twin.profile s
      /\ Twin.localStorage (fst r) = Twin.localStorage s
      /\ Twin.clothingImage (fst r) = Twin.clothingImage s
      /\ Twin.selectedPose (fst r) = Twin.selectedPose s
      /\ Twin.isSavingOutfit (fst r) = Twin.isSavingOutfit s
      /\ length (snd r) <= 1)
  /\ (forall typeError o s,
      Twin.profile (Twin.handleGenerate_end typeError o s) = Twin.profile s
      /\ Twin.localStorage (Twin.handleGenerate_end typeError o s)
         = Twin.localStorage s).
Proof.
  split; [|split; [|split]].
  - intros ai now later s. unfold Studio.handleGenerate.
    pose proof (studio_generate_begin_frame now s) as B.
    destruct (Studio.handleGenerate_begin now s) as [s1 [req|]]; simpl in *.
    + pose proof (studio_generate_end_frame later (ai req) s1) as E. simpl in E.
      destruct B as (B1 & B2 & B3 & B4 & B5 & B6 & B7).
      destruct E as (E1 & E2 & E3 & E4 & E5 & E6 & E7).
      repeat split; try congruence. lia.
    + destruct B as (B1 & B2 & B3 & B4 & B5 & B6 & B7).
      repeat split; try assumption. lia.
  - intros now o s.
    pose proof (studio_generate_end_frame now o s) as E. simpl in E.
    split; apply E.
  - intros ai typeError s. unfold Twin.handleGenerate.
    pose proof (twin_generate_begin_frame s) as B.
    destruct (Twin.handleGenerate_begin s) as [s1 [req|]]; simpl in *.
    + pose proof (twin_generate_end_frame typeError (ai req) s1) as E. simpl in E.
      destruct B as (B1 & B2 & B3 & B4 & B5).
      destruct E as (E1 & E2 & E3 & E4 & E5).
      repeat split; try congruence. lia.
    + destruct B as (B1 & B2 & B3 & B4 & B5).
      repeat split; try assumption. lia.
  - intros typeError o s.
    pose proof (twin_generate_end_frame typeError o s) as E. simpl in E.
    split; apply E.
Qed.

(** ** The capture session *)

Lemma capture_idle st im pv ref str nx :
  BodyScanCapture.handleCapture
    (BodyScanCapture.mkState st im pv None ref str [] nx)
  = BodyScanCapture.mkState st im pv (Some 3%Z) (Some nx) str
      [BodyScanCapture.mkInterval nx 3] (Pos.succ nx).
Proof.
  reflexivity.
Qed.

(** A firing of the timer while its count is above one. *)
Lemma tick_down cam st im pv cd h str n nx :
  (1 < n)%Z ->
  BodyScanCapture.tick cam h
    (BodyScanCapture.mkState st im pv cd (Some h) str
       [BodyScanCapture.mkInterval h n] nx)
  = (BodyScanCapture.mkState st im pv (Some (n - 1)%Z) (Some h) str
       [BodyScanCapture.mkInterval h (n - 1)] nx, []).
Proof.
  intro Hn. unfold BodyScanCapture.tick, BodyScanCapture.find_interval. simpl.
  rewrite Pos.eqb_refl. simpl.
  assert (E1 : (n - 1 >? 0)%Z = true) by lia.
  assert (E2 : (n - 1 =? 0)%Z = false) by lia.
  rewrite E1, E2.
  unfold BodyScanCapture.setCountdown, BodyScanCapture.decrement. simpl.
  rewrite Pos.eqb_refl. reflexivity.
Qed.

(** The firing of the timer at which its count reaches zero. *)
Lemma tick_fire cam st im pv cd h str nx :
  BodyScanCapture.tick cam h
    (BodyScanCapture.mkState st im pv cd (Some h) str
       [BodyScanCapture.mkInterval h 1] nx)
  = if BodyScanCapture.videoRef cam && BodyScanCapture.context cam
    then (BodyScanCapture.mkState st im (Some (BodyScanCapture.dataUrl cam))
            None (Some h) str [] nx,
          [BodyScanCapture.drawImage (BodyScanCapture.dataUrl cam)])
    else (BodyScanCapture.mkState st im pv None (Some h) str [] nx, []).
Proof.
  unfold BodyScanCapture.tick, BodyScanCapture.find_interval. simpl.
  rewrite Pos.eqb_refl. simpl.
  destruct (BodyScanCapture.videoRef cam), (BodyScanCapture.context cam);
    simpl; unfold BodyScanCapture.setPreview, BodyScanCapture.clearInterval;
    simpl; rewrite Pos.eqb_refl; simpl; rewrite ?Pos.eqb_refl; reflexivity.
Qed.

(** A firing for a handle that no live timer has does nothing. *)
Lemma tick_stale cam h (s : BodyScanCapture.State) :
  (forall i, In i (BodyScanCapture.intervals s) -> BodyScanCapture.handle i <> h) ->
  BodyScanCapture.tick cam h s = (s, []).
Proof.
  intro H. unfold BodyScanCapture.tick, BodyScanCapture.find_interval.
  destruct (find (fun i => Pos.eqb (BodyScanCapture.handle i) h)
                 (BodyScanCapture.intervals s)) as [i|] eqn:E; [|reflexivity].
  apply find_some in E. destruct E as [Hin Heq].
  apply Pos.eqb_eq in Heq. exfalso. exact (H i Hin Heq).
Qed.

(** Symbolic execution of a press on capture followed by firings of the
    timer. *)
Ltac capture_sim :=
  cbn [BodyScanCapture.run BodyScanCapture.observe BodyScanCapture.step_event
       fst snd app];
  repeat (first [ rewrite capture_idle
                | rewrite tick_down by lia
                | rewrite tick_fire ];
          cbn [BodyScanCapture.run BodyScanCapture.observe
               BodyScanCapture.step_event fst snd app
               BodyScanCapture.countdown Z.sub Z.pos_sub Pos.pred_double
               Z.succ_double Z.pred_double Z.double Z.opp
               BodyScanCapture.handleCapture]).




Lemma init_idle : Countdown.idle BodyScanCapture.init.
Proof.
  split; reflexivity.
Qed.


(** [handleConfirm] on a pending still. *)
Lemma confirm_pending st im p cd ref str ivs nx :
  Js.truthy p = true ->
  BodyScanCapture.handleConfirm
    (BodyScanCapture.mkState st im (Some p) cd ref str ivs nx)
  = let scans := BodyScanCapture.with_slot st (Countdown.shot p) im in
    match st with
    | BodyScanStep.front =>
        (BodyScanCapture.mkState BodyScanStep.side scans None cd ref str ivs nx, [])
    | BodyScanStep.side =>
        (BodyScanCapture.mkState BodyScanStep.back scans None cd ref str ivs nx, [])
    | BodyScanStep.back =>
        (BodyScanCapture.mkState BodyScanStep.back scans None cd ref str ivs nx,
         [BodyScanCapture.onComplete scans; BodyScanCapture.onClose])
    end.
Proof.
  intro Hp. unfold BodyScanCapture.handleConfirm. simpl. rewrite Hp. simpl.
  destruct st; reflexivity.
Qed.

(** A firing of a timer changes neither the step nor the stored views
    and never calls [onComplete]. *)
Lemma tick_quiet cam h (s : BodyScanCapture.State) :
  BodyScanCapture.step (fst (BodyScanCapture.tick cam h s)) = BodyScanCapture.step s
  /\ BodyScanCapture.images (fst (BodyScanCapture.tick cam h s))
     = BodyScanCapture.images s
  /\ filter BodyScanCapture.is_onComplete (snd (BodyScanCapture.tick cam h s)) = [].
Proof.
  unfold BodyScanCapture.tick.
  destruct (BodyScanCapture.find_interval h s) as [i|]; [|repeat split].
  simpl.
  destruct (BodyScanCapture.count i - 1 =? 0)%Z; [|repeat split].
  destruct (BodyScanCapture.countdownIntervalRef s);
    destruct (BodyScanCapture.videoRef cam), (BodyScanCapture.context cam);
    repeat split.
Qed.

(** An event other than a confirm of a pending still changes neither
    the step nor the stored views and never calls [onComplete]. *)
Lemma step_event_quiet (e : BodyScanCapture.Event) (s : BodyScanCapture.State) :
  BodyScanCapture.confirmed [e] s = [] ->
  BodyScanCapture.step (fst (BodyScanCapture.step_event e s)) = BodyScanCapture.step s
  /\ BodyScanCapture.images (fst (BodyScanCapture.step_event e s))
     = BodyScanCapture.images s
  /\ filter BodyScanCapture.is_onComplete (snd (BodyScanCapture.step_event e s)) = [].
Proof.
  intro H. destruct e as [|cam h| | | |v|]; simpl in *.
  - unfold BodyScanCapture.handleCapture.
    destruct (BodyScanCapture.countdown s); repeat split.
  - apply tick_quiet.
  - repeat split.
  - unfold BodyScanCapture.handleConfirm.
    destruct (BodyScanCapture.preview s) as [p|]; [|repeat split].
    destruct (Js.truthy p); [discriminate H|repeat split].
  - unfold BodyScanCapture.cleanup.
    destruct (BodyScanCapture.countdownIntervalRef s),
             (BodyScanCapture.streamRef s); repeat split.
  - unfold BodyScanCapture.startCamera_granted. destruct v; repeat split.
  - repeat split.
Qed.

(** A confirm of the pending still [p]. *)
Lemma step_event_confirm (s : BodyScanCapture.State) (p : string) :
  BodyScanCapture.preview s = Some p ->
  Js.truthy p = true ->
  let im1 := BodyScanCapture.with_slot (BodyScanCapture.step s)
               (Countdown.shot p) (BodyScanCapture.images s) in
  BodyScanCapture.step (fst (BodyScanCapture.handleConfirm s))
  = Progress.advance (BodyScanCapture.step s)
  /\ BodyScanCapture.images (fst (BodyScanCapture.handleConfirm s)) = im1
  /\ filter BodyScanCapture.is_onComplete (snd (BodyScanCapture.handleConfirm s))
     = match BodyScanCapture.step s with
       | BodyScanStep.back => [BodyScanCapture.onComplete im1]
       | _ => []
       end.
Proof.
  intros Hp Ht. destruct s as [st im pv cd ref str ivs nx]. simpl in Hp. subst pv.
  rewrite confirm_pending by exact Ht. destruct st; repeat split.
Qed.

Lemma confirmed_cons (e : BodyScanCapture.Event) (es : list BodyScanCapture.Event)
  (s : BodyScanCapture.State) :
  BodyScanCapture.confirmed (e :: es) s
  = BodyScanCapture.confirmed [e] s
    ++ BodyScanCapture.confirmed es (fst (BodyScanCapture.step_event e s)).
Proof.
  simpl. destruct e; try reflexivity.
  destruct (BodyScanCapture.preview s) as [p|]; [|reflexivity].
  destruct (Js.truthy p); reflexivity.
Qed.

Lemma confirmed_single (e : BodyScanCapture.Event) (s : BodyScanCapture.State) :
  BodyScanCapture.confirmed [e] s = []
  \/ exists p,
       e = BodyScanCapture.Confirm /\ BodyScanCapture.preview s = Some p
       /\ Js.truthy p = true
       /\ BodyScanCapture.confirmed [e] s = [(BodyScanCapture.step s, p)].
Proof.
  destruct e; simpl; try (left; reflexivity).
  destruct (BodyScanCapture.preview s) as [p|]; [|left; reflexivity].
  destruct (Js.truthy p) eqn:E; [|left; reflexivity].
  right. exists p. repeat split. exact E.
Qed.

(** The stored views and the calls of [onComplete] of a run are those
    that its confirmed stills give, whatever else happened in it. *)
Lemma run_replay (es : list BodyScanCapture.Event) :
  forall s : BodyScanCapture.State,
    BodyScanCapture.images (fst (BodyScanCapture.run es s))
    = fst (Progress.replay (BodyScanCapture.confirmed es s)
                           (BodyScanCapture.images s))
    /\ filter BodyScanCapture.is_onComplete (snd (BodyScanCapture.run es s))
       = snd (Progress.replay (BodyScanCapture.confirmed es s)
                              (BodyScanCapture.images s)).
Proof.
  induction es as [|e es IH]; intro s; [split; reflexivity|].
  rewrite confirmed_cons. cbn [BodyScanCapture.run].
  specialize (IH (fst (BodyScanCapture.step_event e s))).
  destruct (BodyScanCapture.step_event e s) as [s1 out1] eqn:E1.
  destruct (BodyScanCapture.run es s1) as [s2 out2] eqn:E2.
  cbn [fst snd] in *. rewrite filter_app.
  destruct IH as [IH1 IH2]. rewrite E2 in IH1, IH2. cbn [fst snd] in IH1, IH2.
  destruct (confirmed_single e s) as [Q|(p & -> & Hp & Ht & Q)]; rewrite Q.
  - destruct (step_event_quiet e s Q) as (_ & Q2 & Q3).
    rewrite E1 in Q2, Q3. cbn [fst snd] in Q2, Q3.
    rewrite Q3, <- Q2. cbn [app]. split; assumption.
  - destruct (step_event_confirm s p Hp Ht) as (_ & C2 & C3).
    cbn [BodyScanCapture.step_event] in E1. rewrite E1 in C2, C3.
    cbn [fst snd] in C2, C3. cbn [app Progress.replay].
    rewrite <- C2.
    destruct (Progress.replay (BodyScanCapture.confirmed es s1)
                (BodyScanCapture.images s1)) as [im2 out] eqn:R.
    cbn [fst snd] in *. split; [exact IH1|].
    rewrite C3, IH2.
    destruct (BodyScanCapture.step s); rewrite <- ?C2; reflexivity.
Qed.

(** The steps at which the confirmed stills of a run were confirmed
    follow one another as front, side, back, back, ... from the step at
    which the run starts. *)
Lemma confirmed_steps (es : list BodyScanCapture.Event) :
  forall s : BodyScanCapture.State,
    map fst (BodyScanCapture.confirmed es s)
    = Progress.steps_from (BodyScanCapture.step s)
        (length (BodyScanCapture.confirmed es s)).
Proof.
  induction es as [|e es IH]; intro s; [reflexivity|].
  rewrite confirmed_cons.
  specialize (IH (fst (BodyScanCapture.step_event e s))).
  destruct (confirmed_single e s) as [Q|(p & -> & Hp & Ht & Q)]; rewrite Q.
  - destruct (step_event_quiet e s Q) as (Q1 & _). rewrite Q1 in IH.
    cbn [app]. exact IH.
  - destruct (step_event_confirm s p Hp Ht) as (C1 & _).
    cbn [BodyScanCapture.step_event] in IH. rewrite C1 in IH.
    cbn [app map fst length Progress.steps_from BodyScanCapture.step_event].
    rewrite IH. reflexivity.
Qed.

(** C6. Take any session: any sequence of presses on capture, firings
    of the timer, retakes, confirms and runs of the effect, from any
    state.  If its confirms of a pending still are three, made at the
    steps front, side and back in this order with the stills [p1], [p2]
    and [p3], then at the end the front, side and back slots hold the
    images made from [p1], [p2] and [p3], the scan is complete, and
    [onComplete] has been called exactly once, with that scan.  In a
    session that starts from the mounted component, three such confirms
    are always at the steps front, side, back in this order. *)
Theorem C6_full_scan :
  (forall (es : list BodyScanCapture.Event) (s : BodyScanCapture.State)
          (p1 p2 p3 : string),
      BodyScanCapture.confirmed es s
      = [(BodyScanStep.front, p1); (BodyScanStep.side, p2); (BodyScanStep.back, p3)] ->
      let scans := BodyScan.mk (Some (Countdown.shot p1)) (Some (Countdown.shot p2))
                               (Some (Countdown.shot p3)) in
      BodyScanCapture.images (fst (BodyScanCapture.run es s)) = scans
      /\ Spec.complete (BodyScanCapture.images (fst (BodyScanCapture.run es s))) = true
      /\ filter BodyScanCapture.is_onComplete (snd (BodyScanCapture.run es s))
         = [BodyScanCapture.onComplete scans]
      /\ length (filter BodyScanCapture.is_onComplete
                   (snd (BodyScanCapture.run es s))) = 1)
  /\ (forall (es : list BodyScanCapture.Event) c1 c2 c3,
      BodyScanCapture.confirmed es BodyScanCapture.init = [c1; c2; c3] ->
      map fst [c1; c2; c3]
      = [BodyScanStep.front; BodyScanStep.side; BodyScanStep.back]).
Proof.
  split.
  - intros es s p1 p2 p3 H scans.
    destruct (run_replay es s) as [R1 R2]. rewrite H in R1, R2.
    cbn [Progress.replay BodyScanCapture.with_slot fst snd
         BodyScan.front BodyScan.side BodyScan.back] in R1, R2.
    rewrite R1, R2. repeat split.
  - intros es c1 c2 c3 H.
    pose proof (confirmed_steps es BodyScanCapture.init) as S.
    rewrite H in S. exact S.
Qed.

Lemma C6_full_scan_witness :
  BodyScanCapture.images
    (fst (BodyScanCapture.run
            (Countdown.take 1 "data:image/jpeg;base64,AAA"
             ++ [BodyScanCapture.Retake]
             ++ Countdown.take 2 "data:image/jpeg;base64,AAA"
             ++ [BodyScanCapture.Confirm; BodyScanCapture.Confirm;
                 BodyScanCapture.Cleanup; BodyScanCapture.Granted true]
             ++ Countdown.take 3 "data:image/jpeg;base64,BBB"
             ++ [BodyScanCapture.Confirm]
             ++ Countdown.take 4 "data:image/jpeg;base64,CCC"
             ++ [BodyScanCapture.Confirm])
            BodyScanCapture.init))
  = BodyScan.mk (Some (ImageFile.mk (Some "AAA") "image/jpeg"))
                (Some (ImageFile.mk (Some "BBB") "image/jpeg"))
                (Some (ImageFile.mk (Some "CCC") "image/jpeg")).
Proof.
  apply (proj1 C6_full_scan
           (Countdown.take 1 "data:image/jpeg;base64,AAA"
            ++ [BodyScanCapture.Retake]
            ++ Countdown.take 2 "data:image/jpeg;base64,AAA"
            ++ [BodyScanCapture.Confirm; BodyScanCapture.Confirm;
                BodyScanCapture.Cleanup; BodyScanCapture.Granted true]
            ++ Countdown.take 3 "data:image/jpeg;base64,BBB"
            ++ [BodyScanCapture.Confirm]
            ++ Countdown.take 4 "data:image/jpeg;base64,CCC"
            ++ [BodyScanCapture.Confirm])
           BodyScanCapture.init
           "data:image/jpeg;base64,AAA" "data:image/jpeg;base64,BBB"
           "data:image/jpeg;base64,CCC").
  vm_compute. reflexivity.
Defined.

(** ** Saving the result as an outfit *)

Lemma uploader_frame (files : list ImageUploader.File) (s : Studio.State) :
  let s1 := fold_left (fun s e => StudioUI.from_uploader e s)
                      (ImageUploader.onFileChange "Clothing Item" files) s in
  Studio.profile s1 = Studio.profile s
  /\ Studio.localStorage s1 = Studio.localStorage s
  /\ Studio.isSavingOutfit s1 = Studio.isSavingOutfit s
  /\ Studio.isOutfitSaved s1 = Studio.isOutfitSaved s
  /\ Studio.page s1 = Studio.page s.
Proof.
  unfold ImageUploader.onFileChange.
  destruct files as [|file files]; simpl; [repeat split|].
  destruct (negb (Js.startsWith (ImageUploader.file_type file) "image/"));
    simpl; repeat split.
Qed.

(** While the result on show is marked as saved and the form is closed,
    no control other than "Create New" and those of the profile page
    changes the profile, the stored record or the two flags. *)
Lemma act_keeps_saved (now : N) (a : StudioUI.Action) (w : StudioUI.World) :
  StudioUI.resets_or_edits a = false ->
  Studio.isOutfitSaved (StudioUI.app w) = true ->
  Studio.isSavingOutfit (StudioUI.app w) = false ->
  let w' := StudioUI.act now a w in
  Studio.isOutfitSaved (StudioUI.app w') = true
  /\ Studio.isSavingOutfit (StudioUI.app w') = false
  /\ Studio.profile (StudioUI.app w') = Studio.profile (StudioUI.app w)
  /\ Studio.localStorage (StudioUI.app w') = Studio.localStorage (StudioUI.app w).
Proof.
  intros Ha Hsaved Hsaving. unfold StudioUI.act.
  destruct (StudioUI.enabled w a) eqn:En; [|repeat split; assumption].
  destruct w as [s pend]. simpl in Hsaved, Hsaving.
  destruct a; simpl in Ha; try discriminate; simpl in En;
    unfold StudioUI.handler, StudioUI.with_app;
    cbn [StudioUI.app StudioUI.pending];
    try (simpl; repeat split; assumption).
  - (* Creator_files *)
    destruct (uploader_frame files s) as (U1 & U2 & U3 & U4 & _).
    repeat split; congruence.
  - (* Creator_generate *)
    pose proof (studio_generate_begin_frame now s) as B.
    destruct (Studio.handleGenerate_begin now s) as [s1 [req|]]; simpl in *;
      destruct B as (B1 & B2 & _ & _ & B5 & _ & B7); repeat split; congruence.
  - (* Result_addToLookbook *)
    rewrite Hsaved in En. rewrite andb_false_r in En. discriminate En.
  - (* Result_confirmSave *)
    rewrite Hsaving in En. rewrite andb_false_r in En. discriminate En.
  - (* Service_settles *)
    pose proof (studio_generate_end_frame now o s) as E. simpl in E.
    destruct E as (E1 & E2 & _ & _ & E5 & _ & E7). repeat split; congruence.
Qed.

Lemma acts_keep_saved (l : list (N * StudioUI.Action)) :
  forall w : StudioUI.World,
    Forall (fun x => StudioUI.resets_or_edits (snd x) = false) l ->
    Studio.isOutfitSaved (StudioUI.app w) = true ->
    Studio.isSavingOutfit (StudioUI.app w) = false ->
    Studio.isOutfitSaved (StudioUI.app (StudioUI.acts l w)) = true
    /\ Studio.profile (StudioUI.app (StudioUI.acts l w))
       = Studio.profile (StudioUI.app w)
    /\ Studio.localStorage (StudioUI.app (StudioUI.acts l w))
       = Studio.localStorage (StudioUI.app w).
Proof.
  induction l as [|[now a] l IH]; intros w Hl Hsaved Hsaving; simpl.
  - repeat split. exact Hsaved.
  - inversion Hl as [|x l' Hx Hl']; subst. simpl in Hx.
    destruct (act_keeps_saved now a w Hx Hsaved Hsaving) as (A1 & A2 & A3 & A4).
    destruct (IH (StudioUI.act now a w) Hl' A1 A2) as (I1 & I2 & I3).
    repeat split; congruence.
Qed.

Lemma acts_app (l1 l2 : list (N * StudioUI.Action)) :
  forall w, StudioUI.acts (l1 ++ l2) w = StudioUI.acts l2 (StudioUI.acts l1 w).
Proof.
  induction l1 as [|[n a] l1 IH]; intro w; simpl; [reflexivity|apply IH].
Qed.

Lemma save_outfit_once (w : StudioUI.World) (p : Studio.Profile)
  (img outfitName : string) (t : N) :
  Studio.page (StudioUI.app w) = Page.result ->
  Studio.resultImage (StudioUI.app w) = Some img ->
  Js.truthy img = true ->
  Studio.profile (StudioUI.app w) = Some p ->
  Studio.isOutfitSaved (StudioUI.app w) = false ->
  Studio.isSavingOutfit (StudioUI.app w) = false ->
  Js.truthy (Js.trim outfitName) = true ->
  let w1 := StudioUI.acts (StudioUI.save_outfit true t outfitName) w in
  let up := Studio.updatedProfile p (Studio.newOutfit t outfitName img) in
  Studio.profile (StudioUI.app w1) = Some up
  /\ Studio.localStorage (StudioUI.app w1) = Some (Studio.stringify up)
  /\ Studio.isOutfitSaved (StudioUI.app w1) = true
  /\ Studio.isSavingOutfit (StudioUI.app w1) = false
  /\ Studio.page (StudioUI.app w1) = Page.result
  /\ Studio.resultImage (StudioUI.app w1) = Some img.
Proof.
  destruct w as [[pg key pr cl po ri er sv nm sd ls] pend]. simpl.
  intros -> -> Himg -> -> -> Hname.
  unfold StudioUI.act. simpl. rewrite Hname. simpl.
  unfold Studio.handleSaveOutfit. simpl. rewrite Hname, Himg. simpl.
  repeat split.
Qed.

(** What the save action leaves when the write to the storage throws:
    the outfit is in the profile in memory, nothing is stored, the
    result is not marked as saved and the form is still open. *)
Lemma save_outfit_thrown (w : StudioUI.World) (p : Studio.Profile)
  (img outfitName : string) (t : N) :
  Studio.page (StudioUI.app w) = Page.result ->
  Studio.resultImage (StudioUI.app w) = Some img ->
  Js.truthy img = true ->
  Studio.profile (StudioUI.app w) = Some p ->
  Studio.isOutfitSaved (StudioUI.app w) = false ->
  Js.truthy (Js.trim outfitName) = true ->
  let w1 := StudioUI.acts (StudioUI.save_outfit false t outfitName) w in
  Studio.profile (StudioUI.app w1)
  = Some (Studio.updatedProfile p (Studio.newOutfit t outfitName img))
  /\ Studio.localStorage (StudioUI.app w1) = Studio.localStorage (StudioUI.app w)
  /\ Studio.isOutfitSaved (StudioUI.app w1) = false
  /\ Studio.isSavingOutfit (StudioUI.app w1) = true
  /\ Studio.newOutfitName (StudioUI.app w1) = outfitName
  /\ Studio.page (StudioUI.app w1) = Page.result
  /\ Studio.resultImage (StudioUI.app w1) = Some img.
Proof.
  destruct w as [[pg key pr cl po ri er sv nm sd ls] pend]. simpl.
  intros -> -> Himg -> -> Hname.
  unfold StudioUI.act. simpl.
  destruct sv; simpl; rewrite Hname; simpl;
    unfold Studio.handleSaveOutfit; simpl; rewrite Hname, Himg; simpl;
    repeat split.
Qed.

(** C9. The code breaks the claim when the write to the storage throws
    (storage full).  On the result page of [src/index.tsx], with a
    result not yet saved, performing the save action under a throwing
    [localStorage.setItem] puts the outfit in the profile in memory but
    leaves the result unmarked and the save form open with "Confirm
    Save" enabled; performing the save action again adds an outfit with
    the same image a second time.  Nothing is written to the storage. *)
Theorem C9_save_twice_duplicates_when_write_throws :
  forall w p img outfitName t t',
    Studio.page (StudioUI.app w) = Page.result ->
    Studio.resultImage (StudioUI.app w) = Some img ->
    Js.truthy img = true ->
    Studio.profile (StudioUI.app w) = Some p ->
    Studio.isOutfitSaved (StudioUI.app w) = false ->
    Studio.isSavingOutfit (StudioUI.app w) = false ->
    Js.truthy (Js.trim outfitName) = true ->
    let w1 := StudioUI.acts (StudioUI.save_outfit false t outfitName) w in
    let w2 := StudioUI.acts (StudioUI.save_outfit false t' outfitName) w1 in
    Studio.isOutfitSaved (StudioUI.app w1) = false
    /\ StudioUI.enabled w1 (StudioUI.Result_confirmSave false) = true
    /\ option_map Studio.savedOutfits (Studio.profile (StudioUI.app w2))
       = Some (Studio.savedOutfits p
               ++ [Studio.newOutfit t outfitName img;
                   Studio.newOutfit t' outfitName img])
    /\ Studio.localStorage (StudioUI.app w2) = Studio.localStorage (StudioUI.app w).
Proof.
  intros w p img outfitName t t' Hpg Hri Himg Hp Hsd Hsv Hname w1 w2.
  destruct (save_outfit_thrown w p img outfitName t Hpg Hri Himg Hp Hsd Hname)
    as (S1 & S2 & S3 & S4 & N1 & S5 & S6).
  fold w1 in S1, S2, S3, S4, N1, S5, S6.
  destruct (save_outfit_thrown w1 _ img outfitName t' S5 S6 Himg S1 S3 Hname)
    as (T1 & T2 & _).
  fold w2 in T1, T2.
  split; [exact S3|]. split.
  - unfold StudioUI.enabled. rewrite S5, S4, N1, Hname. reflexivity.
  - split.
    + rewrite T1. simpl. rewrite <- app_assoc. reflexivity.
    + rewrite T2. exact S2.
Qed.

Lemma C9_save_twice_duplicates_when_write_throws_witness :
  option_map (fun p => map SavedOutfit.id (Studio.savedOutfits p))
    (Studio.profile
       (StudioUI.app
          (StudioUI.acts (StudioUI.save_outfit false 8 "Summer Casual")
             (StudioUI.acts (StudioUI.save_outfit false 7 "Summer Casual")
                            SampleWorld.fresh_result))))
  = Some ["outfit_1600000000000"; "outfit_7"; "outfit_8"].
Proof.
  pose proof (C9_save_twice_duplicates_when_write_throws
                SampleWorld.fresh_result Sample.profile
                "data:image/png;base64,PIXELS" "Summer Casual" 7%N 8%N
                eq_refl eq_refl eq_refl eq_refl eq_refl eq_refl eq_refl) as K.
  cbv zeta in K. destruct K as (_ & _ & K & _).
  destruct (Studio.profile
              (StudioUI.app
                 (StudioUI.acts (StudioUI.save_outfit false 8 "Summer Casual")
                    (StudioUI.acts (StudioUI.save_outfit false 7 "Summer Casual")
                                   SampleWorld.fresh_result)))) as [q|].
  - simpl in K. injection K as K. simpl. rewrite K. reflexivity.
  - discriminate K.
Defined.

(** X29. On the result page of [src/index.tsx], as long as the write to
    the storage succeeds: once the result is marked as saved, the
    button that opens the save form is disabled; the save action adds
    the outfit, stores the profile, marks the result as saved and closes
    the form; from then on no sequence of actions other than "Create
    New" (which discards the result) and the profile page's own saves
    changes the profile or the stored record, whether later writes
    would succeed or not; so performing the save action twice adds the
    outfit once. *)
Theorem save_outfit_idempotent_when_written :
  (forall w,
      Studio.isOutfitSaved (StudioUI.app w) = true ->
      StudioUI.enabled w StudioUI.Result_addToLookbook = false)
  /\ (forall w p img outfitName t,
      Studio.page (StudioUI.app w) = Page.result ->
      Studio.resultImage (StudioUI.app w) = Some img ->
      Js.truthy img = true ->
      Studio.profile (StudioUI.app w) = Some p ->
      Studio.isOutfitSaved (StudioUI.app w) = false ->
      Studio.isSavingOutfit (StudioUI.app w) = false ->
      Js.truthy (Js.trim outfitName) = true ->
      let w1 := StudioUI.acts (StudioUI.save_outfit true t outfitName) w in
      option_map Studio.savedOutfits (Studio.profile (StudioUI.app w1))
      = Some (Studio.savedOutfits p ++ [Studio.newOutfit t outfitName img])
      /\ Studio.localStorage (StudioUI.app w1)
         = option_map Studio.stringify (Studio.profile (StudioUI.app w1))
      /\ Studio.isOutfitSaved (StudioUI.app w1) = true
      /\ Studio.isSavingOutfit (StudioUI.app w1) = false
      /\ forall l,
           Forall (fun x => StudioUI.resets_or_edits (snd x) = false) l ->
           Studio.profile (StudioUI.app (StudioUI.acts l w1))
           = Studio.profile (StudioUI.app w1)
           /\ Studio.localStorage (StudioUI.app (StudioUI.acts l w1))
              = Studio.localStorage (StudioUI.app w1))
  /\ (forall w p img outfitName writable t t',
      Studio.page (StudioUI.app w) = Page.result ->
      Studio.resultImage (StudioUI.app w) = Some img ->
      Js.truthy img = true ->
      Studio.profile (StudioUI.app w) = Some p ->
      Studio.isOutfitSaved (StudioUI.app w) = false ->
      Studio.isSavingOutfit (StudioUI.app w) = false ->
      Js.truthy (Js.trim outfitName) = true ->
      option_map Studio.savedOutfits
        (Studio.profile
           (StudioUI.app
              (StudioUI.acts (StudioUI.save_outfit true t outfitName
                              ++ StudioUI.save_outfit writable t' outfitName) w)))
      = Some (Studio.savedOutfits p ++ [Studio.newOutfit t outfitName img])).
Proof.
  split; [|split].
  - intros w H. simpl. rewrite H. apply andb_false_r.
  - intros w p img outfitName t Hpg Hri Himg Hp Hsd Hsv Hname w1.
    destruct (save_outfit_once w p img outfitName t Hpg Hri Himg Hp Hsd Hsv Hname)
      as (S1 & S2 & S3 & S4 & S5 & S6).
    fold w1 in S1, S2, S3, S4, S5, S6.
    split; [rewrite S1; reflexivity|].
    split; [rewrite S1, S2; reflexivity|].
    split; [exact S3|]. split; [exact S4|].
    intros l Hl.
    destruct (acts_keep_saved l w1 Hl S3 S4) as (_ & K1 & K2).
    split; assumption.
  - intros w p img outfitName writable t t' Hpg Hri Himg Hp Hsd Hsv Hname.
    destruct (save_outfit_once w p img outfitName t Hpg Hri Himg Hp Hsd Hsv Hname)
      as (S1 & S2 & S3 & S4 & S5 & S6).
    rewrite acts_app.
    destruct (acts_keep_saved (StudioUI.save_outfit writable t' outfitName)
                (StudioUI.acts (StudioUI.save_outfit true t outfitName) w))
      as (_ & K1 & _).
    + repeat constructor.
    + exact S3.
    + exact S4.
    + rewrite K1, S1. reflexivity.
Qed.

Lemma save_outfit_idempotent_when_written_witness :
  option_map (fun p => map SavedOutfit.id (Studio.savedOutfits p))
    (Studio.profile
       (StudioUI.app
          (StudioUI.acts (StudioUI.save_outfit true 7 "Summer Casual"
                          ++ StudioUI.save_outfit true 8 "Summer Casual")
                         SampleWorld.fresh_result)))
  = Some ["outfit_1600000000000"; "outfit_7"].
Proof.
  destruct save_outfit_idempotent_when_written as (_ & _ & H).
  pose proof (H SampleWorld.fresh_result Sample.profile
                "data:image/png;base64,PIXELS" "Summer Casual" true 7%N 8%N
                eq_refl eq_refl eq_refl eq_refl eq_refl eq_refl eq_refl) as K.
  destruct (Studio.profile
              (StudioUI.app
                 (StudioUI.acts (StudioUI.save_outfit true 7 "Summer Casual"
                                 ++ StudioUI.save_outfit true 8 "Summer Casual")
                                SampleWorld.fresh_result))) as [q|].
  - simpl in K. injection K as K. simpl. rewrite K. reflexivity.
  - discriminate K.
Defined.

(* ===================================================================== *)
(** * Further properties of the code *)
(* ===================================================================== *)

(** ** Persistence in [src/index.tsx] *)

Lemma as_profile_stringify (p : Studio.Profile) :
  Studio.as_profile (Studio.migrate (Studio.stringify p)) = Some p.
Proof.
  destruct p; reflexivity.
Qed.

(** X1. Whatever record is found in the storage, the loading effect
    ends on the home page with a profile in memory whose body scan and
    outfit list are those of the migrated record; with an empty storage
    it ends on the profile page without a profile. *)
Theorem load_yields_profile :
  (forall now s sp,
      Studio.localStorage s = Some sp ->
      exists p,
        Studio.profile (Studio.load now s) = Some p
        /\ Some (Studio.bodyScans p) = Studio.Stored.bodyScans (Studio.migrate sp)
        /\ Some (Studio.savedOutfits p)
           = Studio.Stored.savedOutfits (Studio.migrate sp)
        /\ Studio.page (Studio.load now s) = Page.home)
  /\ (forall now s,
      Studio.localStorage s = None ->
      Studio.page (Studio.load now s) = Page.profile
      /\ Studio.profile (Studio.load now s) = Studio.profile s).
Proof.
  split.
  - intros now s sp H. unfold Studio.load. rewrite H.
    pose proof (migrate_is_current sp) as C.
    unfold Studio.is_current in C. unfold Studio.as_profile.
    destruct (Studio.Stored.photos (Studio.migrate sp)); [discriminate|].
    destruct (Studio.Stored.bodyScans (Studio.migrate sp)) as [b|]; [|discriminate].
    destruct (Studio.Stored.savedOutfits (Studio.migrate sp)) as [l|]; [|discriminate].
    eexists. simpl. repeat split.
  - intros now s H. unfold Studio.load. rewrite H. split; reflexivity.
Qed.

Lemma load_yields_profile_witness :
  exists p,
    Studio.profile (Studio.load 9 (Studio.init 9 (Some Sample.legacy))) = Some p
    /\ Studio.savedOutfits p = [].
Proof.
  destruct (proj1 load_yields_profile 9%N (Studio.init 9 (Some Sample.legacy))
              Sample.legacy eq_refl) as (p & Hp & _ & Ho & _).
  exists p. split; [exact Hp|]. simpl in Ho. congruence.
Defined.

(** X2. A profile written by [handleSaveProfile] is the profile that
    the application has in memory after its next start, which opens on
    the home page. *)
Theorem save_then_load :
  forall (p : Studio.Profile) (s : Studio.State) (now : N),
    let stored := Studio.localStorage (Studio.handleSaveProfile true p s) in
    Studio.profile (Studio.load now (Studio.init now stored)) = Some p
    /\ Studio.page (Studio.load now (Studio.init now stored)) = Page.home.
Proof.
  intros p s now. simpl. unfold Studio.load. simpl.
  rewrite as_profile_stringify. split; reflexivity.
Qed.

(** X3. Migration changes nothing but [photos], [bodyScans] and
    [savedOutfits]: the name, the measurements and the body type are
    kept, an outfit list that is present is kept, and, when there is no
    [photos] list, a body scan that is present is kept. *)
Theorem migrate_keeps_fields :
  forall sp,
    Studio.Stored.name (Studio.migrate sp) = Studio.Stored.name sp
    /\ Studio.Stored.height (Studio.migrate sp) = Studio.Stored.height sp
    /\ Studio.Stored.weight (Studio.migrate sp) = Studio.Stored.weight sp
    /\ Studio.Stored.bodyType (Studio.migrate sp) = Studio.Stored.bodyType sp
    /\ Studio.Stored.chest (Studio.migrate sp) = Studio.Stored.chest sp
    /\ Studio.Stored.waist (Studio.migrate sp) = Studio.Stored.waist sp
    /\ Studio.Stored.hips (Studio.migrate sp) = Studio.Stored.hips sp
    /\ (forall l, Studio.Stored.savedOutfits sp = Some l ->
                  Studio.Stored.savedOutfits (Studio.migrate sp) = Some l)
    /\ (forall b, Studio.Stored.photos sp = None ->
                  Studio.Stored.bodyScans sp = Some b ->
                  Studio.Stored.bodyScans (Studio.migrate sp) = Some b).
Proof.
  intro sp. destruct sp as [n ph b h w ty c wa hp so].
  destruct ph, b, so; simpl; repeat split; intros; congruence.
Qed.

Lemma migrate_keeps_fields_witness :
  Studio.Stored.savedOutfits
    (Studio.migrate (Studio.stringify Sample.profile))
  = Some (Studio.savedOutfits Sample.profile).
Proof.
  destruct (migrate_keeps_fields (Studio.stringify Sample.profile))
    as (_ & _ & _ & _ & _ & _ & _ & H & _).
  apply H. reflexivity.
Defined.

(** X4. After the migration of a record with a [photos] list the body
    scan is complete exactly when the list had at least three photos;
    photos after the third are dropped. *)
Theorem migrate_photos_complete :
  forall sp ph,
    Studio.Stored.photos sp = Some ph ->
    (exists b, Studio.Stored.bodyScans (Studio.migrate sp) = Some b
               /\ (Spec.complete b = true <-> 3 <= length ph))
    /\ (forall a b c rest,
          ph = a :: b :: c :: rest ->
          Studio.Stored.bodyScans (Studio.migrate sp)
          = Some (BodyScan.mk (Some a) (Some b) (Some c))).
Proof.
  intros sp ph H. destruct sp as [n ph' b h w ty c wa hp so]. simpl in H. subst ph'.
  split.
  - exists (BodyScan.mk (nth_error ph 0) (nth_error ph 1) (nth_error ph 2)).
    split; [destruct so; reflexivity|].
    destruct ph as [|x1 [|x2 [|x3 rest]]]; simpl; split; intro K;
      try discriminate; try lia; reflexivity.
  - intros a b' c' rest ->. destruct so; reflexivity.
Qed.

Lemma migrate_photos_complete_witness :
  exists b,
    Studio.Stored.bodyScans (Studio.migrate Sample.legacy) = Some b
    /\ Spec.complete b = false.
Proof.
  destruct (proj1 (migrate_photos_complete Sample.legacy [Sample.image "AAAA"] eq_refl))
    as (b & Hb & Hc).
  exists b. split; [exact Hb|].
  destruct (Spec.complete b); [|reflexivity].
  exfalso. assert (K : 3 <= 1) by (apply Hc; reflexivity). lia.
Defined.

(** ** Invariants of the application of [src/index.tsx] *)

Lemma studio_begin_page (now : N) (s : Studio.State) :
  match Studio.handleGenerate_begin now s with
  | (s1, Some _) => Studio.page s1 = Page.loading
  | (s1, None) => Studio.page s1 = Page.profile \/ Studio.page s1 = Studio.page s
  end.
Proof.
  unfold Studio.handleGenerate_begin.
  destruct (Studio.clothingImage s) as [c|];
  destruct (Studio.profile s) as [p|]; simpl; try (right; reflexivity).
  destruct (BodyScan.front (Studio.bodyScans p));
  destruct (BodyScan.side (Studio.bodyScans p));
  destruct (BodyScan.back (Studio.bodyScans p)); simpl;
    try (left; reflexivity); reflexivity.
Qed.

Lemma studio_end_page (now : N) (o : GenAI.Outcome) (s : Studio.State) :
  Studio.page (Studio.handleGenerate_end now o s) = Page.result
  \/ Studio.page (Studio.handleGenerate_end now o s) = Page.creator.
Proof.
  unfold Studio.handleGenerate_end.
  destruct o as [r|m]; [|right; reflexivity].
  destruct (Studio.find_imagePart r) as [[[blob|] t]|];
    [left|right|right]; reflexivity.
Qed.

Lemma profilePage_emits_frame (writable : bool) (now : N)
  (l : list Studio.ProfilePage.Emit) (s : Studio.State) :
  let s1 := StudioUI.from_profilePage writable now l s in
  Studio.isSavingOutfit s1 = Studio.isSavingOutfit s
  /\ Studio.isOutfitSaved s1 = Studio.isOutfitSaved s.
Proof.
  revert s. induction l as [|e l IH]; intro s; cbn [StudioUI.from_profilePage];
    [split; reflexivity|].
  destruct e as [p|pg].
  - destruct writable; [|split; reflexivity].
    destruct (IH (Studio.handleSaveProfile true p s)) as (I1 & I2).
    rewrite I1, I2. split; reflexivity.
  - destruct (IH (Studio.changePage now pg s)) as (I1 & I2).
    rewrite I1, I2. split; reflexivity.
Qed.

Lemma profilePage_emits_agree (now : N) (l : list Studio.ProfilePage.Emit)
  (s : Studio.State) :
  Reach.agrees s ->
  Reach.agrees (StudioUI.from_profilePage true now l s).
Proof.
  revert s. induction l as [|e l IH]; intros s H; simpl; [exact H|].
  destruct e as [p|pg]; apply IH; unfold Reach.agrees in *; simpl.
  - symmetry. apply as_profile_stringify.
  - exact H.
Qed.

Lemma handleSaveOutfit_agree (now : N) (s : Studio.State) :
  Reach.agrees s -> Reach.agrees (Studio.handleSaveOutfit true now s).
Proof.
  intro H. unfold Studio.handleSaveOutfit.
  destruct (Studio.resultImage s) as [img|]; [|exact H].
  destruct (Studio.profile s) as [p|] eqn:Hp; [|exact H].
  destruct (negb (Js.truthy (Js.trim (Studio.newOutfitName s)))
            || negb (Js.truthy img)); [exact H|].
  unfold Reach.agrees. simpl. symmetry. apply as_profile_stringify.
Qed.

(** A write that throws stores nothing. *)
Lemma profilePage_thrown_storage (now : N) (l : list Studio.ProfilePage.Emit)
  (s : Studio.State) :
  Studio.localStorage (StudioUI.from_profilePage false now l s)
  = Studio.localStorage s.
Proof.
  revert s. induction l as [|e l IH]; intro s; simpl; [reflexivity|].
  destruct e as [p|pg]; [reflexivity|].
  rewrite IH. reflexivity.
Qed.

(** X5. As long as no write to the storage has thrown, in every state
    that the controls of [src/index.tsx] lead to from the start the
    profile in memory is the one that the stored record reads as.  A
    write that throws stores nothing; as the handlers set the profile in
    memory before they write, a "Confirm Save" whose write throws leaves
    in memory a profile that differs from what the storage holds. *)
Theorem memory_agrees_with_storage :
  (forall w : StudioUI.World,
      Reach.studio_written w -> Reach.agrees (StudioUI.app w))
  /\ (forall now a w,
        StudioUI.write_throws a = true ->
        Studio.localStorage (StudioUI.app (StudioUI.act now a w))
        = Studio.localStorage (StudioUI.app w))
  /\ (forall now w p img,
        Reach.agrees (StudioUI.app w) ->
        StudioUI.enabled w (StudioUI.Result_confirmSave false) = true ->
        Studio.profile (StudioUI.app w) = Some p ->
        Studio.resultImage (StudioUI.app w) = Some img ->
        Js.truthy img = true ->
        ~ Reach.agrees
            (StudioUI.app (StudioUI.act now (StudioUI.Result_confirmSave false) w))).
Proof.
  split; [|split].
  - intros w R. induction R as [now ls|now a w R IH W].
    + unfold Reach.agrees, StudioUI.start, Studio.load. simpl.
      destruct ls as [sp|]; reflexivity.
    + unfold StudioUI.act. destruct (StudioUI.enabled w a); [|exact IH].
      destruct w as [s pend]. simpl in IH.
      destruct a as [| | | |files|pose| | | |v| |wr|wr form|wr idToDelete form|o];
        try (destruct wr; [|discriminate W]);
        unfold StudioUI.handler, StudioUI.with_app;
        cbn [StudioUI.app StudioUI.pending]; try exact IH.
      * (* Creator_files *)
        destruct (uploader_frame files s) as (U1 & U2 & _).
        unfold Reach.agrees in *. congruence.
      * (* Creator_generate *)
        pose proof (studio_generate_begin_frame now s) as B.
        destruct (Studio.handleGenerate_begin now s) as [s1 [req|]];
          simpl in *; destruct B as (B1 & B2 & _);
          unfold Reach.agrees in *; simpl; congruence.
      * (* Result_confirmSave *)
        apply handleSaveOutfit_agree. exact IH.
      * (* Profile_save *)
        apply profilePage_emits_agree. exact IH.
      * (* Profile_deleteOutfit *)
        apply profilePage_emits_agree. exact IH.
      * (* Service_settles *)
        pose proof (studio_generate_end_frame now o s) as E. simpl in E.
        destruct E as (E1 & E2 & _). unfold Reach.agrees in *. simpl. congruence.
  - intros now a w W. unfold StudioUI.act.
    destruct (StudioUI.enabled w a); [|reflexivity].
    destruct a as [| | | |files|pose| | | |v| |wr|wr form|wr idToDelete form|o];
      try discriminate W; destruct wr; try discriminate W;
      unfold StudioUI.handler, StudioUI.with_app; cbn [StudioUI.app].
    + unfold Studio.handleSaveOutfit.
      destruct (Studio.resultImage (StudioUI.app w)) as [img|]; [|reflexivity].
      destruct (Studio.profile (StudioUI.app w)) as [p|]; [|reflexivity].
      destruct (negb (Js.truthy (Js.trim (Studio.newOutfitName (StudioUI.app w))))
                || negb (Js.truthy img)); reflexivity.
    + apply profilePage_thrown_storage.
    + apply profilePage_thrown_storage.
  - intros now w p img A En Hp Hri Himg B.
    unfold StudioUI.act in B. rewrite En in B.
    unfold StudioUI.handler, StudioUI.with_app in B. cbn [StudioUI.app] in B.
    simpl in En. apply andb_prop in En. destruct En as [_ Hn].
    unfold Studio.handleSaveOutfit in B. rewrite Hri, Hp, Hn, Himg in B.
    unfold Reach.agrees in A, B. simpl in B. rewrite <- A, Hp in B.
    injection B as B. unfold Studio.updatedProfile in B.
    apply (f_equal Studio.savedOutfits) in B. simpl in B.
    apply (f_equal (@length _)) in B. rewrite length_app in B. simpl in B. lia.
Qed.

Lemma memory_agrees_with_storage_witness :
  Reach.agrees
    (StudioUI.app
       (StudioUI.act 4 StudioUI.Header_profile
          (StudioUI.start 3 (Some Sample.legacy))))
  /\ Studio.localStorage
       (StudioUI.app
          (StudioUI.acts (StudioUI.save_outfit false 7 "Summer Casual")
                         SampleWorld.fresh_result))
     = Some (Studio.stringify Sample.profile)
  /\ ~ Reach.agrees
        (StudioUI.app
           (StudioUI.acts (StudioUI.save_outfit false 7 "Summer Casual")
                          SampleWorld.fresh_result)).
Proof.
  destruct memory_agrees_with_storage as (M1 & M2 & M3).
  split; [|split].
  - apply M1. apply Reach.written_act; [apply Reach.written_start|reflexivity].
  - exact (M2 7%N (StudioUI.Result_confirmSave false)
              (StudioUI.acts [(7%N, StudioUI.Result_addToLookbook);
                              (7%N, StudioUI.Result_name "Summer Casual")]
                             SampleWorld.fresh_result) eq_refl).
  - exact (M3 7%N
              (StudioUI.acts [(7%N, StudioUI.Result_addToLookbook);
                              (7%N, StudioUI.Result_name "Summer Casual")]
                             SampleWorld.fresh_result)
              Sample.profile "data:image/png;base64,PIXELS"
              eq_refl eq_refl eq_refl eq_refl eq_refl).
Defined.

Lemma profile_save_page (writable : bool) (now : N)
  (form : Studio.ProfilePage.State) (s : Studio.State) :
  let s1 := StudioUI.from_profilePage writable now
              (snd (Studio.ProfilePage.handleSave form)) s in
  Studio.page s1 = Page.creator \/ Studio.page s1 = Studio.page s.
Proof.
  unfold Studio.ProfilePage.handleSave.
  destruct (Studio.ProfilePage.incomplete form); simpl;
    [right; reflexivity|].
  destruct writable; [left|right]; reflexivity.
Qed.

Lemma handleSaveOutfit_page (writable : bool) (now : N) (s : Studio.State) :
  Studio.page (Studio.handleSaveOutfit writable now s) = Studio.page s.
Proof.
  unfold Studio.handleSaveOutfit.
  destruct (Studio.resultImage s) as [img|]; [|reflexivity].
  destruct (Studio.profile s); [|reflexivity].
  destruct (negb (Js.truthy (Js.trim (Studio.newOutfitName s)))
            || negb (Js.truthy img)); [reflexivity|].
  destruct writable; reflexivity.
Qed.

(** X6. In every state that the controls of [src/index.tsx] lead to
    from the start, at most one request to the service is pending, and
    one is pending exactly while the loading page is shown.  As that
    page has no control and hides the header, a second request cannot
    be sent before the first has settled. *)
Theorem at_most_one_request_in_flight :
  forall w : StudioUI.World,
    Reach.studio w ->
    Reach.one_in_flight w
    /\ length (StudioUI.pending w) <= 1
    /\ (Studio.page (StudioUI.app w) = Page.loading ->
        forall a, StudioUI.enabled w a = true ->
                  exists o, a = StudioUI.Service_settles o).
Proof.
  assert (Inv : forall w, Reach.studio w -> Reach.one_in_flight w).
  { intros w R. induction R as [now ls|now a w R IH].
    - unfold Reach.one_in_flight, StudioUI.start, Studio.load. simpl.
      destruct ls; simpl; discriminate.
    - unfold StudioUI.act. destruct (StudioUI.enabled w a) eqn:En; [|exact IH].
      destruct w as [s pend]. unfold Reach.one_in_flight in IH. simpl in IH.
      destruct pend as [|r [|r2 pend]]; [| |contradiction].
      + (* nothing pending, the page is not the loading page *)
        destruct a; simpl in En; try discriminate;
          unfold Reach.one_in_flight, StudioUI.handler, StudioUI.with_app;
          cbn [StudioUI.app StudioUI.pending];
          try (simpl; discriminate); try exact IH.
        * destruct (uploader_frame files s) as (_ & _ & _ & _ & U). rewrite U.
          exact IH.
        * pose proof (studio_begin_page now s) as B.
          destruct (Studio.handleGenerate_begin now s) as [s1 [req|]]; simpl.
          -- exact B.
          -- destruct B as [B|B]; rewrite B; [discriminate|exact IH].
        * rewrite handleSaveOutfit_page. exact IH.
        * destruct (profile_save_page writable now form s) as [P|P]; rewrite P;
            [discriminate|exact IH].
        * destruct writable; exact IH.
      + (* one pending, the page is the loading page *)
        destruct a; simpl in En; try rewrite IH in En; simpl in En;
          try discriminate.
        unfold Reach.one_in_flight. simpl.
        destruct (studio_end_page now o s) as [E|E]; rewrite E; discriminate. }
  intros w R. pose proof (Inv w R) as I.
  split; [exact I|]. unfold Reach.one_in_flight in I.
  split.
  - destruct (StudioUI.pending w) as [|r [|r2 pend]]; simpl;
      [lia | lia | contradiction].
  - intros Hpg a En.
    destruct a; simpl in En; try rewrite Hpg in En; simpl in En;
      try discriminate.
    exists o. reflexivity.
Qed.

Lemma at_most_one_request_in_flight_witness :
  length
    (StudioUI.pending
       (StudioUI.acts
          [(4%N, StudioUI.Home_create);
           (5%N, StudioUI.Creator_files
                   [ImageUploader.mkFile "image/png" "data:image/png;base64,SHIRT"]);
           (6%N, StudioUI.Creator_generate);
           (7%N, StudioUI.Creator_generate)]
          (StudioUI.start 3 (Some (Studio.stringify Sample.profile))))) <= 1.
Proof.
  apply at_most_one_request_in_flight.
  simpl. repeat apply Reach.studio_act. apply Reach.studio_start.
Defined.

(** X7. In every state that the controls of [src/index.tsx] lead to
    from the start, whether the writes to the storage succeed or throw,
    the save form is never open for a result that is marked as saved;
    hence "Confirm Save", which exists only in the open form, is never
    available for such a result. *)
Theorem saved_result_has_no_open_form :
  forall w : StudioUI.World,
    Reach.studio w ->
    Studio.isOutfitSaved (StudioUI.app w) = true ->
    Studio.isSavingOutfit (StudioUI.app w) = false
    /\ forall writable,
         StudioUI.enabled w (StudioUI.Result_confirmSave writable) = false.
Proof.
  assert (Inv : forall w, Reach.studio w ->
                          Studio.isOutfitSaved (StudioUI.app w) = true ->
                          Studio.isSavingOutfit (StudioUI.app w) = false).
  { intros w R. induction R as [now ls|now a w R IH].
    - unfold StudioUI.start, Studio.load. simpl. destruct ls; simpl; discriminate.
    - unfold StudioUI.act. destruct (StudioUI.enabled w a) eqn:En; [|exact IH].
      destruct w as [s pend]. simpl in IH.
      destruct a; simpl in En;
        unfold StudioUI.handler, StudioUI.with_app;
        cbn [StudioUI.app StudioUI.pending]; try exact IH;
        try (simpl; intros _; reflexivity); try (simpl; discriminate).
      + destruct (uploader_frame files s) as (_ & _ & U3 & U4 & _).
        rewrite U3, U4. exact IH.
      + pose proof (studio_generate_begin_frame now s) as B.
        destruct (Studio.handleGenerate_begin now s) as [s1 [req|]]; simpl in *;
          destruct B as (_ & _ & _ & _ & B5 & _ & B7); rewrite B5, B7; exact IH.
      + simpl. intro Hsaved. rewrite Hsaved in En.
        rewrite andb_false_r in En. discriminate En.
      + unfold Studio.handleSaveOutfit.
        destruct (Studio.resultImage s); [|exact IH].
        destruct (Studio.profile s); [|exact IH].
        destruct (negb (Js.truthy (Js.trim (Studio.newOutfitName s)))
                  || negb (Js.truthy s0)); [exact IH|].
        destruct writable; [reflexivity|exact IH].
      + match goal with
        | |- context [StudioUI.from_profilePage ?wr _ ?l s] =>
            destruct (profilePage_emits_frame wr now l s) as (P1 & P2)
        end.
        rewrite P1, P2. exact IH.
      + match goal with
        | |- context [StudioUI.from_profilePage ?wr _ ?l s] =>
            destruct (profilePage_emits_frame wr now l s) as (P1 & P2)
        end.
        rewrite P1, P2. exact IH.
      + pose proof (studio_generate_end_frame now o s) as E. simpl in E.
        destruct E as (_ & _ & _ & _ & E5 & _ & E7). rewrite E5, E7. exact IH. }
  intros w R Hsaved. pose proof (Inv w R Hsaved) as Hs.
  split; [exact Hs|]. intro writable. simpl. rewrite Hs.
  rewrite andb_false_r. reflexivity.
Qed.

Lemma acts_reach (l : list (N * StudioUI.Action)) :
  forall w, Reach.studio w -> Reach.studio (StudioUI.acts l w).
Proof.
  induction l as [|[now a] l IH]; intros w R; simpl; [exact R|].
  apply IH. apply Reach.studio_act. exact R.
Qed.

Lemma saved_result_has_no_open_form_witness :
  Studio.isSavingOutfit (StudioUI.app SampleWorld.after_save) = false.
Proof.
  apply (saved_result_has_no_open_form SampleWorld.after_save).
  - apply acts_reach. apply Reach.studio_start.
  - reflexivity.
Defined.

(** ** The profile page of [src/index.tsx] *)

Lemma incomplete_iff_not_ready (s : Studio.ProfilePage.State) :
  Studio.ProfilePage.incomplete s
  = negb (Spec.generation_ready (Studio.ProfilePage.name s)
            (Studio.ProfilePage.bodyScans s) (Studio.ProfilePage.height s)
            (Studio.ProfilePage.weight s)).
Proof.
  unfold Studio.ProfilePage.incomplete, Spec.generation_ready, Spec.complete.
  destruct (Js.truthy (Studio.ProfilePage.name s)),
           (BodyScan.front (Studio.ProfilePage.bodyScans s)),
           (BodyScan.side (Studio.ProfilePage.bodyScans s)),
           (BodyScan.back (Studio.ProfilePage.bodyScans s)),
           (Js.truthy (Studio.ProfilePage.height s)),
           (Js.truthy (Studio.ProfilePage.weight s)); reflexivity.
Qed.

(** X8. [handleSave] passes a profile to [onSave] only when the name,
    the height and the weight are non-empty and the scan has its three
    views, and then it passes exactly the fields of the form and goes
    to the creator page; otherwise it calls nothing back and only sets
    the error of the form.  So a profile saved from the form is always
    generation-ready. *)
Theorem handleSave_validates :
  forall s : Studio.ProfilePage.State,
    (Spec.generation_ready (Studio.ProfilePage.name s)
       (Studio.ProfilePage.bodyScans s) (Studio.ProfilePage.height s)
       (Studio.ProfilePage.weight s) = false ->
     Studio.ProfilePage.handleSave s
     = (Studio.ProfilePage.setLocalError
          (Some "Please complete your name, measurements, and the 3-angle body scan.") s,
        []))
    /\ (Spec.generation_ready (Studio.ProfilePage.name s)
          (Studio.ProfilePage.bodyScans s) (Studio.ProfilePage.height s)
          (Studio.ProfilePage.weight s) = true ->
        Studio.ProfilePage.handleSave s
        = (s, [Studio.ProfilePage.onSave
                 (Studio.ProfilePage.profile_of s (Studio.ProfilePage.savedOutfits s));
               Studio.ProfilePage.setPage Page.creator]))
    /\ (forall p, In (Studio.ProfilePage.onSave p)
                     (snd (Studio.ProfilePage.handleSave s)) ->
                  Spec.studio_ready (Some p) = true).
Proof.
  intro s. unfold Studio.ProfilePage.handleSave.
  rewrite incomplete_iff_not_ready.
  destruct (Spec.generation_ready (Studio.ProfilePage.name s)
              (Studio.ProfilePage.bodyScans s) (Studio.ProfilePage.height s)
              (Studio.ProfilePage.weight s)) eqn:G; simpl.
  - split; [discriminate|]. split; [reflexivity|].
    intros p [H|[H|[]]]; [|discriminate H].
    injection H as <-. exact G.
  - split; [reflexivity|]. split; [discriminate|]. intros p [].
Qed.

Lemma handleSave_validates_witness :
  snd (Studio.ProfilePage.handleSave (Studio.ProfilePage.mount None)) = []
  /\ length (snd (Studio.ProfilePage.handleSave
                    (Studio.ProfilePage.mount (Some Sample.profile)))) = 2.
Proof.
  split.
  - rewrite (proj1 (handleSave_validates (Studio.ProfilePage.mount None)) eq_refl).
    reflexivity.
  - rewrite (proj1 (proj2 (handleSave_validates
                             (Studio.ProfilePage.mount (Some Sample.profile)))) eq_refl).
    reflexivity.
Defined.

Lemma filter_filter_same {A : Type} (f : A -> bool) (l : list A) :
  filter f (filter f l) = filter f l.
Proof.
  induction l as [|x l IH]; simpl; [reflexivity|].
  destruct (f x) eqn:E; simpl; [rewrite E, IH|]; auto.
Qed.

(** X9. [handleDeleteOutfit] saves, without any validation of the form,
    a profile made of the fields of the form as they stand and of the
    outfits whose id differs from the one given: no outfit with that id
    is left, every other outfit is kept (in the same order), and
    deleting the same id again changes nothing more. *)
Theorem handleDeleteOutfit_removes_id :
  forall (idToDelete : string) (s : Studio.ProfilePage.State),
    let s1 := fst (Studio.ProfilePage.handleDeleteOutfit idToDelete s) in
    let kept := Studio.ProfilePage.savedOutfits s1 in
    snd (Studio.ProfilePage.handleDeleteOutfit idToDelete s)
    = [Studio.ProfilePage.onSave (Studio.ProfilePage.profile_of s kept)]
    /\ (forall o, In o kept <->
                  In o (Studio.ProfilePage.savedOutfits s)
                  /\ SavedOutfit.id o <> idToDelete)
    /\ length kept <= length (Studio.ProfilePage.savedOutfits s)
    /\ Studio.ProfilePage.savedOutfits
         (fst (Studio.ProfilePage.handleDeleteOutfit idToDelete s1)) = kept
    /\ Studio.ProfilePage.name s1 = Studio.ProfilePage.name s
    /\ Studio.ProfilePage.bodyScans s1 = Studio.ProfilePage.bodyScans s.
Proof.
  intros idToDelete s. simpl.
  split; [reflexivity|]. split; [|split; [|split; [|split; reflexivity]]].
  - intro o. rewrite filter_In. rewrite negb_true_iff.
    rewrite String.eqb_neq. reflexivity.
  - apply filter_length_le.
  - apply filter_filter_same.
Qed.

(** X10. [handleSaveOutfit] does nothing at all when the outfit name is
    empty or blank, when there is no result image, or when there is no
    profile; it does not reach the write to the storage then. *)
Theorem handleSaveOutfit_guard :
  forall (writable : bool) (now : N) (s : Studio.State),
    Js.trim (Studio.newOutfitName s) = EmptyString
    \/ Studio.resultImage s = None
    \/ Studio.resultImage s = Some EmptyString
    \/ Studio.profile s = None ->
    Studio.handleSaveOutfit writable now s = s.
Proof.
  intros writable now s H. unfold Studio.handleSaveOutfit.
  destruct (Studio.resultImage s) as [img|]; [|reflexivity].
  destruct (Studio.profile s) as [p|]; [|reflexivity].
  destruct H as [H|[H|[H|H]]]; try discriminate.
  - rewrite H. reflexivity.
  - injection H as ->. rewrite orb_true_r. reflexivity.
Qed.

Lemma handleSaveOutfit_guard_witness :
  Studio.handleSaveOutfit true 9
    (Studio.setNewOutfitName "   " (StudioUI.app SampleWorld.fresh_result))
  = Studio.setNewOutfitName "   " (StudioUI.app SampleWorld.fresh_result).
Proof.
  apply handleSaveOutfit_guard. left. reflexivity.
Defined.

(** ** Outfit identifiers *)

Lemma to_uint_nonnil (n : N) : N.to_uint n <> Decimal.Nil.
Proof.
  destruct n as [|p]; simpl; [discriminate|].
  apply DecimalPos.Unsigned.to_uint_nonnil.
Qed.

Lemma of_number_inj (a b : N) : Js.of_number a = Js.of_number b -> a = b.
Proof.
  unfold Js.of_number. intro H.
  apply (f_equal NilZero.uint_of_string) in H.
  rewrite !NilZero.usu in H by apply to_uint_nonnil.
  injection H as H. apply (f_equal N.of_uint) in H.
  rewrite !DecimalN.Unsigned.of_to in H. exact H.
Qed.

(** X11. Outfits created at different readings of the clock have
    different ids, in both versions; so, as long as no two outfits are
    saved within the same millisecond, deleting one outfit by its id
    removes no other. *)
Theorem outfit_ids_distinct :
  forall (t1 t2 : N) (n1 n2 i1 i2 : string),
    t1 <> t2 ->
    SavedOutfit.id (Studio.newOutfit t1 n1 i1)
      <> SavedOutfit.id (Studio.newOutfit t2 n2 i2)
    /\ SavedOutfit.id (Twin.newOutfit t1 n1 i1)
      <> SavedOutfit.id (Twin.newOutfit t2 n2 i2).
Proof.
  intros t1 t2 n1 n2 i1 i2 Hne. split; intro H; simpl in H;
    injection H as H; apply Hne; apply of_number_inj; exact H.
Qed.

Lemma outfit_ids_distinct_witness :
  SavedOutfit.id (Studio.newOutfit 1700000000000 "A" "x")
  <> SavedOutfit.id (Studio.newOutfit 1700000000001 "A" "x").
Proof.
  apply (outfit_ids_distinct 1700000000000 1700000000001 "A" "A" "x" "x").
  discriminate.
Defined.

(** ** Uploading the clothing image *)

(** X12. On the creator page of [src/index.tsx], a picked file whose
    type does not start with [image/] leaves the clothing image as it
    was and shows an error that names the field; a picked image becomes
    the clothing image, with the type of the file as its media type and
    the second comma-separated field of its data URL as its content,
    and the error is cleared; with no file the error is cleared and
    nothing else happens.  Only the first file counts, and the page and
    the profile are never touched. *)
Theorem clothing_upload :
  forall (now : N) (w : StudioUI.World) (files : list ImageUploader.File),
    Studio.page (StudioUI.app w) = Page.creator ->
    let w1 := StudioUI.act now (StudioUI.Creator_files files) w in
    Studio.page (StudioUI.app w1) = Page.creator
    /\ Studio.profile (StudioUI.app w1) = Studio.profile (StudioUI.app w)
    /\ match files with
       | [] =>
           Studio.clothingImage (StudioUI.app w1) = Studio.clothingImage (StudioUI.app w)
           /\ Studio.error (StudioUI.app w1) = None
       | file :: _ =>
           if Js.startsWith (ImageUploader.file_type file) "image/"
           then
             Studio.clothingImage (StudioUI.app w1)
             = Some (ImageFile.mk
                       (Js.split_1 Js.comma (ImageUploader.reader_result file))
                       (ImageUploader.file_type file))
             /\ Studio.error (StudioUI.app w1) = None
           else
             Studio.clothingImage (StudioUI.app w1)
             = Studio.clothingImage (StudioUI.app w)
             /\ Studio.error (StudioUI.app w1)
                = Some "Invalid file type for Clothing Item. Please upload an image."
       end.
Proof.
  intros now w files Hpg. unfold StudioUI.act. simpl. rewrite Hpg. simpl.
  unfold ImageUploader.onFileChange.
  destruct files as [|file rest]; simpl.
  - repeat split; assumption.
  - destruct (Js.startsWith (ImageUploader.file_type file) "image/"); simpl;
      repeat split; assumption.
Qed.

Lemma clothing_upload_witness :
  Studio.error
    (StudioUI.app
       (StudioUI.act 5
          (StudioUI.Creator_files
             [ImageUploader.mkFile "application/pdf" "data:application/pdf;base64,JVBER"])
          (StudioUI.mkWorld (SampleState.studio (Some Sample.profile) None) [])))
  = Some "Invalid file type for Clothing Item. Please upload an image.".
Proof.
  pose proof (clothing_upload 5%N
                (StudioUI.mkWorld (SampleState.studio (Some Sample.profile) None) [])
                [ImageUploader.mkFile "application/pdf" "data:application/pdf;base64,JVBER"]
                eq_refl) as H.
  cbv zeta in H. destruct H as (_ & _ & H). simpl in H. apply H.
Defined.

(** ** How a generation ends *)

(** X13. In [src/index.tsx], once the request has been sent, whatever
    the service does, the handler ends either on the result page with a
    result image and no error, or on the creator page with no result
    image and a non-empty error message: the loading page is always
    left. *)
Theorem studio_generation_ends :
  forall ai now later s req,
    snd (Studio.handleGenerate ai now later s) = [req] ->
    let s1 := fst (Studio.handleGenerate ai now later s) in
    (Studio.page s1 = Page.result
     /\ Studio.error s1 = None
     /\ exists url, Studio.resultImage s1 = Some url)
    \/ (Studio.page s1 = Page.creator
        /\ Studio.resultImage s1 = None
        /\ exists e, Studio.error s1 = Some e /\ Js.truthy e = true).
Proof.
  intros ai now later s req. unfold Studio.handleGenerate, Studio.handleGenerate_begin.
  destruct (Studio.clothingImage s) as [c|]; [|discriminate].
  destruct (Studio.profile s) as [p|]; [|discriminate].
  destruct (BodyScan.front (Studio.bodyScans p)) as [f|]; [|discriminate].
  destruct (BodyScan.side (Studio.bodyScans p)) as [sd|]; [|discriminate].
  destruct (BodyScan.back (Studio.bodyScans p)) as [b|]; [|discriminate].
  cbn [snd fst]. intros _.
  match goal with |- context [ai ?r] => destruct (ai r) as [resp|m] end.
  - unfold Studio.handleGenerate_end.
    destruct (Studio.find_imagePart resp) as [[[blob|] t]|].
    + left. repeat split. eexists. reflexivity.
    + right. repeat split. eexists. split; [reflexivity|]. reflexivity.
    + right. repeat split. eexists. split; [reflexivity|]. reflexivity.
  - right. repeat split. eexists. split; [reflexivity|].
    apply or_else_truthy. reflexivity.
Qed.

Lemma studio_generation_ends_witness :
  Studio.page
    (fst (Studio.handleGenerate SampleState.refusing 2 3
            (SampleState.studio (Some Sample.profile) (Some SampleState.clothing))))
  = Page.creator.
Proof.
  destruct (studio_generation_ends SampleState.refusing 2%N 3%N
              (SampleState.studio (Some Sample.profile) (Some SampleState.clothing))
              _ eq_refl) as [(H & _)|(H & _)].
  - discriminate H.
  - exact H.
Defined.

(** X14. In [src/unnamed/part_000], once the request has been sent, the
    handler ends either on the result page with a result image, no
    error, the saved flag cleared and the outfit name emptied, or on
    the creator page with no result image and a non-empty error
    message.  A response without candidates, content or parts, or a
    part whose inline data has no media type, ends in the second way. *)
Theorem twin_generation_ends :
  (forall ai typeError s req,
      snd (Twin.handleGenerate ai typeError s) = [req] ->
      let s1 := fst (Twin.handleGenerate ai typeError s) in
      (Twin.page s1 = Page.result
       /\ Twin.error s1 = None
       /\ Twin.isOutfitSaved s1 = false
       /\ Twin.newOutfitName s1 = EmptyString
       /\ exists url, Twin.resultImage s1 = Some url)
      \/ (Twin.page s1 = Page.creator
          /\ Twin.resultImage s1 = None
          /\ exists e, Twin.error s1 = Some e /\ Js.truthy e = true))
  /\ (forall typeError s r,
      Twin.scan_response r = Twin.Throws ->
      Twin.handleGenerate_end typeError (GenAI.Resolved r) s
      = Twin.catch_error (Some typeError) s).
Proof.
  split.
  - intros ai typeError s req.
    unfold Twin.handleGenerate, Twin.handleGenerate_begin.
    destruct (Twin.profile s) as [p|]; [|discriminate].
    destruct (Twin.clothingImage s) as [c|]; [|discriminate].
    destruct (BodyScan.front (Twin.bodyScans p)) as [f|]; [|discriminate].
    destruct (BodyScan.side (Twin.bodyScans p)) as [sd|]; [|discriminate].
    destruct (BodyScan.back (Twin.bodyScans p)) as [b|]; [|discriminate].
    cbn [snd fst]. intros _.
    match goal with |- context [ai ?r] => destruct (ai r) as [resp|m] end.
    + unfold Twin.handleGenerate_end.
      destruct (Twin.scan_response resp) as [img| |].
      * left. repeat split. eexists. reflexivity.
      * right. repeat split. eexists. split; reflexivity.
      * right. repeat split. eexists. split; reflexivity.
    + right. repeat split. eexists. split; reflexivity.
  - intros typeError s r H. unfold Twin.handleGenerate_end. rewrite H. reflexivity.
Qed.

Lemma twin_generation_ends_witness :
  Twin.page
    (Twin.handleGenerate_end "Cannot read properties of undefined"
       (GenAI.Resolved (GenAI.mkResponse None None))
       (SampleState.twin (Some (SampleState.twin_profile None))
                         (Some SampleState.clothing)))
  = Page.creator.
Proof.
  rewrite (proj2 twin_generation_ends "Cannot read properties of undefined"
             (SampleState.twin (Some (SampleState.twin_profile None))
                               (Some SampleState.clothing))
             (GenAI.mkResponse None None) eq_refl).
  reflexivity.
Defined.

(** ** Persistence in [src/unnamed/part_000] *)

(** X15. [handleSaveProfile] of [src/unnamed/part_000] writes the
    storage first.  When the write succeeds the profile in memory and
    the stored one are both the new profile, the error is cleared, and
    the next start opens on the creator page with that profile.  When
    the write throws, the profile in memory and the stored record stay
    as they were and an error is shown. *)
Theorem twin_save_profile :
  forall (p : Twin.Profile) (s : Twin.State),
    (let s1 := Twin.handleSaveProfile true p s in
     Twin.profile s1 = Some p
     /\ Twin.localStorage s1 = Some (Twin.Json p)
     /\ Twin.error s1 = None
     /\ forall now,
          Twin.profile (Twin.load (Twin.init now (Twin.localStorage s1))) = Some p
          /\ Twin.page (Twin.load (Twin.init now (Twin.localStorage s1)))
             = Page.creator)
    /\ (let s1 := Twin.handleSaveProfile false p s in
        Twin.profile s1 = Twin.profile s
        /\ Twin.localStorage s1 = Twin.localStorage s
        /\ Twin.error s1
           = Some "Could not save your profile. Your browser storage might be full.").
Proof.
  intros p s. split; simpl; repeat split.
Qed.

(** X16. [handleSaveOutfit] of [src/unnamed/part_000] puts the new
    outfit, with its name trimmed, in front of the list when the
    storage can be written.  When the write throws, the outfit list in
    memory and the stored record are unchanged and an error is set, but
    the result is marked as saved all the same. *)
Theorem twin_save_outfit :
  forall (now : N) (s : Twin.State) (p : Twin.Profile) (img : string),
    Twin.resultImage s = Some img ->
    Js.truthy img = true ->
    Twin.profile s = Some p ->
    Js.truthy (Js.trim (Twin.newOutfitName s)) = true ->
    (let s1 := Twin.handleSaveOutfit true now s in
     option_map Twin.savedOutfits (Twin.profile s1)
     = Some (SavedOutfit.mk ("outfit-" ++ Js.of_number now)%string
                            (Js.trim (Twin.newOutfitName s)) img
             :: Twin.savedOutfits p)
     /\ Twin.localStorage s1 = option_map Twin.Json (Twin.profile s1)
     /\ Twin.isOutfitSaved s1 = true
     /\ Twin.isSavingOutfit s1 = false)
    /\ (let s1 := Twin.handleSaveOutfit false now s in
        Twin.profile s1 = Some p
        /\ Twin.localStorage s1 = Twin.localStorage s
        /\ Twin.error s1
           = Some "Could not save your profile. Your browser storage might be full."
        /\ Twin.isOutfitSaved s1 = true
        /\ Twin.isSavingOutfit s1 = false).
Proof.
  intros now s p img Hri Himg Hp Hname.
  unfold Twin.handleSaveOutfit. rewrite Hri, Hp, Himg, Hname. simpl.
  split; repeat split. exact Hp.
Qed.

Lemma twin_save_outfit_witness :
  Twin.isOutfitSaved
    (Twin.handleSaveOutfit false 9
       (Twin.setNewOutfitName " Office "
          (Twin.setResultImage (Some "data:image/png;base64,PIXELS")
             (SampleState.twin (Some (SampleState.twin_profile None))
                               (Some SampleState.clothing)))))
  = true.
Proof.
  apply (twin_save_outfit 9
           (Twin.setNewOutfitName " Office "
              (Twin.setResultImage (Some "data:image/png;base64,PIXELS")
                 (SampleState.twin (Some (SampleState.twin_profile None))
                                   (Some SampleState.clothing))))
           (SampleState.twin_profile None) "data:image/png;base64,PIXELS"
           eq_refl eq_refl eq_refl eq_refl).
Defined.

(** X17. In [src/unnamed/part_000] too, adding an outfit with a fresh id
    (in front of the list) and then deleting that id from the profile
    page opened on the result saves a profile with the original list of
    outfits. *)
Theorem twin_add_then_remove_outfit :
  forall (p : Twin.Profile) (o : SavedOutfit.t),
    ~ In (SavedOutfit.id o) (map SavedOutfit.id (Twin.savedOutfits p)) ->
    let form := TwinProfilePage.mount (Some (Twin.updatedProfile p o)) in
    snd (TwinProfilePage.handleDeleteOutfit (SavedOutfit.id o) form)
    = [TwinProfilePage.onSave
         (TwinProfilePage.profile_of form (Twin.savedOutfits p))].
Proof.
  intros p o H form. unfold TwinProfilePage.handleDeleteOutfit.
  cbn [snd].
  change (TwinProfilePage.savedOutfits form) with (o :: Twin.savedOutfits p).
  rewrite (filter_out_prepended o (Twin.savedOutfits p) H). reflexivity.
Qed.

Lemma twin_add_then_remove_outfit_witness :
  snd (TwinProfilePage.handleDeleteOutfit (SavedOutfit.id Sample.outfit)
         (TwinProfilePage.mount
            (Some (Twin.updatedProfile (SampleState.twin_profile None) Sample.outfit))))
  = [TwinProfilePage.onSave
       (TwinProfilePage.profile_of
          (TwinProfilePage.mount
             (Some (Twin.updatedProfile (SampleState.twin_profile None) Sample.outfit)))
          [])].
Proof.
  apply (twin_add_then_remove_outfit (SampleState.twin_profile None) Sample.outfit).
  simpl. intros [].
Defined.

(** ** Invariants of the capture session *)

Lemma consistent_step (e : BodyScanCapture.Event) (s : BodyScanCapture.State) :
  Countdown.consistent s ->
  Countdown.consistent (fst (BodyScanCapture.step_event e s)).
Proof.
  intro H. destruct s as [st im pv cd ref str ivs nx].
  destruct e as [|cam h| | | |v|]; simpl.
  - (* Capture *)
    destruct H as [Hiv|(n & Hcd & Hn & h & Href & Hiv)]; simpl in *; subst.
    + destruct cd as [c|]; [left; reflexivity|].
      rewrite capture_idle. right. exists 3%Z. unfold Countdown.counting. simpl.
      split; [reflexivity|]. split; [lia|]. exists nx. split; reflexivity.
    + right. exists n. unfold Countdown.counting. simpl.
      split; [reflexivity|]. split; [exact Hn|]. exists h. split; reflexivity.
  - (* Tick *)
    destruct H as [Hiv|(n & Hcd & Hn & h0 & Href & Hiv)]; simpl in *; subst.
    + rewrite tick_stale by (simpl; intros i []). left. reflexivity.
    + destruct (Pos.eq_dec h0 h) as [->|Hne].
      * destruct (Z.eq_dec n 1) as [->|Hn1].
        -- rewrite tick_fire.
           destruct (BodyScanCapture.videoRef cam && BodyScanCapture.context cam);
             left; reflexivity.
        -- rewrite tick_down by lia. right. exists (n - 1)%Z.
           unfold Countdown.counting. simpl.
           split; [reflexivity|]. split; [lia|]. exists h. split; reflexivity.
      * rewrite tick_stale.
        -- right. exists n. unfold Countdown.counting. simpl.
           split; [reflexivity|]. split; [exact Hn|]. exists h0. split; reflexivity.
        -- simpl. intros i [<-|[]]. simpl. exact Hne.
  - (* Retake *)
    destruct H as [Hiv|(n & Hcd & Hn & h & Href & Hiv)]; simpl in *; subst.
    + left. reflexivity.
    + right. exists n. unfold Countdown.counting. simpl.
      split; [reflexivity|]. split; [exact Hn|]. exists h. split; reflexivity.
  - (* Confirm *)
    assert (K : BodyScanCapture.countdown
                  (fst (BodyScanCapture.handleConfirm
                          (BodyScanCapture.mkState st im pv cd ref str ivs nx))) = cd
                /\ BodyScanCapture.countdownIntervalRef
                     (fst (BodyScanCapture.handleConfirm
                             (BodyScanCapture.mkState st im pv cd ref str ivs nx))) = ref
                /\ BodyScanCapture.intervals
                     (fst (BodyScanCapture.handleConfirm
                             (BodyScanCapture.mkState st im pv cd ref str ivs nx))) = ivs).
    { unfold BodyScanCapture.handleConfirm. simpl.
      destruct pv as [p|]; [|repeat split].
      destruct (Js.truthy p); simpl; [|repeat split].
      destruct st; repeat split. }
    destruct K as (K1 & K2 & K3).
    unfold Countdown.consistent, Countdown.counting in *.
    rewrite K1, K2, K3. exact H.
  - (* Cleanup *)
    left. unfold BodyScanCapture.cleanup.
    destruct H as [Hiv|(n & Hcd & Hn & h & Href & Hiv)]; simpl in *; subst.
    + destruct ref; reflexivity.
    + simpl. rewrite Pos.eqb_refl. reflexivity.
  - (* Granted *)
    unfold BodyScanCapture.startCamera_granted.
    destruct v; [|exact H].
    unfold Countdown.consistent, Countdown.counting in *. simpl in *. exact H.
  - (* Denied *)
    exact H.
Qed.

Lemma capture_consistent (s : BodyScanCapture.State) :
  Reach.capture s -> Countdown.consistent s.
Proof.
  intro R. induction R as [|e s R IH].
  - left. reflexivity.
  - apply consistent_step. exact IH.
Qed.

(** X18. In every state of a capture session, the clean-up and the
    re-run of the effect counted among its events, at most one timer is
    live; while one is live the countdown shows its count, which is
    between 1 and 3, and its handle is the one kept for
    [clearInterval]; and while no countdown is shown no timer is live.
    The converse does not hold: when the clean-up of the effect runs
    during a countdown, the value stays on show with no live timer. *)
Theorem one_timer_at_a_time :
  (forall s : BodyScanCapture.State,
      Reach.capture s ->
      Countdown.consistent s
      /\ length (BodyScanCapture.intervals s) <= 1
      /\ (forall i, In i (BodyScanCapture.intervals s) ->
            BodyScanCapture.countdown s = Some (BodyScanCapture.count i)
            /\ (1 <= BodyScanCapture.count i <= 3)%Z
            /\ BodyScanCapture.countdownIntervalRef s
               = Some (BodyScanCapture.handle i))
      /\ (BodyScanCapture.countdown s = None -> BodyScanCapture.intervals s = []))
  /\ (let s := fst (BodyScanCapture.run
                      [BodyScanCapture.Capture; BodyScanCapture.Cleanup]
                      BodyScanCapture.init) in
      Reach.capture s
      /\ BodyScanCapture.countdown s = Some 3%Z
      /\ BodyScanCapture.intervals s = []
      /\ BodyScanCapture.handleCapture s = s).
Proof.
  split.
  - intros s R. pose proof (capture_consistent s R) as C. split; [exact C|].
    destruct C as [Hiv|(n & Hcd & Hn & h & Href & Hiv)].
    + rewrite Hiv. simpl. split; [lia|]. split; [intros i []|reflexivity].
    + rewrite Hcd, Hiv, Href. simpl. split; [lia|]. split.
      * intros i [<-|[]]. simpl. split; [reflexivity|]. split; [exact Hn|reflexivity].
      * discriminate.
  - cbv zeta. split; [|repeat split].
    change (Reach.capture
              (fst (BodyScanCapture.step_event BodyScanCapture.Cleanup
                      (fst (BodyScanCapture.step_event BodyScanCapture.Capture
                              BodyScanCapture.init))))).
    apply Reach.capture_step. apply Reach.capture_step. apply Reach.capture_init.
Qed.

Lemma one_timer_at_a_time_witness :
  length
    (BodyScanCapture.intervals
       (fst (BodyScanCapture.step_event BodyScanCapture.Capture
               (fst (BodyScanCapture.step_event BodyScanCapture.Capture
                       BodyScanCapture.init))))) <= 1.
Proof.
  apply (proj1 one_timer_at_a_time).
  apply Reach.capture_step. apply Reach.capture_step. apply Reach.capture_init.
Defined.

Lemma stored_before_step (e : BodyScanCapture.Event) (s : BodyScanCapture.State) :
  Progress.stored_before s ->
  Progress.stored_before (fst (BodyScanCapture.step_event e s))
  /\ Progress.completions_complete (snd (BodyScanCapture.step_event e s)).
Proof.
  intro H. destruct s as [st im pv cd ref str ivs nx].
  unfold Progress.stored_before in *. simpl in H.
  destruct e as [|cam h| | | |v|]; simpl.
  - (* Capture *)
    split; [|intros scans []].
    unfold BodyScanCapture.handleCapture. simpl. destruct cd; exact H.
  - (* Tick *)
    unfold BodyScanCapture.tick.
    destruct (BodyScanCapture.find_interval h
                (BodyScanCapture.mkState st im pv cd ref str ivs nx)) as [i|];
      [|split; [exact H|intros scans []]].
    simpl.
    destruct (BodyScanCapture.count i - 1 =? 0)%Z;
      [|split; [exact H|intros scans []]].
    destruct ref as [r|];
      destruct (BodyScanCapture.videoRef cam), (BodyScanCapture.context cam);
      simpl; (split; [exact H|]); intros scans K; simpl in K;
      repeat (destruct K as [K|K]; [discriminate K|]); destruct K.
  - (* Retake *)
    split; [exact H|intros scans []].
  - (* Confirm *)
    unfold BodyScanCapture.handleConfirm. simpl.
    destruct pv as [p|]; [|split; [exact H|intros scans []]].
    destruct (Js.truthy p); simpl; [|split; [exact H|intros scans []]].
    destruct st; simpl in *.
    + split; [discriminate|intros scans []].
    + split; [split; [exact H|discriminate]|intros scans []].
    + split; [exact H|].
      intros scans [K|[K|[]]]; [|discriminate K].
      injection K as <-. unfold Spec.complete. simpl.
      destruct H as [Hf Hs].
      destruct (BodyScan.front im); [|congruence].
      destruct (BodyScan.side im); [reflexivity|congruence].
  - (* Cleanup *)
    unfold BodyScanCapture.cleanup. simpl.
    destruct ref as [r|]; simpl; (split; [exact H|]);
      intros scans K; destruct str; simpl in K;
      repeat (destruct K as [K|K]; [discriminate K|]); destruct K.
  - (* Granted *)
    split; [|intros scans []].
    unfold BodyScanCapture.startCamera_granted. destruct v; exact H.
  - (* Denied *)
    split; [exact H|].
    intros scans K; simpl in K;
      repeat (destruct K as [K|K]; [discriminate K|]); destruct K.
Qed.

(** X19. Whatever the user does in a capture session, in whatever
    order, every scan handed to [onComplete] has its three views: the
    session cannot report an incomplete scan. *)
Theorem onComplete_scans_are_complete :
  forall es : list BodyScanCapture.Event,
    Progress.completions_complete
      (snd (BodyScanCapture.run es BodyScanCapture.init)).
Proof.
  assert (G : forall es s,
             Progress.stored_before s ->
             Progress.completions_complete (snd (BodyScanCapture.run es s))).
  { induction es as [|e es IH]; intros s H; simpl.
    - intros scans [].
    - destruct (stored_before_step e s H) as (H1 & H2).
      destruct (BodyScanCapture.step_event e s) as [s1 out1] eqn:E1.
      simpl in H1, H2. specialize (IH s1 H1).
      destruct (BodyScanCapture.run es s1) as [s2 out2] eqn:E2.
      simpl in IH |- *. intros scans K. apply in_app_or in K.
      destruct K as [K|K]; [exact (H2 scans K)|exact (IH scans K)]. }
  intro es. apply G. exact I.
Qed.

(** X20. [handleConfirm] stores nothing and calls nothing back when no
    still is pending: when the preview is null, when it is the empty
    string, and in particular right after [handleRetake], which
    discards the still and keeps the step and the stored views. *)
Theorem confirm_needs_a_still :
  forall s : BodyScanCapture.State,
    (BodyScanCapture.preview s = None
     \/ BodyScanCapture.preview s = Some EmptyString ->
     BodyScanCapture.handleConfirm s = (s, []))
    /\ BodyScanCapture.step (BodyScanCapture.handleRetake s) = BodyScanCapture.step s
    /\ BodyScanCapture.images (BodyScanCapture.handleRetake s)
       = BodyScanCapture.images s
    /\ BodyScanCapture.handleConfirm (BodyScanCapture.handleRetake s)
       = (BodyScanCapture.handleRetake s, []).
Proof.
  intro s. split; [|repeat split].
  intros [H|H]; unfold BodyScanCapture.handleConfirm; rewrite H; reflexivity.
Qed.

Lemma confirm_needs_a_still_witness :
  BodyScanCapture.handleConfirm BodyScanCapture.init = (BodyScanCapture.init, []).
Proof.
  apply (proj1 (confirm_needs_a_still BodyScanCapture.init)).
  left. reflexivity.
Defined.

(** X21. The clean-up of the effect cancels the countdown: in every
    state of a session it leaves no live timer, so that no later firing
    draws a frame or changes anything; and it stops the tracks of the
    stream exactly when a stream is held. *)
Theorem cleanup_cancels_countdown :
  forall s : BodyScanCapture.State,
    Reach.capture s ->
    let s1 := fst (BodyScanCapture.cleanup s) in
    BodyScanCapture.intervals s1 = []
    /\ (forall cam h, BodyScanCapture.tick cam h s1 = (s1, []))
    /\ snd (BodyScanCapture.cleanup s)
       = (if BodyScanCapture.streamRef s then [BodyScanCapture.stopTracks] else []).
Proof.
  intros s R.
  pose proof (capture_consistent s R) as C.
  assert (E : BodyScanCapture.intervals (fst (BodyScanCapture.cleanup s)) = []).
  { unfold BodyScanCapture.cleanup.
    destruct C as [Hiv|(n & Hcd & Hn & h & Href & Hiv)].
    - destruct (BodyScanCapture.countdownIntervalRef s); simpl; rewrite Hiv;
        reflexivity.
    - rewrite Href. simpl. rewrite Hiv. simpl. rewrite Pos.eqb_refl. reflexivity. }
  cbv zeta. split; [exact E|]. split.
  - intros cam h. apply tick_stale. rewrite E. intros i [].
  - unfold BodyScanCapture.cleanup.
    destruct (BodyScanCapture.countdownIntervalRef s); reflexivity.
Qed.

Lemma cleanup_cancels_countdown_witness :
  BodyScanCapture.intervals
    (fst (BodyScanCapture.cleanup
            (fst (BodyScanCapture.step_event BodyScanCapture.Capture
                    BodyScanCapture.init)))) = [].
Proof.
  apply cleanup_cancels_countdown.
  apply Reach.capture_step. apply Reach.capture_init.
Defined.

(** X22. When the countdown reaches zero and the video element or the
    drawing context is missing, no frame is drawn and the preview stays
    as it was, but the countdown still ends and its timer is cleared, so
    that capture can be pressed again. *)
Theorem countdown_without_camera :
  forall (s : BodyScanCapture.State) (c1 c2 c3 : BodyScanCapture.Camera),
    Countdown.idle s ->
    BodyScanCapture.videoRef c3 && BodyScanCapture.context c3 = false ->
    let h := BodyScanCapture.nextHandle s in
    let r := BodyScanCapture.run
               [BodyScanCapture.Capture; BodyScanCapture.Tick c1 h;
                BodyScanCapture.Tick c2 h; BodyScanCapture.Tick c3 h] s in
    snd r = []
    /\ BodyScanCapture.preview (fst r) = BodyScanCapture.preview s
    /\ Countdown.idle (fst r)
    /\ BodyScanCapture.countdown (BodyScanCapture.handleCapture (fst r)) = Some 3%Z.
Proof.
  intros s c1 c2 c3 Hidle Hcam h r.
  destruct s as [st im pv cd ref str ivs nh]. destruct Hidle as [Hcd Hiv].
  simpl in Hcd, Hiv, h. subst cd ivs. unfold r, h.
  capture_sim. rewrite Hcam. capture_sim.
  repeat split.
Qed.

Lemma countdown_without_camera_witness :
  snd (BodyScanCapture.run
         [BodyScanCapture.Capture;
          BodyScanCapture.Tick (BodyScanCapture.mkCamera false true "x") 1;
          BodyScanCapture.Tick (BodyScanCapture.mkCamera false true "x") 1;
          BodyScanCapture.Tick (BodyScanCapture.mkCamera false true "x") 1]
         BodyScanCapture.init) = [].
Proof.
  apply (countdown_without_camera BodyScanCapture.init
           (BodyScanCapture.mkCamera false true "x")
           (BodyScanCapture.mkCamera false true "x")
           (BodyScanCapture.mkCamera false true "x") init_idle eq_refl).
Defined.

(** X23. The profile page of [src/index.tsx] with the capture session
    it opens: when the callbacks of a full three-round scan are
    delivered to the page, its body scan is the scan just made and the
    scanner is closed; the name, the measurements and the outfits of the
    form are untouched, and if name, height and weight are filled in,
    [handleSave] then saves a profile carrying that scan. *)
Theorem scan_then_save :
  forall (form : Studio.ProfilePage.State) (p1 p2 p3 : string),
    Js.truthy p1 = true -> Js.truthy p2 = true -> Js.truthy p3 = true ->
    let es := (Countdown.take 1 p1 ++ [BodyScanCapture.Confirm])
              ++ (Countdown.take 2 p2 ++ [BodyScanCapture.Confirm])
              ++ (Countdown.take 3 p3 ++ [BodyScanCapture.Confirm]) in
    let scans := BodyScan.mk (Some (Countdown.shot p1)) (Some (Countdown.shot p2))
                             (Some (Countdown.shot p3)) in
    let form1 :=
      fold_left (fun f e => Studio.ProfilePage.from_capture e f)
                (snd (BodyScanCapture.run es BodyScanCapture.init))
                (Studio.ProfilePage.setIsScanning true form) in
    Studio.ProfilePage.bodyScans form1 = scans
    /\ Studio.ProfilePage.isScanning form1 = false
    /\ Studio.ProfilePage.name form1 = Studio.ProfilePage.name form
    /\ Studio.ProfilePage.savedOutfits form1 = Studio.ProfilePage.savedOutfits form
    /\ (Js.truthy (Studio.ProfilePage.name form) = true ->
        Js.truthy (Studio.ProfilePage.height form) = true ->
        Js.truthy (Studio.ProfilePage.weight form) = true ->
        exists p, snd (Studio.ProfilePage.handleSave form1)
                  = [Studio.ProfilePage.onSave p; Studio.ProfilePage.setPage Page.creator]
                  /\ Studio.bodyScans p = scans).
Proof.
  intros form p1 p2 p3 H1 H2 H3 es scans form1.
  assert (R : snd (BodyScanCapture.run es BodyScanCapture.init)
              = [BodyScanCapture.drawImage p1; BodyScanCapture.drawImage p2;
                 BodyScanCapture.drawImage p3;
                 BodyScanCapture.onComplete scans; BodyScanCapture.onClose]).
  { unfold es, Countdown.take, Countdown.delivering, BodyScanCapture.init.
    cbn [app]. capture_sim. cbn [BodyScanCapture.videoRef BodyScanCapture.context
                                 BodyScanCapture.dataUrl andb].
    capture_sim. rewrite (confirm_pending _ _ p1) by exact H1.
    capture_sim. cbn [BodyScanCapture.videoRef BodyScanCapture.context
                      BodyScanCapture.dataUrl andb Pos.succ].
    capture_sim. rewrite (confirm_pending _ _ p2) by exact H2.
    capture_sim. cbn [BodyScanCapture.videoRef BodyScanCapture.context
                      BodyScanCapture.dataUrl andb Pos.succ].
    capture_sim. rewrite (confirm_pending _ _ p3) by exact H3.
    reflexivity. }
  unfold form1. rewrite R. destruct form as [n b h w ty c wa hp so le sc].
  simpl. repeat split.
  intros Hn Hh Hw. unfold Studio.ProfilePage.handleSave, Studio.ProfilePage.incomplete.
  simpl in *. rewrite Hn, Hh, Hw. simpl. eexists. split; reflexivity.
Qed.

Lemma scan_then_save_witness :
  Studio.ProfilePage.isScanning
    (fold_left (fun f e => Studio.ProfilePage.from_capture e f)
       (snd (BodyScanCapture.run
               ((Countdown.take 1 "data:image/jpeg;base64,AAA" ++ [BodyScanCapture.Confirm])
                ++ (Countdown.take 2 "data:image/jpeg;base64,BBB" ++ [BodyScanCapture.Confirm])
                ++ (Countdown.take 3 "data:image/jpeg;base64,CCC" ++ [BodyScanCapture.Confirm]))
               BodyScanCapture.init))
       (Studio.ProfilePage.setIsScanning true (Studio.ProfilePage.mount None)))
  = false.
Proof.
  pose proof (scan_then_save (Studio.ProfilePage.mount None)
                "data:image/jpeg;base64,AAA" "data:image/jpeg;base64,BBB"
                "data:image/jpeg;base64,CCC" eq_refl eq_refl eq_refl) as H.
  cbv zeta in H. destruct H as (_ & H & _). exact H.
Defined.

(** ** The body-type suggestion of [src/unnamed/part_000] *)

Lemma named_iff (t : string) (b : BodyType) :
  TwinProfilePage.named t = Some b <-> BodyType_text b = t.
Proof.
  unfold TwinProfilePage.named. split.
  - intro H. apply find_some in H. destruct H as [_ H].
    apply String.eqb_eq in H. exact H.
  - intros <-. destruct b; reflexivity.
Qed.

Lemma named_none_iff (t : string) :
  TwinProfilePage.named t = None <-> forall b, BodyType_text b <> t.
Proof.
  split.
  - intros H b Hb. apply named_iff in Hb. congruence.
  - intro H. destruct (TwinProfilePage.named t) as [b|] eqn:E; [|reflexivity].
    apply named_iff in E. exfalso. exact (H b E).
Qed.

(** X24. When the analysis settles, [isAnalyzing] is false again in
    every case.  The body type of the form changes only when the parsed
    answer names one of the five body types, and then it becomes that
    type and the error is left alone; for any other answer, and for any
    exception, the body type is unchanged and an error is shown. *)
Theorem analysis_settles :
  forall (a : TwinProfilePage.Analysis) (s : TwinProfilePage.State),
    let s1 := TwinProfilePage.handleAnalyzeBodyType_end a s in
    TwinProfilePage.isAnalyzing s1 = false
    /\ (forall b,
          a = TwinProfilePage.Parsed (Some (BodyType_text b)) ->
          TwinProfilePage.bodyType s1 = Some b
          /\ TwinProfilePage.localError s1 = TwinProfilePage.localError s)
    /\ ((forall b, a <> TwinProfilePage.Parsed (Some (BodyType_text b))) ->
        TwinProfilePage.bodyType s1 = TwinProfilePage.bodyType s
        /\ exists e, TwinProfilePage.localError s1 = Some e)
    /\ TwinProfilePage.name s1 = TwinProfilePage.name s
    /\ TwinProfilePage.bodyScans s1 = TwinProfilePage.bodyScans s
    /\ TwinProfilePage.savedOutfits s1 = TwinProfilePage.savedOutfits s.
Proof.
  intros a s. cbv zeta. unfold TwinProfilePage.handleAnalyzeBodyType_end.
  destruct a as [[t|]|].
  - destruct (TwinProfilePage.named t) as [b|] eqn:E.
    + pose proof (proj1 (named_iff t b) E) as Ht.
      assert (Tr : Js.truthy t = true) by (subst t; destruct b; reflexivity).
      rewrite Tr. simpl. split; [reflexivity|]. split.
      * intros b' Hb'. injection Hb' as Hb'.
        assert (b' = b).
        { symmetry in Hb'. apply (proj2 (named_iff t b')) in Hb'. congruence. }
        subst b'. split; reflexivity.
      * split; [|repeat split]. intro H. exfalso. apply (H b). rewrite Ht. reflexivity.
    + assert (No : forall b, TwinProfilePage.Parsed (Some t)
                              <> TwinProfilePage.Parsed (Some (BodyType_text b))).
      { intros b Hb. injection Hb as Hb. symmetry in Hb.
        apply (proj2 (named_iff t b)) in Hb. congruence. }
      destruct (Js.truthy t); simpl.
      * split; [reflexivity|]. split; [intros b Hb; exfalso; exact (No b Hb)|].
        split; [|repeat split]. intros _. split; [reflexivity|eexists; reflexivity].
      * split; [reflexivity|]. split; [intros b Hb; exfalso; exact (No b Hb)|].
        split; [|repeat split]. intros _. split; [reflexivity|eexists; reflexivity].
  - simpl. split; [reflexivity|]. split; [intros b Hb; discriminate Hb|].
    split; [|repeat split]. intros _. split; [reflexivity|eexists; reflexivity].
  - simpl. split; [reflexivity|]. split; [intros b Hb; discriminate Hb|].
    split; [|repeat split]. intros _. split; [reflexivity|eexists; reflexivity].
Qed.

Lemma analysis_settles_witness :
  TwinProfilePage.bodyType
    (TwinProfilePage.handleAnalyzeBodyType_end
       (TwinProfilePage.Parsed (Some "Hourglass"))
       (TwinProfilePage.setIsAnalyzing true (TwinProfilePage.mount None)))
  = Some Hourglass.
Proof.
  pose proof (analysis_settles (TwinProfilePage.Parsed (Some "Hourglass"))
                (TwinProfilePage.setIsAnalyzing true (TwinProfilePage.mount None)))
    as H.
  cbv zeta in H. destruct H as (_ & H & _).
  exact (proj1 (H Hourglass eq_refl)).
Defined.

(** X25. [handleAnalyzeBodyType] sends a request only when the scan has
    its three views and height and weight are non-empty; the request
    then carries the front, side and back views in this order followed
    by one text part, and the form shows that the analysis is running.
    Otherwise nothing is sent and the form only gets an error. *)
Theorem analysis_guard :
  forall s : TwinProfilePage.State,
    let ready := Spec.complete (TwinProfilePage.bodyScans s)
                 && Js.truthy (TwinProfilePage.height s)
                 && Js.truthy (TwinProfilePage.weight s) in
    (ready = false ->
     TwinProfilePage.handleAnalyzeBodyType_begin s
     = (TwinProfilePage.setLocalError
          (Some "Please complete the body scan and provide height and weight before analyzing.") s,
        None))
    /\ (ready = true ->
        exists f sd b,
          BodyScan.front (TwinProfilePage.bodyScans s) = Some f
          /\ BodyScan.side (TwinProfilePage.bodyScans s) = Some sd
          /\ BodyScan.back (TwinProfilePage.bodyScans s) = Some b
          /\ option_map GenAI.contents
               (snd (TwinProfilePage.handleAnalyzeBodyType_begin s))
             = Some [GenAI.image_part f; GenAI.image_part sd; GenAI.image_part b;
                     GenAI.text_part (TwinProfilePage.analysis_prompt s)]
          /\ TwinProfilePage.isAnalyzing
               (fst (TwinProfilePage.handleAnalyzeBodyType_begin s)) = true
          /\ TwinProfilePage.localError
               (fst (TwinProfilePage.handleAnalyzeBodyType_begin s)) = None).
Proof.
  intro s. cbv zeta. unfold TwinProfilePage.handleAnalyzeBodyType_begin, Spec.complete.
  destruct (BodyScan.front (TwinProfilePage.bodyScans s)) as [f|];
  destruct (BodyScan.side (TwinProfilePage.bodyScans s)) as [sd|];
  destruct (BodyScan.back (TwinProfilePage.bodyScans s)) as [b|];
    simpl; try (split; [reflexivity|discriminate]).
  destruct (Js.truthy (TwinProfilePage.height s)),
           (Js.truthy (TwinProfilePage.weight s)); simpl;
    try (split; [reflexivity|discriminate]).
  split; [discriminate|]. intros _. exists f, sd, b. repeat split.
Qed.

Lemma analysis_guard_witness :
  snd (TwinProfilePage.handleAnalyzeBodyType_begin (TwinProfilePage.mount None))
  = None.
Proof.
  rewrite (proj1 (analysis_guard (TwinProfilePage.mount None)) eq_refl).
  reflexivity.
Defined.

(** ** The loading tips *)

Lemma indexOf_bounds (l : list string) (x : string) :
  (-1 <= Tips.indexOf l x < Z.of_nat (length l))%Z.
Proof.
  induction l as [|y l IH]; simpl Tips.indexOf; [simpl; lia|].
  destruct (String.eqb y x); [simpl length; lia|].
  destruct (Tips.indexOf l x) as [|p|p] eqn:E; simpl length; lia.
Qed.

Lemma indexOf_absent (l : list string) (x : string) :
  ~ In x l -> Tips.indexOf l x = (-1)%Z.
Proof.
  induction l as [|y l IH]; simpl; intro H; [reflexivity|].
  destruct (String.eqb y x) eqn:E.
  - apply String.eqb_eq in E. exfalso. apply H. left. exact E.
  - rewrite IH by (intro K; apply H; right; exact K). reflexivity.
Qed.

(** X26. The updater of the loading tip always yields one of the six
    tips, never [undefined], whatever text was shown before; a text that
    is not in the list is followed by the first tip; and from any tip
    of the list six rounds lead back to it. *)
Theorem tips_rotate :
  (forall prevTip, exists t, Tips.next prevTip = Some t /\ In t Tips.loadingTips)
  /\ (forall prevTip, ~ In prevTip Tips.loadingTips ->
                      Tips.next prevTip = nth_error Tips.loadingTips 0)
  /\ (forall tip, In tip Tips.loadingTips -> Tips.rounds 6 tip = Some tip).
Proof.
  split; [|split].
  - intro prevTip. unfold Tips.next.
    pose proof (indexOf_bounds Tips.loadingTips prevTip) as B.
    set (i := Tips.indexOf Tips.loadingTips prevTip) in *.
    change (Z.of_nat (length Tips.loadingTips)) with 6%Z in *.
    assert (R : (0 <= Z.rem (i + 1) 6 < 6)%Z).
    { apply Z.rem_bound_pos; lia. }
    destruct (nth_error Tips.loadingTips (Z.to_nat (Z.rem (i + 1) 6))) as [t|] eqn:E.
    + exists t. split; [reflexivity|]. apply nth_error_In in E. exact E.
    + apply nth_error_None in E. change (length Tips.loadingTips) with 6 in E. lia.
  - intros prevTip H. unfold Tips.next. rewrite indexOf_absent by exact H.
    reflexivity.
  - intros tip H. simpl in H.
    repeat (destruct H as [<-|H]; [vm_compute; reflexivity|]). destruct H.
Qed.

Lemma tips_rotate_witness :
  Tips.next "not a tip" = Some "Analyzing fabric textures...".
Proof.
  rewrite (proj1 (proj2 tips_rotate) "not a tip").
  - reflexivity.
  - simpl. intros [H|[H|[H|[H|[H|[H|[]]]]]]]; discriminate H.
Defined.

(** ** What the instruction text says *)

Lemma prefix_app (p r : string) : String.prefix p (p ++ r) = true.
Proof.
  induction p as [|c p IH]; simpl; [destruct r; reflexivity|].
  destruct (ascii_dec c c) as [_|N]; [exact IH|exfalso; apply N; reflexivity].
Qed.

Lemma includes_of_prefix (s p : string) :
  String.prefix p s = true -> Js.includes s p = true.
Proof.
  intro H. destruct s; simpl in *; rewrite H; reflexivity.
Qed.

Lemma includes_here (p r : string) : Js.includes (p ++ r) p = true.
Proof.
  apply includes_of_prefix, prefix_app.
Qed.

Lemma includes_after (a s p : string) :
  Js.includes s p = true -> Js.includes (a ++ s) p = true.
Proof.
  intro H. induction a as [|c a IH]; simpl; [exact H|].
  rewrite IH. apply orb_true_r.
Qed.

Lemma prefix_before (p s b : string) :
  String.prefix p s = true -> String.prefix p (s ++ b) = true.
Proof.
  revert s. induction p as [|c p IH]; intros s H.
  - destruct (s ++ b)%string; reflexivity.
  - destruct s as [|d s]; simpl in *; [discriminate|].
    destruct (ascii_dec c d); [apply IH; exact H|discriminate].
Qed.

Lemma includes_before (s b p : string) :
  Js.includes s p = true -> Js.includes (s ++ b) p = true.
Proof.
  induction s as [|c s IH]; intro H.
  - cbn [Js.includes] in H. rewrite orb_false_r in H.
    apply includes_of_prefix. apply (prefix_before p EmptyString b H).
  - cbn [Js.includes] in H. apply orb_true_iff in H. destruct H as [H|H].
    + apply includes_of_prefix. apply (prefix_before p (String c s) b H).
    + change (String c s ++ b)%string with (String c (s ++ b)).
      cbn [Js.includes]. rewrite (IH H). apply orb_true_r.
Qed.

Lemma includes_concat (sep x : string) (l : list string) (line : string) :
  In line l -> Js.includes line x = true ->
  Js.includes (String.concat sep l) x = true.
Proof.
  intros Hin Hx. induction l as [|a l IH]; [destruct Hin|].
  destruct l as [|b l].
  - destruct Hin as [<-|[]]. exact Hx.
  - change (String.concat sep (a :: b :: l))
      with (a ++ sep ++ String.concat sep (b :: l))%string.
    destruct Hin as [<-|Hin].
    + apply includes_before. exact Hx.
    + apply includes_after, includes_after. apply IH. exact Hin.
Qed.

Lemma includes_middle (a x b : string) : Js.includes (a ++ x ++ b) x = true.
Proof.
  apply includes_after. apply includes_here.
Qed.

(** X27. The instruction text of the request names the selected pose in
    both versions; in [src/index.tsx] it also names the user, and in
    [src/unnamed/part_000] it states the body type of the profile, or
    [not specified] when the profile has none. *)
Theorem prompt_mentions :
  (forall p pose,
      Js.includes (Studio.prompt p pose) (Pose_text pose) = true
      /\ Js.includes (Studio.prompt p pose) (Studio.name p) = true)
  /\ (forall p pose,
      Js.includes (Twin.prompt p pose) (Pose_text pose) = true
      /\ Js.includes (Twin.prompt p pose) (Twin.bodyType_or_unspecified p) = true).
Proof.
  split; intros p pose; split.
  - unfold Studio.prompt.
    eapply includes_concat;
      [cbn [In]; do 26 right; left; reflexivity | apply includes_middle].
  - unfold Studio.prompt.
    eapply includes_concat;
      [cbn [In]; do 4 right; left; reflexivity | apply includes_middle].
  - unfold Twin.prompt.
    eapply includes_concat;
      [cbn [In]; do 18 right; left; reflexivity | apply includes_middle].
  - unfold Twin.prompt.
    eapply includes_concat;
      [cbn [In]; do 6 right; left; reflexivity | apply includes_middle].
Qed.

(** ** A legacy profile on the creator page *)

(** X28. A user whose stored record is of the old kind with fewer than
    three photos is loaded with an incomplete scan: with a clothing
    image chosen, [handleGenerate] of [src/index.tsx] sends nothing to
    the service and opens the profile page, where the scan can be
    made. *)
Theorem legacy_profile_must_rescan :
  forall ai now later sp ph c,
    Studio.Stored.photos sp = Some ph ->
    length ph < 3 ->
    let s := Studio.setClothingImage (Some c)
               (Studio.load now (Studio.init now (Some sp))) in
    snd (Studio.handleGenerate ai now later s) = []
    /\ Studio.page (fst (Studio.handleGenerate ai now later s)) = Page.profile
    /\ Studio.error (fst (Studio.handleGenerate ai now later s))
       = Some "Please complete the 3-angle body scan in your profile for best results.".
Proof.
  intros ai now later sp ph c Hph Hlen.
  destruct sp as [n ph' b h w ty ch wa hp so]. simpl in Hph. subst ph'.
  destruct ph as [|x1 [|x2 [|x3 rest]]]; simpl in Hlen; try lia;
    destruct so; repeat split.
Qed.

Lemma legacy_profile_must_rescan_witness :
  Studio.page
    (fst (Studio.handleGenerate SampleState.refusing 2 3
            (Studio.setClothingImage (Some SampleState.clothing)
               (Studio.load 2 (Studio.init 2 (Some Sample.legacy))))))
  = Page.profile.
Proof.
  assert (L : length [Sample.image "AAAA"] < 3) by (simpl; lia).
  exact (proj1 (proj2 (legacy_profile_must_rescan SampleState.refusing 2%N 3%N
                         Sample.legacy [Sample.image "AAAA"] SampleState.clothing
                         eq_refl L))).
Defined.
